(** * DadHatHub backend: a shallow embedding of the Express server

    The repository holds one Express application in several revisions:
    [src/server.js] (the same handlers as [src/unnamed/part_001]), and two
    older revisions, [src/unnamed/part_000] and [src/unnamed/part_002],
    whose webhook handler delegates to [handleCheckoutSessionCompleted].

    Layout of the development:
    - [Js]       the JavaScript primitives the handlers rely on
                 ([||] on strings, [String], [parseInt], [parseFloat] and
                 multiplication in binary64);
    - [Stripe], [Printful], [Api]  the shapes of the objects exchanged
                 with the payment processor, the fulfillment provider and
                 the browser;
    - [Eff]      an exception-and-trace monad for the handlers' effects;
    - [Express]  the body-parsing middleware in front of the webhook route;
    - [Env]      the answers of the collaborators, as parameters;
    - [ServerJs], [Part000], [Part002]  the handlers, one module a revision;
    - [Processor], [Obs]  what a line item read back carries, and what is
                 observed of a run;
    - [Demo], [Fixture]  concrete collaborators, to run the handlers;
    - [Calls]    the requests a run sends, in order;
    - the theorems, after all definitions. *)

From Stdlib Require Import ZArith List String Ascii Bool Lia.
From Stdlib Require Import Decimal DecimalString DecimalZ.
From Stdlib Require Import Floats.
Import ListNotations.
Local Open Scope string_scope.

(* ================================================================== *)
(** ** JavaScript primitives *)
(* ================================================================== *)

Module Js.

(** A property that may be [undefined] or [null] is an [option]; both are
    [None], where the handlers only test it for truthiness, dereference
    it or pass it on.  The identifiers of a cart item, which [server.js]
    prints with [String], keep the two apart: see [numeric]. *)

(** Truthiness of a string-valued property: [undefined], [null] and the
    empty string are falsy. *)
Definition truthy (x : option string) : bool :=
  match x with
  | Some s => negb (s =? "")
  | None => false
  end.

(** [x || d] with a string literal [d]. *)
Definition or_default (x : option string) (d : string) : string :=
  match x with
  | Some s => if s =? "" then d else s
  | None => d
  end.

(** [x || y] where [y] may itself be undefined. *)
Definition or_else (x y : option string) : option string :=
  if truthy x then x else y.

(** [x || null]. *)
Definition or_null (x : option string) : option string := or_else x None.

(** The result of [parseInt]: an integer-valued JavaScript number,
    [NaN], or an infinity.  [Int z] is the number whose value is [z]. *)
Inductive jsint : Type :=
| NaN
| Int (z : Z)
| Infinity (negative : bool).

(** A property that holds an integer-valued number, [null], or nothing
    ([undefined]).  The number read from the JSON numeral [n] is the
    double nearest to [n]. *)
Inductive numeric : Type :=
| Absent
| Null
| Number (n : Z).

(** [Number.isSafeInteger(n)]: the integers a double holds exactly, with
    no other integer rounding to the same double. *)
Definition isSafeInteger (n : Z) : bool := (Z.abs n <? 2 ^ 53)%Z.

(** The decimal digits of an integer, with a minus sign for a negative
    one. *)
Definition decimal (n : Z) : string := NilZero.string_of_int (Z.to_int n).

(** The value of the double nearest to an integer (ties to even);
    [None] when that is an infinity. *)
Definition nearest_double (n : Z) : option Z :=
  if isSafeInteger n then Some n
  else
    match binary_normalize prec emax n 0 false with
    | S754_finite s m e =>
        Some (if s then - Z.shiftl (Z.pos m) e else Z.shiftl (Z.pos m) e)%Z
    | S754_zero _ => Some 0%Z
    | _ => None
    end.

Definition rounds_to (v c : Z) : bool :=
  match nearest_double c with
  | Some d => (d =? v)%Z
  | None => false
  end.

(** Number::toString picks, for a double [v], the decimal with the
    fewest significant digits that rounds to [v], and among those the one
    nearest to [v] (the even one on a tie).  [candidate v n k] is that
    decimal among those of [k] significant digits, for [v] of [n]
    digits: the multiples of [10^(n-k)] next to [v] are the only ones to
    try. *)
Definition candidate (v : Z) (n k : nat) : option Z :=
  let p := (10 ^ Z.of_nat (n - k))%Z in
  let q := (v / p)%Z in
  let below := (q * p)%Z in
  let above := (below + p)%Z in
  match rounds_to v below, rounds_to v above with
  | true, true =>
      if (v - below <? above - v)%Z then Some below
      else if (above - v <? v - below)%Z then Some above
      else if Z.even q then Some below else Some above
  | true, false => Some below
  | false, true => Some above
  | false, false => None
  end.

Fixpoint shortest_from (v : Z) (n k fuel : nat) : Z :=
  match fuel with
  | O => v
  | S fuel' =>
      match candidate v n k with
      | Some c => c
      | None => shortest_from v n (S k) fuel'
      end
  end.

(** Seventeen significant digits tell any two doubles apart. *)
Definition shortest (v : Z) : Z :=
  shortest_from v (String.length (decimal v)) 1 17.

Fixpoint strip_zeros (reversed : list ascii) : list ascii :=
  match reversed with
  | "0"%char :: rest => strip_zeros rest
  | _ => reversed
  end.

Definition significant (digits : string) : string :=
  string_of_list_ascii
    (List.rev (strip_zeros (List.rev (list_ascii_of_string digits)))).

(** The form with an exponent, of a number of 22 digits or more:
    "1e+21", "1.1805916207174113e+21". *)
Definition exponential (digits : string) : string :=
  let e := decimal (Z.of_nat (String.length digits - 1)) in
  match significant digits with
  | String d EmptyString => String d ("e+" ++ e)
  | String d rest => String d ("." ++ rest ++ "e+" ++ e)
  | EmptyString => EmptyString
  end.

Definition print_positive (v : Z) : string :=
  let digits := decimal (shortest v) in
  if (String.length digits <=? 21)%nat then digits else exponential digits.

(** [String(n)] for an integer-valued number [n], also what a template
    literal makes of it.  A safe integer prints as its decimal digits;
    beyond, the number is the double nearest to [n], printed with its
    shortest digits, and with an exponent from 1e21 on. *)
Definition toString (n : Z) : string :=
  if isSafeInteger n then decimal n
  else
    match nearest_double n with
    | Some v =>
        if (v <? 0)%Z then "-" ++ print_positive (- v) else print_positive v
    | None => if (n <? 0)%Z then "-Infinity" else "Infinity"
    end.

(** [String(x)] where [x] is an integer, [null] or [undefined]. *)
Definition String_ (x : numeric) : string :=
  match x with
  | Number n => toString n
  | Null => "null"
  | Absent => "undefined"
  end.

Definition is_digit (c : ascii) : bool :=
  let n := nat_of_ascii c in (48 <=? n)%nat && (n <=? 57)%nat.

(** The ASCII part of ECMAScript's WhiteSpace and LineTerminator:
    TAB, LF, VT, FF, CR and SP. *)
Definition is_white_space (c : ascii) : bool :=
  let n := nat_of_ascii c in
  ((9 <=? n)%nat && (n <=? 13)%nat) || (n =? 32)%nat.

Fixpoint trim_start (s : string) : string :=
  match s with
  | String c s' => if is_white_space c then trim_start s' else s
  | EmptyString => EmptyString
  end.

(** The longest prefix of decimal digits, and what follows it. *)
Fixpoint digit_prefix (s : string) : string :=
  match s with
  | String c s' => if is_digit c then String c (digit_prefix s') else EmptyString
  | EmptyString => EmptyString
  end.

Fixpoint after_digits (s : string) : string :=
  match s with
  | String c s' => if is_digit c then after_digits s' else s
  | EmptyString => EmptyString
  end.

(** The mathematical value of a string of decimal digits. *)
Definition digits_value (ds : string) : option Z :=
  match ds with
  | EmptyString => None
  | _ => option_map Z.of_uint (NilEmpty.uint_of_string ds)
  end.

(** The number of mathematical value [z]: the nearest double. *)
Definition number_of (z : Z) : jsint :=
  match nearest_double z with
  | Some d => Int d
  | None => Infinity (z <? 0)%Z
  end.

Definition parse_digits (s : string) : jsint :=
  match digits_value (digit_prefix s) with
  | Some n => number_of n
  | None => NaN
  end.

Definition negate (n : jsint) : jsint :=
  match n with
  | NaN => NaN
  | Int z => Int (- z)
  | Infinity negative => Infinity (negb negative)
  end.

(** [parseInt(x, 10)]: leading white space is skipped, one sign is read,
    then the longest prefix of digits, whose value is rounded to a
    double; with no digit the result is [NaN].
    [parseInt(undefined, 10)] parses the text "undefined", hence [NaN]. *)
Definition parseInt10 (x : option string) : jsint :=
  match x with
  | None => NaN
  | Some s =>
      match trim_start s with
      | String "-" r => negate (parse_digits r)
      | String "+" r => parse_digits r
      | r => parse_digits r
      end
  end.

(** *** Numbers: IEEE 754 binary64 *)

(** The double nearest to [m * 10^e10] (ties to even), for a digit string
    of value [m].  Both operands of the division are exact integers, so
    the quotient is rounded once. *)
Definition decimal_to_double (negative : bool) (m : Z) (e10 : Z) : float :=
  match m with
  | Zpos p =>
      if (0 <=? e10)%Z
      then SF2Prim (binary_normalize prec emax
                      (if negative then - (m * 10 ^ e10) else m * 10 ^ e10) 0 false)
      else SF2Prim (SFdiv prec emax
                      (S754_finite negative p 0)
                      (S754_finite false (Z.to_pos (10 ^ (- e10))) 0))
  | _ => if negative then (-0)%float else 0%float
  end.

Definition strip_sign (s : string) : bool * string :=
  match s with
  | String "-" r => (true, r)
  | String "+" r => (false, r)
  | _ => (false, s)
  end.

(** The ExponentPart of a decimal literal, when one is there: [e] or [E],
    an optional sign and at least one digit. *)
Definition exponent_part (s : string) : Z :=
  match s with
  | String c r =>
      if (c =? "e")%char || (c =? "E")%char
      then
        let (neg, ds) := strip_sign r in
        match digits_value (digit_prefix ds) with
        | Some n => if neg then (- n)%Z else n
        | None => 0%Z
        end
      else 0%Z
  | EmptyString => 0%Z
  end.

(** [parseFloat(s)] on a string: the longest prefix of [s], after leading
    white space, that is a StrDecimalLiteral, read as a double; [NaN] when
    there is none. *)
Definition parseFloat_string (s : string) : float :=
  let (negative, r) := strip_sign (trim_start s) in
  if prefix "Infinity" r
  then (if negative then neg_infinity else infinity)
  else
    let ip := digit_prefix r in
    let r1 := after_digits r in
    let fp := match r1 with String "." t => digit_prefix t | _ => EmptyString end in
    let r2 := match r1 with String "." t => after_digits t | _ => r1 end in
    match digits_value (ip ++ fp) with
    | None => nan
    | Some m => decimal_to_double negative m (exponent_part r2 - Z.of_nat (length fp))
    end.

(** [parseFloat(x)]; [parseFloat(undefined)] reads the text "undefined". *)
Definition parseFloat (x : option string) : float :=
  match x with
  | Some s => parseFloat_string s
  | None => nan
  end.

(** [n || null] on a number: zero is falsy. *)
Definition num_or_null (x : option Z) : option Z :=
  match x with
  | Some 0%Z => None
  | _ => x
  end.

(** A template literal's rendering of a string that may be undefined. *)
Definition template (x : option string) : string :=
  match x with
  | Some s => s
  | None => "undefined"
  end.

End Js.

(* ================================================================== *)
(** ** Objects of the payment processor *)
(* ================================================================== *)

Module Stripe.

(** Metadata is a flat object from keys to strings. *)
Definition Metadata : Type := list (string * string).

Fixpoint get (key : string) (m : Metadata) : option string :=
  match m with
  | [] => None
  | (k, v) :: rest => if k =? key then Some v else get key rest
  end.

Record Address : Type := {
  line1 : option string;
  line2 : option string;
  city : option string;
  state : option string;
  country : option string;
  postal_code : option string
}.

Record CustomerDetails : Type := {
  name : option string;
  address : option Address;
  phone : option string
}.

(** A checkout session as an event or [sessions.retrieve] carries it. *)
Record Session : Type := {
  id : string;
  customer_details : option CustomerDetails;
  customer_email : option string
}.

(** A verified event: [event.type] and [event.data.object]. *)
Record Event : Type := {
  type : string;
  data_object : Session
}.

Record Product : Type := {
  product_metadata : option Metadata
}.

Record Price : Type := {
  metadata : option Metadata;
  product : option Product
}.

(** A line item as [listLineItems] or an expanded session returns it. *)
Record LineItem : Type := {
  price : option Price;
  quantity : Z
}.

(** The parameters of [checkout.sessions.create].  A metadata value is
    what the handler wrote: a text, or a property of the cart item handed
    over as it is. *)
Inductive MetadataValue : Type :=
| Text (text : string)
| Raw (x : Js.numeric).

Definition MetadataParams : Type := list (string * MetadataValue).

Record ProductData : Type := {
  pd_name : option string;
  pd_images : list (option string);
  pd_metadata : option MetadataParams
}.

Record PriceData : Type := {
  currency : string;
  product_data : ProductData;
  unit_amount : float;
  price_data_metadata : option MetadataParams
}.

Record LineItemParams : Type := {
  price_data : PriceData;
  li_quantity : Z
}.

Record SessionParams : Type := {
  payment_method_types : list string;
  line_items : list LineItemParams;
  mode : string;
  param_customer_email : option string;
  success_url : string;
  cancel_url : string;
  allowed_countries : list string;
  billing_address_collection : string
}.

End Stripe.

(* ================================================================== *)
(** ** Objects of the fulfillment provider *)
(* ================================================================== *)

Module Printful.

(** The recipient of an order.  A field is [None] when the object literal
    that builds the recipient has no such property, or gives it an
    undefined value: JSON serialisation leaves both out. *)
Record Recipient : Type := {
  name : option string;
  address1 : option string;
  address2 : option string;
  city : option string;
  state_code : option string;
  country_code : option string;
  zip : option string;
  email : option string;
  phone : option string
}.

(** An order line: [{ variant_id, quantity }] in [server.js],
    [{ sync_variant_id, quantity }] in the older revisions. *)
Inductive OrderItem : Type :=
| VariantLine (variant_id : Js.jsint) (quantity : Z)
| SyncVariantLine (sync_variant_id : string) (quantity : Z).

Record Order : Type := {
  recipient : Recipient;
  items : list OrderItem;
  confirm : option Z
}.

(** The catalog: [GET /store/products] and [GET /store/products/:id]. *)
Record File : Type := {
  file_type : option string;
  preview_url : option string
}.

Record SyncVariant : Type := {
  sv_id : option Z;
  sv_name : option string;
  retail_price : option string;
  files : option (list File)
}.

Record StoreProduct : Type := {
  sp_id : Z;
  sp_name : option string;
  sp_thumbnail_url : option string
}.

Record SyncProduct : Type := {
  id : option Z;
  sync_name : option string;
  description : option string;
  thumbnail_url : option string
}.

(** [response.data.result] of [GET /store/products/:id]; either part
    may be missing from it. *)
Record ProductResult : Type := {
  sync_product : option SyncProduct;
  sync_variants : option (list SyncVariant)
}.

End Printful.

(* ================================================================== *)
(** ** What the server itself sends and receives *)
(* ================================================================== *)

Module Api.

(** An item of the cart in the body of
    [POST /api/stripe/create-checkout-session]: the product identifier
    [id] and the variant identifier are numbers, [null], or missing. *)
Record CartItem : Type := {
  id : Js.numeric;
  name : option string;
  price : float;
  thumbnail_url : option string;
  variant_id : Js.numeric;
  quantity : Z
}.

Record CustomerInfo : Type := {
  email : option string
}.

(** The parsed body of [POST /api/stripe/create-checkout-session]. *)
Record CheckoutRequest : Type := {
  cart : option (list CartItem);
  customerInfo : option CustomerInfo
}.

(** An entry of [GET /api/products]. *)
Record ProductSummary : Type := {
  ps_id : Z;
  ps_name : string;
  ps_thumbnail_url : string;
  ps_price : float;
  ps_variant_id : option Z
}.

(** [GET /api/products/:id]. *)
Record VariantView : Type := {
  v_id : option Z;
  v_name : option string;
  v_price : float;
  v_thumbnail_url : option string
}.

Record ProductView : Type := {
  p_id : option Z;
  p_name : option string;
  p_description : string;
  p_thumbnail_url : option string;
  p_variants : list VariantView
}.

Inductive Body : Type :=
| Text (text : string)
| JsonId (id : string)
| JsonError (error : string) (details : option string)
| JsonProducts (products : list ProductSummary)
| JsonProduct (product : ProductView).

Record Response : Type := {
  status : nat;
  body : Body
}.

End Api.

(* ================================================================== *)
(** ** Effects: exceptions and the trace of outbound calls *)
(* ================================================================== *)

Module Eff.

Local Open Scope list_scope.

(** The body of an error response as axios keeps it in
    [error.response.data]: an object parsed from JSON, given by the text
    that shows it, or a text that is not JSON (the empty text for a
    response without a body). *)
Inductive Data : Type :=
| DataObject (shown : string)
| DataText (text : string).

(** What a handler can catch.  The constructors name the error classes;
    [message] is [err.message].  An axios error carries the body of the
    response, when there was a response. *)
Inductive Exn : Type :=
| StripeSignatureVerificationError (msg : string)
| StripeError (msg : string)
| AxiosError (msg : string) (data : option Data)
| TypeError (msg : string)
| ReferenceError (msg : string)
| Error (msg : string).

Definition message (e : Exn) : string :=
  match e with
  | StripeSignatureVerificationError m => m
  | StripeError m => m
  | AxiosError m _ => m
  | TypeError m => m
  | ReferenceError m => m
  | Error m => m
  end.

(** [error.response?.data]: [undefined] for an error without a
    response. *)
Definition response_data (e : Exn) : option Data :=
  match e with
  | AxiosError _ data => data
  | _ => None
  end.

(** A value [console.error] prints that is not a string. *)
Inductive Printed : Type :=
| PrintedUndefined
| PrintedObject (shown : string)
| PrintedError (err : Exn)
| PrintedLineItem (item : Stripe.LineItem).

(** The observable actions of a handler besides its HTTP response: the
    requests it sends to the two upstream services, and what it writes
    with [console.error].  ([console.log] lines are left out.)
    [ConsoleError text] is a call whose arguments are all strings:
    [text] is the line written, the arguments separated by a space.
    [ConsoleErrorWith text values] is a call whose strings, [text], are
    followed by values that are not strings. *)
Inductive Call : Type :=
| ListLineItems (session_id : string) (limit : nat)
| RetrieveSession (session_id : string) (expand : list string)
| CreateSession (params : Stripe.SessionParams)
| PostOrder (order : Printful.Order)
| GetStoreProducts
| GetStoreProduct (product_id : string)
| ConsoleError (text : string)
| ConsoleErrorWith (text : string) (values : list Printed).

(** A computation returns a value or throws, and leaves the calls it
    made, oldest first. *)
Definition M (A : Type) : Type := (Exn + A) * list Call.

Definition ret {A : Type} (a : A) : M A := (inr a, []).

Definition throw {A : Type} (e : Exn) : M A := (inl e, []).

Definition bind {A B : Type} (m : M A) (k : A -> M B) : M B :=
  match m with
  | (inl e, t) => (inl e, t)
  | (inr a, t) => let (r, t') := k a in (r, t ++ t')
  end.

(** [try { m } catch (e) { h e }]. *)
Definition try_catch {A : Type} (m : M A) (h : Exn -> M A) : M A :=
  match m with
  | (inl e, t) => let (r, t') := h e in (r, t ++ t')
  | (inr a, t) => (inr a, t)
  end.

(** [await] of a request to a collaborator that answers [answer]. *)
Definition request {A : Type} (c : Call) (answer : Exn + A) : M A :=
  (answer, [c]).

(** The result of a synchronous library call that may throw. *)
Definition lift {A : Type} (r : Exn + A) : M A := (r, []).

Definition console_error (text : string) : M unit :=
  (inr tt, [ConsoleError text]).

Definition console_error_with (text : string) (values : list Printed) : M unit :=
  (inr tt, [ConsoleErrorWith text values]).

(** [console.error(text, x)] for [x] the body of an error response, or
    [undefined]: a body that is a text is one more string of the line. *)
Definition console_error_data (text : string) (x : option Data) : M unit :=
  match x with
  | Some (DataText body) => console_error (text ++ " " ++ body)%string
  | Some (DataObject shown) => console_error_with text [PrintedObject shown]
  | None => console_error_with text [PrintedUndefined]
  end.

(** A call of an [async] function whose promise is not awaited: its
    calls happen, its outcome is dropped. *)
Definition spawn (m : M unit) : M unit := (inr tt, snd m).

Fixpoint mapM {A B : Type} (f : A -> M B) (l : list A) : M (list B) :=
  match l with
  | [] => ret []
  | a :: rest =>
      bind (f a) (fun b => bind (mapM f rest) (fun bs => ret (b :: bs)))
  end.

(** [await Promise.all(l.map(async ...))]: every callback runs, so every
    request is sent; the whole rejects when one of them does.  (Which
    rejection wins a race is not modelled: the first in list order.) *)
Fixpoint promise_all {A B : Type} (f : A -> M B) (l : list A) : M (list B) :=
  match l with
  | [] => ret []
  | a :: rest =>
      match f a, promise_all f rest with
      | (inr b, t), (inr bs, t') => (inr (b :: bs), t ++ t')
      | (inl e, t), (_, t') => (inl e, t ++ t')
      | (inr _, t), (inl e, t') => (inl e, t ++ t')
      end
  end.

(** Dereferencing a property of a value that may be null or undefined. *)
Definition deref {A : Type} (x : option A) (property : string) : M A :=
  match x with
  | Some a => ret a
  | None =>
      throw (TypeError ("Cannot read properties of undefined (reading '"
                          ++ property ++ "')")%string)
  end.

Definition result {A : Type} (m : M A) : Exn + A := fst m.
Definition trace {A : Type} (m : M A) : list Call := snd m.

(** The orders submitted to the fulfillment API, and the line-item
    fetches sent to the payment processor, in a trace. *)
Fixpoint posted_orders (t : list Call) : list Printful.Order :=
  match t with
  | [] => []
  | PostOrder o :: rest => o :: posted_orders rest
  | _ :: rest => posted_orders rest
  end.

Definition is_line_item_fetch (c : Call) : bool :=
  match c with
  | ListLineItems _ _ => true
  | RetrieveSession _ _ => true
  | _ => false
  end.

Definition line_item_fetches (t : list Call) : list Call :=
  filter is_line_item_fetch t.

(** The text of every call of [console.error] in a trace. *)
Fixpoint console_errors (t : list Call) : list string :=
  match t with
  | [] => []
  | ConsoleError s :: rest => s :: console_errors rest
  | ConsoleErrorWith s _ :: rest => s :: console_errors rest
  | _ :: rest => console_errors rest
  end.

Definition is_console (c : Call) : bool :=
  match c with
  | ConsoleError _ => true
  | ConsoleErrorWith _ _ => true
  | _ => false
  end.

(** The calls of [console.error] in a trace, with the values printed. *)
Definition console_lines (t : list Call) : list Call := filter is_console t.

(** A trace that holds nothing but calls of [console.error]. *)
Definition only_logs (t : list Call) : bool := forallb is_console t.

End Eff.

Declare Scope eff_scope.
Delimit Scope eff_scope with eff.
Notation "x <- m ;; k" := (Eff.bind m (fun x => k))
  (at level 61, m at next level, right associativity) : eff_scope.
Notation "m ;;; k" := (Eff.bind m (fun _ => k))
  (at level 61, right associativity) : eff_scope.

(* ================================================================== *)
(** ** The body parsers in front of a route *)
(* ================================================================== *)

Module Express.

Inductive ContentType : Type :=
| ApplicationJson
| FormUrlencoded
| OtherType.

(** A request as it arrives: its media type, the bytes of its body and
    its [stripe-signature] header. *)
Record Request : Type := {
  content_type : ContentType;
  raw_body : string;
  stripe_signature : option string
}.

(** [req.body] as a handler finds it: not set by any parser, the raw
    bytes in a Buffer, or the object parsed from the text [source]. *)
Inductive ReqBody : Type :=
| Unparsed
| Buffer (bytes : string)
| Parsed (source : string).

(** A middleware passes the request on, or ends it with an error status. *)
Inductive Next : Type :=
| Continue (body : ReqBody)
| Reject (status : nat).

(** [express.json()]: skips a request whose body is already parsed,
    parses one of type application/json, and fails with 400 on text its
    parser does not accept ([accepts] stands for that parser). *)
Definition json (accepts : string -> bool) (req : Request) (b : ReqBody) : Next :=
  match b with
  | Unparsed =>
      match content_type req with
      | ApplicationJson =>
          if accepts (raw_body req)
          then Continue (Parsed (raw_body req))
          else Reject 400
      | _ => Continue Unparsed
      end
  | _ => Continue b
  end.

(** [express.urlencoded({ extended: true })]. *)
Definition urlencoded (req : Request) (b : ReqBody) : Next :=
  match b with
  | Unparsed =>
      match content_type req with
      | FormUrlencoded => Continue (Parsed (raw_body req))
      | _ => Continue Unparsed
      end
  | _ => Continue b
  end.

(** [express.raw({ type: 'application/json' })]: skips a request whose
    body is already parsed, and otherwise hands the bytes of a JSON
    request over as a Buffer. *)
Definition raw (req : Request) (b : ReqBody) : Next :=
  match b with
  | Unparsed =>
      match content_type req with
      | ApplicationJson => Continue (Buffer (raw_body req))
      | _ => Continue Unparsed
      end
  | _ => Continue b
  end.

(** Middleware in registration order, then the route's handler. *)
Fixpoint through (chain : list (Request -> ReqBody -> Next))
    (req : Request) (b : ReqBody) : Next :=
  match chain with
  | [] => Continue b
  | mw :: rest =>
      match mw req b with
      | Continue b' => through rest req b'
      | Reject s => Reject s
      end
  end.

End Express.

(* ================================================================== *)
(** ** The collaborators and the environment *)
(* ================================================================== *)

Module Env.

(** How the two upstream services (and the Stripe library's signature
    check) answer: the handlers are verified for every such answer. *)
Record Services : Type := {
  constructEvent :
    Express.ReqBody -> option string -> option string -> Eff.Exn + Stripe.Event;
  listLineItems : string -> nat -> Eff.Exn + list Stripe.LineItem;
  retrieve : string -> list string -> Eff.Exn + list Stripe.LineItem;
  create : Stripe.SessionParams -> Eff.Exn + string;
  post_orders : Printful.Order -> Eff.Exn + unit;
  get_store_products : Eff.Exn + list Printful.StoreProduct;
  get_store_product : string -> Eff.Exn + Printful.ProductResult
}.

(** [process.env]. *)
Record ProcessEnv : Type := {
  STRIPE_WEBHOOK_SECRET : option string;
  FRONTEND_URL : option string
}.

End Env.

(* ================================================================== *)
(** ** [src/server.js] (and [src/unnamed/part_001], the same handlers) *)
(* ================================================================== *)

Module ServerJs.

Section Handlers.

Variable svc : Env.Services.
Variable env : Env.ProcessEnv.

Local Open Scope eff_scope.

Definition endpointSecret : option string := Env.STRIPE_WEBHOOK_SECRET env.

(** *** POST /webhook (server.js:35-102) *)

(** The callback of [lineItems.data.map] (server.js:52-60). *)
Definition printful_item (item : Stripe.LineItem) : Eff.M Printful.OrderItem :=
  price <- Eff.deref (Stripe.price item) "metadata" ;;
  metadata <- Eff.deref (Stripe.metadata price) "variant_id" ;;
  let variantId := Stripe.get "variant_id" metadata in
  Eff.ret (Printful.VariantLine (Js.parseInt10 variantId) (Stripe.quantity item)).

(** The recipient literal (server.js:63-72). *)
Definition recipient_of (customer_details : option Stripe.CustomerDetails)
  : Eff.M Printful.Recipient :=
  cd <- Eff.deref customer_details "name" ;;
  address <- Eff.deref (Stripe.address cd) "line1" ;;
  Eff.ret {|
    Printful.name := Some (Js.or_default (Stripe.name cd) "No Name Provided");
    Printful.address1 := Some (Js.or_default (Stripe.line1 address) "");
    Printful.address2 := Some (Js.or_default (Stripe.line2 address) "");
    Printful.city := Some (Js.or_default (Stripe.city address) "");
    Printful.state_code := Some (Js.or_default (Stripe.state address) "");
    Printful.country_code := Some (Js.or_default (Stripe.country address) "US");
    Printful.zip := Some (Js.or_default (Stripe.postal_code address) "");
    Printful.email := None;
    Printful.phone := None
  |}.

Definition ack : Api.Response :=
  {| Api.status := 200; Api.body := Api.Text "Webhook received!" |}.

Definition webhook_error (err : Eff.Exn) : Api.Response :=
  {| Api.status := 400;
     Api.body := Api.Text ("Webhook Error: " ++ Eff.message err) |}.

(** The route's handler: one [try] around everything, one more around
    the submission, whose [catch] prints the message and
    [error.response?.data] (server.js:92). *)
Definition webhook_handler (body : Express.ReqBody) (sig : option string)
  : Eff.M Api.Response :=
  Eff.try_catch
    (event <- Eff.lift (Env.constructEvent svc body sig endpointSecret) ;;
     (if Stripe.type event =? "checkout.session.completed"
      then
        let session := Stripe.data_object event in
        lineItems <- Eff.request (Eff.ListLineItems (Stripe.id session) 100)
                       (Env.listLineItems svc (Stripe.id session) 100) ;;
        printfulItems <- Eff.mapM printful_item lineItems ;;
        recipient <- recipient_of (Stripe.customer_details session) ;;
        let order := {| Printful.recipient := recipient;
                        Printful.items := printfulItems;
                        Printful.confirm := Some 1%Z |} in
        Eff.try_catch
          (Eff.request (Eff.PostOrder order) (Env.post_orders svc order))
          (fun error =>
             Eff.console_error_data
               ("Error creating Printful order: " ++ Eff.message error)
               (Eff.response_data error))
      else Eff.ret tt) ;;;
     Eff.ret ack)
    (fun err =>
       Eff.console_error
         ("Webhook signature verification failed: " ++ Eff.message err) ;;;
       Eff.ret (webhook_error err)).

(** The body parsers a request to /webhook goes through: [cors()] does
    not touch the body, [express.json()] is registered after the route
    (server.js:105), so only the route's own [express.raw] runs. *)
Definition webhook_parsers : list (Express.Request -> Express.ReqBody -> Express.Next) :=
  [Express.raw].

Definition post_webhook (req : Express.Request) : Eff.M Api.Response :=
  match Express.through webhook_parsers req Express.Unparsed with
  | Express.Continue b => webhook_handler b (Express.stripe_signature req)
  | Express.Reject s => Eff.ret {| Api.status := s; Api.body := Api.Text "" |}
  end.

(** *** GET /api/products (server.js:115-161) *)

Definition find_preview (files : list Printful.File) : option Printful.File :=
  find (fun file =>
          match Printful.file_type file with
          | Some t => t =? "preview"
          | None => false
          end) files.

(** [files.find(...)?.preview_url] *)
Definition preview_of (files : list Printful.File) : option string :=
  match find_preview files with
  | Some file => Printful.preview_url file
  | None => None
  end.

(** [details.sync_variants?.[0]] *)
Definition first_variant (details : Printful.ProductResult)
  : option Printful.SyncVariant :=
  match Printful.sync_variants details with
  | Some (v :: _) => Some v
  | _ => None
  end.

(** The [price] of a list entry (server.js:136-138). *)
Definition list_price (details : Printful.ProductResult) : float :=
  match first_variant details with
  | Some v =>
      if Js.truthy (Printful.retail_price v)
      then (Js.parseFloat (Printful.retail_price v) * 100)%float
      else 0%float
  | None => 0%float
  end.

(** [mockupImage] (server.js:140-142): [details.sync_variants[0]] is
    dereferenced without [?.], and so is [.files] of a first variant. *)
Definition mockupImage (product : Printful.StoreProduct)
    (details : Printful.ProductResult) : Eff.M (option string) :=
  variants <- Eff.deref (Printful.sync_variants details) "0" ;;
  preview <- match variants with
             | v :: _ =>
                 files <- Eff.deref (Printful.files v) "find" ;;
                 Eff.ret (preview_of files)
             | [] => Eff.ret None
             end ;;
  Eff.ret (Js.or_else preview (Printful.sp_thumbnail_url product)).

Definition product_summary (product : Printful.StoreProduct)
    (details : Printful.ProductResult) : Eff.M Api.ProductSummary :=
  let price := list_price details in
  image <- mockupImage product details ;;
  Eff.ret {|
    Api.ps_id := Printful.sp_id product;
    Api.ps_name := Js.or_default (Printful.sp_name product) "No name available";
    Api.ps_thumbnail_url := Js.or_default image "default_image_url";
    Api.ps_price := price;
    Api.ps_variant_id :=
      Js.num_or_null
        (match first_variant details with
         | Some v => Printful.sv_id v
         | None => None
         end)
  |}.

Definition get_products : Eff.M Api.Response :=
  Eff.try_catch
    (products <- Eff.request Eff.GetStoreProducts (Env.get_store_products svc) ;;
     detailedProducts <-
       Eff.promise_all
         (fun product =>
            let path := Js.toString (Printful.sp_id product) in
            details <- Eff.request (Eff.GetStoreProduct path)
                         (Env.get_store_product svc path) ;;
            product_summary product details)
         products ;;
     Eff.ret {| Api.status := 200; Api.body := Api.JsonProducts detailedProducts |})
    (fun error =>
       Eff.console_error
         ("Error fetching products from Printful: " ++ Eff.message error) ;;;
       Eff.ret {| Api.status := 500;
                  Api.body := Api.JsonError "Failed to fetch products." None |}).

(** *** GET /api/products/:id (server.js:164-194) *)

(** The callback of [product.sync_variants.map] (server.js:180-186). *)
Definition variant_view (variant : Printful.SyncVariant) : Api.VariantView :=
  {| Api.v_id := Printful.sv_id variant;
     Api.v_name := Printful.sv_name variant;
     Api.v_price := (Js.parseFloat (Printful.retail_price variant) * 100)%float;
     Api.v_thumbnail_url :=
       Js.or_null
         (match Printful.files variant with
          | Some files => preview_of files
          | None => None
          end) |}.

(** The object literal (server.js:175-187) reads [product.sync_product.id]
    first and [product.sync_variants.map] last, neither with [?.]. *)
Definition productDetails (product : Printful.ProductResult)
  : Eff.M Api.ProductView :=
  sp <- Eff.deref (Printful.sync_product product) "id" ;;
  variants <- Eff.deref (Printful.sync_variants product) "map" ;;
  Eff.ret {|
    Api.p_id := Printful.id sp;
    Api.p_name := Printful.sync_name sp;
    Api.p_description :=
      Js.or_default (Printful.description sp) "No description available";
    Api.p_thumbnail_url := Printful.thumbnail_url sp;
    Api.p_variants := map variant_view variants
  |}.

Definition get_product (productId : string) : Eff.M Api.Response :=
  Eff.try_catch
    (product <- Eff.request (Eff.GetStoreProduct productId)
                  (Env.get_store_product svc productId) ;;
     details <- productDetails product ;;
     Eff.ret {| Api.status := 200; Api.body := Api.JsonProduct details |})
    (fun error =>
       Eff.console_error
         ("Error fetching product with ID " ++ productId ++ ": "
            ++ Eff.message error) ;;;
       Eff.ret {| Api.status := 500;
                  Api.body := Api.JsonError "Internal server error" None |}).

(** *** POST /api/stripe/create-checkout-session (server.js:197-253) *)

(** The callback of [cart.map] (server.js:207-221). *)
Definition line_item (item : Api.CartItem) : Stripe.LineItemParams :=
  {| Stripe.price_data :=
       {| Stripe.currency := "usd";
          Stripe.product_data :=
            {| Stripe.pd_name := Api.name item;
               Stripe.pd_images := [Api.thumbnail_url item];
               Stripe.pd_metadata := None |};
          Stripe.unit_amount := Api.price item;
          Stripe.price_data_metadata :=
            Some [("variant_id", Stripe.Text (Js.String_ (Api.variant_id item)));
                  ("product_id", Stripe.Text (Js.String_ (Api.id item)))] |};
     Stripe.li_quantity := Api.quantity item |}.

Definition session_params (lineItems : list Stripe.LineItemParams)
    (customerInfo : Api.CustomerInfo) : Stripe.SessionParams :=
  {| Stripe.payment_method_types := ["card"];
     Stripe.line_items := lineItems;
     Stripe.mode := "payment";
     Stripe.param_customer_email := Api.email customerInfo;
     Stripe.success_url :=
       Js.template (Env.FRONTEND_URL env)
         ++ "/success?session_id={CHECKOUT_SESSION_ID}";
     Stripe.cancel_url := Js.template (Env.FRONTEND_URL env) ++ "/cancel";
     Stripe.allowed_countries := ["US"; "CA"];
     Stripe.billing_address_collection := "required" |}.

Definition create_checkout_session (body : Api.CheckoutRequest)
  : Eff.M Api.Response :=
  Eff.try_catch
    (cart <- Eff.deref (Api.cart body) "map" ;;
     let lineItems := map line_item cart in
     customerInfo <- Eff.deref (Api.customerInfo body) "email" ;;
     let params := session_params lineItems customerInfo in
     session_id <- Eff.request (Eff.CreateSession params) (Env.create svc params) ;;
     Eff.ret {| Api.status := 200; Api.body := Api.JsonId session_id |})
    (fun error =>
       Eff.console_error_with "Stripe Checkout Session Error:"
         [Eff.PrintedError error] ;;;
       Eff.ret {| Api.status := 500;
                  Api.body := Api.JsonError "Failed to create Stripe session."
                                (Some (Eff.message error)) |}).

End Handlers.

End ServerJs.

(* ================================================================== *)
(** ** [src/unnamed/part_000]: the revision with
       [handleCheckoutSessionCompleted] *)
(* ================================================================== *)

Module Part000.

Section Handlers.

Variable svc : Env.Services.
Variable env : Env.ProcessEnv.

Local Open Scope eff_scope.

Definition endpointSecret : option string := Env.STRIPE_WEBHOOK_SECRET env.

(** The callback of [line_items.data.map] (part_000:200-212): [None] is
    the [null] that [.filter(Boolean)] removes. *)
Definition order_item (item : Stripe.LineItem)
  : Eff.M (option Printful.OrderItem) :=
  price <- Eff.deref (Stripe.price item) "product" ;;
  product <- Eff.deref (Stripe.product price) "metadata" ;;
  metadata <- Eff.deref (Stripe.product_metadata product) "variant_id" ;;
  let variantId := Stripe.get "variant_id" metadata in
  let productId := Stripe.get "product_id" metadata in
  if negb (Js.truthy variantId) || negb (Js.truthy productId)
  then
    Eff.console_error_with "Missing variant_id or product_id for item:"
      [Eff.PrintedLineItem item] ;;;
    Eff.ret None
  else
    Eff.ret (match variantId with
             | Some v => Some (Printful.SyncVariantLine v (Stripe.quantity item))
             | None => None
             end).

(** [.filter(Boolean)] on the mapped items. *)
Fixpoint filter_Boolean {A : Type} (l : list (option A)) : list A :=
  match l with
  | [] => []
  | Some a :: rest => a :: filter_Boolean rest
  | None :: rest => filter_Boolean rest
  end.

(** The recipient literal (part_000:224-233). *)
Definition recipient_of (session : Stripe.Session) (cd : Stripe.CustomerDetails)
  : Eff.M Printful.Recipient :=
  address <- Eff.deref (Stripe.address cd) "line1" ;;
  Eff.ret {|
    Printful.name := Some (Js.or_default (Stripe.name cd) "No Name");
    Printful.address1 := Stripe.line1 address;
    Printful.address2 := None;
    Printful.city := Stripe.city address;
    Printful.state_code := Stripe.state address;
    Printful.country_code := Stripe.country address;
    Printful.zip := Stripe.postal_code address;
    Printful.email := Stripe.customer_email session;
    Printful.phone := Some (Js.or_default (Stripe.phone cd) "")
  |}.

(** The [catch] of the translation (part_000:245-247) prints
    [error.response?.data || error.message]: the body of the response
    when it is an object or a text that is not empty, the message
    otherwise. *)
Definition log_failure (error : Eff.Exn) : Eff.M unit :=
  match Eff.response_data error with
  | Some (Eff.DataObject shown) =>
      Eff.console_error_with "Error handling checkout session:"
        [Eff.PrintedObject shown]
  | Some (Eff.DataText body) =>
      Eff.console_error
        ("Error handling checkout session: "
           ++ Js.or_default (Some body) (Eff.message error))
  | None =>
      Eff.console_error
        ("Error handling checkout session: " ++ Eff.message error)
  end.

(** part_000:193-248. *)
Definition handleCheckoutSessionCompleted (session : Stripe.Session)
  : Eff.M unit :=
  Eff.try_catch
    (let expand := ["line_items.data.price.product"] in
     line_items <- Eff.request (Eff.RetrieveSession (Stripe.id session) expand)
                     (Env.retrieve svc (Stripe.id session) expand) ;;
     mapped <- Eff.mapM order_item line_items ;;
     let orderItems := filter_Boolean mapped in
     if (List.length orderItems =? 0)%nat
     then Eff.throw (Eff.Error "No valid items for Printful order.")
     else
       match Stripe.customer_details session with
       | None => Eff.throw (Eff.Error "Missing customer details in session.")
       | Some cd =>
           recipient <- recipient_of session cd ;;
           let orderData := {| Printful.recipient := recipient;
                               Printful.items := orderItems;
                               Printful.confirm := None |} in
           Eff.request (Eff.PostOrder orderData) (Env.post_orders svc orderData)
       end)
    log_failure.

Definition ack : Api.Response :=
  {| Api.status := 200; Api.body := Api.Text "Webhook received!" |}.

Definition webhook_error (err : Eff.Exn) : Api.Response :=
  {| Api.status := 400;
     Api.body := Api.Text ("Webhook Error: " ++ Eff.message err) |}.

(** The route's handler (part_000:31-54): the translation is started and
    not awaited. *)
Definition webhook_handler (body : Express.ReqBody) (sig : option string)
  : Eff.M Api.Response :=
  Eff.try_catch
    (event <- Eff.lift (Env.constructEvent svc body sig endpointSecret) ;;
     (if Stripe.type event =? "checkout.session.completed"
      then
        let session := Stripe.data_object event in
        Eff.spawn (handleCheckoutSessionCompleted session)
      else Eff.ret tt) ;;;
     Eff.ret ack)
    (fun err =>
       Eff.console_error
         ("Webhook signature verification failed: " ++ Eff.message err) ;;;
       Eff.ret (webhook_error err)).

(** The body parsers are registered after the route (part_000:57-58). *)
Definition webhook_parsers : list (Express.Request -> Express.ReqBody -> Express.Next) :=
  [Express.raw].

Definition post_webhook (req : Express.Request) : Eff.M Api.Response :=
  match Express.through webhook_parsers req Express.Unparsed with
  | Express.Continue b => webhook_handler b (Express.stripe_signature req)
  | Express.Reject s => Eff.ret {| Api.status := s; Api.body := Api.Text "" |}
  end.

(** The callback of [cart.map] (part_000:151-165): the identifiers go on
    the product, not on the price, and as the cart has them. *)
Definition line_item (item : Api.CartItem) : Stripe.LineItemParams :=
  {| Stripe.price_data :=
       {| Stripe.currency := "usd";
          Stripe.product_data :=
            {| Stripe.pd_name := Api.name item;
               Stripe.pd_images := [Api.thumbnail_url item];
               Stripe.pd_metadata :=
                 Some [("variant_id", Stripe.Raw (Api.variant_id item));
                       ("product_id", Stripe.Raw (Api.id item))] |};
          Stripe.unit_amount := Api.price item;
          Stripe.price_data_metadata := None |};
     Stripe.li_quantity := Api.quantity item |}.

(** The parameters of [sessions.create] (part_000:167-178): the redirect
    addresses are written into the file. *)
Definition session_params (lineItems : list Stripe.LineItemParams)
    (customerInfo : Api.CustomerInfo) : Stripe.SessionParams :=
  {| Stripe.payment_method_types := ["card"];
     Stripe.line_items := lineItems;
     Stripe.mode := "payment";
     Stripe.param_customer_email := Api.email customerInfo;
     Stripe.success_url :=
       "http://localhost:3000/success?session_id={CHECKOUT_SESSION_ID}";
     Stripe.cancel_url := "http://localhost:3000/cancel";
     Stripe.allowed_countries := ["US"; "CA"];
     Stripe.billing_address_collection := "required" |}.

(** POST /api/stripe/create-checkout-session (part_000:147-188). *)
Definition create_checkout_session (body : Api.CheckoutRequest)
  : Eff.M Api.Response :=
  Eff.try_catch
    (cart <- Eff.deref (Api.cart body) "map" ;;
     let lineItems := map line_item cart in
     customerInfo <- Eff.deref (Api.customerInfo body) "email" ;;
     let params := session_params lineItems customerInfo in
     session_id <- Eff.request (Eff.CreateSession params) (Env.create svc params) ;;
     Eff.ret {| Api.status := 200; Api.body := Api.JsonId session_id |})
    (fun error =>
       Eff.console_error_with "Stripe Checkout Session Error:"
         [Eff.PrintedError error] ;;;
       Eff.ret {| Api.status := 500;
                  Api.body := Api.JsonError "Failed to create Stripe session."
                                (Some (Eff.message error)) |}).

End Handlers.

End Part000.

(* ================================================================== *)
(** ** [src/unnamed/part_002]: the webhook route of the revision that
       registers the body parsers first *)
(* ================================================================== *)

Module Part002.

Section Handlers.

Variable svc : Env.Services.
Variable env : Env.ProcessEnv.

(** The JSON parser of [express.json()]: the texts it accepts. *)
Variable JSON_accepts : string -> bool.

Local Open Scope eff_scope.

Definition endpointSecret : option string := Env.STRIPE_WEBHOOK_SECRET env.

Definition ack : Api.Response :=
  {| Api.status := 200; Api.body := Api.Text "Webhook received!" |}.

Definition webhook_error (err : Eff.Exn) : Api.Response :=
  {| Api.status := 400;
     Api.body := Api.Text ("Webhook Error: " ++ Eff.message err) |}.

(** part_002:37-60.  The file calls [handleCheckoutSessionCompleted] and
    declares no such function: evaluating the call throws. *)
Definition webhook_handler (body : Express.ReqBody) (sig : option string)
  : Eff.M Api.Response :=
  Eff.try_catch
    (event <- Eff.lift (Env.constructEvent svc body sig endpointSecret) ;;
     (if Stripe.type event =? "checkout.session.completed"
      then
        Eff.throw
          (Eff.ReferenceError "handleCheckoutSessionCompleted is not defined")
      else Eff.ret tt) ;;;
     Eff.ret ack)
    (fun err =>
       Eff.console_error
         ("Webhook signature verification failed: " ++ Eff.message err) ;;;
       Eff.ret (webhook_error err)).

(** [app.use(express.json())] and [app.use(express.urlencoded(...))] come
    before the route (part_002:20-21), and the route's [express.raw]
    after them. *)
Definition webhook_parsers : list (Express.Request -> Express.ReqBody -> Express.Next) :=
  [Express.json JSON_accepts; Express.urlencoded; Express.raw].

Definition post_webhook (req : Express.Request) : Eff.M Api.Response :=
  match Express.through webhook_parsers req Express.Unparsed with
  | Express.Continue b => webhook_handler b (Express.stripe_signature req)
  | Express.Reject s => Eff.ret {| Api.status := s; Api.body := Api.Text "" |}
  end.

(** The parameters of [sessions.create] (part_002:163-174). *)
Definition session_params (lineItems : list Stripe.LineItemParams)
    (customerInfo : Api.CustomerInfo) : Stripe.SessionParams :=
  {| Stripe.payment_method_types := ["card"];
     Stripe.line_items := lineItems;
     Stripe.mode := "payment";
     Stripe.param_customer_email := Api.email customerInfo;
     Stripe.success_url :=
       Js.template (Env.FRONTEND_URL env)
         ++ "/success?session_id={CHECKOUT_SESSION_ID}";
     Stripe.cancel_url := Js.template (Env.FRONTEND_URL env) ++ "/cancel";
     Stripe.allowed_countries := ["US"; "CA"];
     Stripe.billing_address_collection := "required" |}.

(** POST /api/stripe/create-checkout-session (part_002:143-184); the
    callback of [cart.map] is that of [part_000]. *)
Definition create_checkout_session (body : Api.CheckoutRequest)
  : Eff.M Api.Response :=
  Eff.try_catch
    (cart <- Eff.deref (Api.cart body) "map" ;;
     let lineItems := map Part000.line_item cart in
     customerInfo <- Eff.deref (Api.customerInfo body) "email" ;;
     let params := session_params lineItems customerInfo in
     session_id <- Eff.request (Eff.CreateSession params) (Env.create svc params) ;;
     Eff.ret {| Api.status := 200; Api.body := Api.JsonId session_id |})
    (fun error =>
       Eff.console_error_with "Stripe Checkout Session Error:"
         [Eff.PrintedError error] ;;;
       Eff.ret {| Api.status := 500;
                  Api.body := Api.JsonError "Failed to create Stripe session."
                                (Some (Eff.message error)) |}).

End Handlers.

End Part002.

(* ================================================================== *)
(** ** What the payment processor keeps of a session *)
(* ================================================================== *)

Module Processor.

(** Metadata values reach the processor as texts: a text as it is, a
    number as [String] prints it; a value that is [null] or missing
    leaves no entry. *)
Definition stored_value (v : Stripe.MetadataValue) : option string :=
  match v with
  | Stripe.Text text => Some text
  | Stripe.Raw (Js.Number n) => Some (Js.toString n)
  | Stripe.Raw _ => None
  end.

Fixpoint stored_metadata (m : Stripe.MetadataParams) : Stripe.Metadata :=
  match m with
  | [] => []
  | (key, v) :: rest =>
      match stored_value v with
      | Some text => (key, text) :: stored_metadata rest
      | None => stored_metadata rest
      end
  end.

(** A line item read back from a session carries the quantity and the
    metadata the session was created with: on the price, for metadata
    given under [price_data]; on the expanded product, for metadata given
    under [product_data]. *)
Definition carries_price_metadata (li : Stripe.LineItemParams)
    (item : Stripe.LineItem) : Prop :=
  Stripe.quantity item = Stripe.li_quantity li
  /\ exists price,
       Stripe.price item = Some price
       /\ Stripe.metadata price
          = option_map stored_metadata
              (Stripe.price_data_metadata (Stripe.price_data li)).

Definition carries_product_metadata (li : Stripe.LineItemParams)
    (item : Stripe.LineItem) : Prop :=
  Stripe.quantity item = Stripe.li_quantity li
  /\ exists price product,
       Stripe.price item = Some price
       /\ Stripe.product price = Some product
       /\ Stripe.product_metadata product
          = option_map stored_metadata
              (Stripe.pd_metadata (Stripe.product_data (Stripe.price_data li))).

(** The line item a processor that echoes both kinds of metadata keeps. *)
Definition stored (li : Stripe.LineItemParams) : Stripe.LineItem :=
  {| Stripe.price :=
       Some {| Stripe.metadata :=
                 option_map stored_metadata
                   (Stripe.price_data_metadata (Stripe.price_data li));
               Stripe.product :=
                 Some {| Stripe.product_metadata :=
                           option_map stored_metadata
                             (Stripe.pd_metadata
                                (Stripe.product_data (Stripe.price_data li))) |} |};
     Stripe.quantity := Stripe.li_quantity li |}.

(** An object with its metadata in place, whatever keys it holds. *)
Definition has_price_metadata (item : Stripe.LineItem) : Prop :=
  exists price md, Stripe.price item = Some price /\ Stripe.metadata price = Some md.

Definition has_product_metadata (item : Stripe.LineItem) : Prop :=
  exists price product md,
    Stripe.price item = Some price
    /\ Stripe.product price = Some product
    /\ Stripe.product_metadata product = Some md.

(** [item.price.metadata.variant_id] and
    [item.price.product.metadata.<key>], where they can be read. *)
Definition price_variant_id (item : Stripe.LineItem) : option string :=
  match Stripe.price item with
  | Some price =>
      match Stripe.metadata price with
      | Some md => Stripe.get "variant_id" md
      | None => None
      end
  | None => None
  end.

Definition product_key (key : string) (item : Stripe.LineItem) : option string :=
  match Stripe.price item with
  | Some price =>
      match Stripe.product price with
      | Some product =>
          match Stripe.product_metadata product with
          | Some md => Stripe.get key md
          | None => None
          end
      | None => None
      end
  | None => None
  end.

(** The order line [part_000] keeps for a line item, [None] for one it
    drops: both identifiers must be there and non-empty. *)
Definition kept_line (item : Stripe.LineItem) : option Printful.OrderItem :=
  match product_key "variant_id" item with
  | Some v =>
      if Js.truthy (Some v) && Js.truthy (product_key "product_id" item)
      then Some (Printful.SyncVariantLine v (Stripe.quantity item))
      else None
  | None => None
  end.

End Processor.

(* ================================================================== *)
(** ** What is observed of a run *)
(* ================================================================== *)

Module Obs.

(** The status of the response a handler sends ([None] when the handler
    itself throws, which none of the routes does). *)
Definition status_of (out : Eff.M Api.Response) : option nat :=
  match Eff.result out with
  | inr r => Some (Api.status r)
  | inl _ => None
  end.

(** The orders a run submits to the fulfillment API. *)
Definition orders {A : Type} (out : Eff.M A) : list Printful.Order :=
  Eff.posted_orders (Eff.trace out).

Definition fulfillment_calls {A : Type} (out : Eff.M A) : nat :=
  List.length (orders out).

(** The requests for a session's line items a run sends. *)
Definition refetches {A : Type} (out : Eff.M A) : list Eff.Call :=
  Eff.line_item_fetches (Eff.trace out).

(** What a run writes with [console.error]: the text of every call,
    and the calls with the values they print. *)
Definition logged {A : Type} (out : Eff.M A) : list string :=
  Eff.console_errors (Eff.trace out).

Definition log_lines {A : Type} (out : Eff.M A) : list Eff.Call :=
  Eff.console_lines (Eff.trace out).

(** The sessions a run asks the payment processor to create. *)
Fixpoint created_sessions (t : list Eff.Call) : list Stripe.SessionParams :=
  match t with
  | [] => []
  | Eff.CreateSession params :: rest => params :: created_sessions rest
  | _ :: rest => created_sessions rest
  end.

Definition sessions {A : Type} (out : Eff.M A) : list Stripe.SessionParams :=
  created_sessions (Eff.trace out).

(** The preview image of a product's first variant, where there is one. *)
Definition first_preview (details : Printful.ProductResult) : option string :=
  match ServerJs.first_variant details with
  | Some v =>
      match Printful.files v with
      | Some files => ServerJs.preview_of files
      | None => None
      end
  | None => None
  end.

(** The preview image among a variant's own files. *)
Definition variant_preview (variant : Printful.SyncVariant) : option string :=
  match Printful.files variant with
  | Some files => ServerJs.preview_of files
  | None => None
  end.

(** [sum of (unit price x quantity)], in the doubles JavaScript
    computes with. *)
Definition number (z : Z) : float :=
  SF2Prim (binary_normalize prec emax z 0 false).

Definition total (lines : list (float * Z)) : float :=
  fold_left (fun acc l => (acc + fst l * number (snd l))%float) lines 0%float.

Definition cart_lines (cart : list Api.CartItem) : list (float * Z) :=
  map (fun item => (Api.price item, Api.quantity item)) cart.

Definition session_lines (items : list Stripe.LineItemParams) : list (float * Z) :=
  map (fun li => (Stripe.unit_amount (Stripe.price_data li), Stripe.li_quantity li))
    items.

(** An order line matches a cart item: the item's variant identifier
    and its quantity. *)
Definition line_matches (item : Api.CartItem) (line : Printful.OrderItem) : Prop :=
  exists v,
    Api.variant_id item = Js.Number v
    /\ line = Printful.VariantLine (Js.Int v) (Api.quantity item).

(** The same for the lines of [part_000], which carry the identifier as
    the processor returned it: the decimal digits of the number. *)
Definition sync_line_matches (item : Api.CartItem) (line : Printful.OrderItem)
  : Prop :=
  exists v,
    Api.variant_id item = Js.Number v
    /\ line = Printful.SyncVariantLine (Js.decimal v) (Api.quantity item).

(** A cart item carries a variant identifier, or a product identifier:
    a number that is a safe integer. *)
Definition has_variant (item : Api.CartItem) : Prop :=
  exists v, Api.variant_id item = Js.Number v /\ Js.isSafeInteger v = true.

Definition has_product (item : Api.CartItem) : Prop :=
  exists p, Api.id item = Js.Number p /\ Js.isSafeInteger p = true.

(** A cart item whose variant identifier, if it is a number, is a safe
    integer. *)
Definition variant_is_safe (item : Api.CartItem) : Prop :=
  forall v, Api.variant_id item = Js.Number v -> Js.isSafeInteger v = true.

(** What order translation reads from a line item is what session
    creation embedded for the cart item: the digits of the variant
    identifier, which [parseInt] reads as the identifier.  [server.js]
    reads the metadata of the price, [part_000] that of the product. *)
Definition reads_variant (item : Api.CartItem) (read : Stripe.LineItem) : Prop :=
  exists v,
    Api.variant_id item = Js.Number v
    /\ Processor.price_variant_id read = Some (Js.decimal v)
    /\ Js.parseInt10 (Processor.price_variant_id read) = Js.Int v.

Definition reads_product_variant (item : Api.CartItem) (read : Stripe.LineItem)
  : Prop :=
  exists v,
    Api.variant_id item = Js.Number v
    /\ Processor.product_key "variant_id" read = Some (Js.decimal v).

End Obs.

(* ================================================================== *)
(** ** Concrete collaborators, for running the handlers *)
(* ================================================================== *)

Module Demo.

Definition env : Env.ProcessEnv :=
  {| Env.STRIPE_WEBHOOK_SECRET := Some "whsec_test";
     Env.FRONTEND_URL := Some "https://shop.example" |}.

Definition address : Stripe.Address :=
  {| Stripe.line1 := Some "1 Main St";
     Stripe.line2 := None;
     Stripe.city := Some "Springfield";
     Stripe.state := Some "IL";
     Stripe.country := None;
     Stripe.postal_code := Some "62701" |}.

Definition customer : Stripe.CustomerDetails :=
  {| Stripe.name := Some "Ada";
     Stripe.address := Some address;
     Stripe.phone := Some "555-0100" |}.

Definition session : Stripe.Session :=
  {| Stripe.id := "cs_test_1";
     Stripe.customer_details := Some customer;
     Stripe.customer_email := Some "ada@example.com" |}.

(** A stand-in for the library's check: the signature of [bytes] under
    [secret] is the secret followed by the bytes, only raw bytes verify,
    and the event's type is the text of the body. *)
Definition constructEvent (body : Express.ReqBody) (sig secret : option string)
  : Eff.Exn + Stripe.Event :=
  match body, sig, secret with
  | Express.Buffer bytes, Some s, Some k =>
      if s =? k ++ bytes
      then inr {| Stripe.type := bytes; Stripe.data_object := session |}
      else inl (Eff.StripeSignatureVerificationError
                  "No signatures found matching the expected signature for payload.")
  | _, _, _ =>
      inl (Eff.StripeSignatureVerificationError
             "No signatures found matching the expected signature for payload.")
  end.

Definition sign (secret bytes : string) : string := secret ++ bytes.

Definition item (variant : option string) (product : option string) (q : Z)
  : Stripe.LineItem :=
  let md :=
    ((match variant with Some v => [("variant_id", v)] | None => [] end)
       ++ (match product with Some p => [("product_id", p)] | None => [] end))%list in
  {| Stripe.price :=
       Some {| Stripe.metadata := Some md;
               Stripe.product := Some {| Stripe.product_metadata := Some md |} |};
     Stripe.quantity := q |}.

(** Services over a processor that answers [listLineItems] with a page
    of [listed] and [sessions.retrieve] with [retrieved], and a
    fulfillment API that answers [answer]. *)
Definition services (listed retrieved : Eff.Exn + list Stripe.LineItem)
    (answer : Eff.Exn + unit) : Env.Services :=
  {| Env.constructEvent := constructEvent;
     Env.listLineItems := fun _ limit =>
       match listed with
       | inr l => inr (firstn limit l)
       | inl e => inl e
       end;
     Env.retrieve := fun _ _ => retrieved;
     Env.create := fun _ => inr "cs_test_1";
     Env.post_orders := fun _ => answer;
     Env.get_store_products := inr [];
     Env.get_store_product := fun _ =>
       inl (Eff.AxiosError "Request failed with status code 404" None) |}.

(** A session of two line items, the second without a variant
    identifier. *)
Definition one_without_variant : list Stripe.LineItem :=
  [item (Some "4012") (Some "77") 2; item None (Some "78") 1].

(** A session of 101 line items. *)
Definition many_items : list Stripe.LineItem :=
  repeat (item (Some "4012") (Some "77") 1) 101.

(** The recipient [server.js] builds for [customer]. *)
Definition recipient : Printful.Recipient :=
  {| Printful.name := Some "Ada";
     Printful.address1 := Some "1 Main St";
     Printful.address2 := Some "";
     Printful.city := Some "Springfield";
     Printful.state_code := Some "IL";
     Printful.country_code := Some "US";
     Printful.zip := Some "62701";
     Printful.email := None;
     Printful.phone := None |}.

(** The recipient [part_000] builds for [customer] in [session]. *)
Definition legacy_recipient : Printful.Recipient :=
  {| Printful.name := Some "Ada";
     Printful.address1 := Some "1 Main St";
     Printful.address2 := None;
     Printful.city := Some "Springfield";
     Printful.state_code := Some "IL";
     Printful.country_code := None;
     Printful.zip := Some "62701";
     Printful.email := Some "ada@example.com";
     Printful.phone := Some "555-0100" |}.

Definition order_of_many : Printful.Order :=
  {| Printful.recipient := recipient;
     Printful.items := repeat (Printful.VariantLine (Js.Int 4012) 1) 100;
     Printful.confirm := Some 1%Z |}.

(** A session of two line items without identifiers. *)
Definition none_with_variant : list Stripe.LineItem :=
  [item None None 2; item None (Some "78") 1].

Definition unavailable : Eff.Exn + list Stripe.LineItem :=
  inl (Eff.StripeError "An error occurred with our connection to Stripe.").

(** The fulfillment API refusing an order, with the body of its answer,
    and a request that got no answer. *)
Definition refusal : Eff.Exn :=
  Eff.AxiosError "Request failed with status code 400"
    (Some (Eff.DataObject "{ code: 400, result: 'Invalid variant' }")).

Definition no_answer : Eff.Exn := Eff.AxiosError "Network Error" None.

Definition completed : Express.Request :=
  {| Express.content_type := Express.ApplicationJson;
     Express.raw_body := "checkout.session.completed";
     Express.stripe_signature :=
       Some (sign "whsec_test" "checkout.session.completed") |}.

Definition other_event : Express.Request :=
  {| Express.content_type := Express.ApplicationJson;
     Express.raw_body := "payment_intent.created";
     Express.stripe_signature := Some (sign "whsec_test" "payment_intent.created") |}.

Definition forged : Express.Request :=
  {| Express.content_type := Express.ApplicationJson;
     Express.raw_body := "checkout.session.completed";
     Express.stripe_signature := Some "whsec_guess" |}.

(** Catalog objects. *)
Definition variant (retail : option string) (files : list Printful.File)
  : Printful.SyncVariant :=
  {| Printful.sv_id := Some 4012%Z;
     Printful.sv_name := Some "Dad Hat / Black";
     Printful.retail_price := retail;
     Printful.files := Some files |}.

Definition store_product (name thumbnail : option string) : Printful.StoreProduct :=
  {| Printful.sp_id := 77%Z;
     Printful.sp_name := name;
     Printful.sp_thumbnail_url := thumbnail |}.

Definition product_result (name description thumbnail : option string)
    (variants : list Printful.SyncVariant) : Printful.ProductResult :=
  {| Printful.sync_product :=
       Some {| Printful.id := Some 77%Z;
               Printful.sync_name := name;
               Printful.description := description;
               Printful.thumbnail_url := thumbnail |};
     Printful.sync_variants := Some variants |}.

Definition default_file : Printful.File :=
  {| Printful.file_type := Some "default";
     Printful.preview_url := Some "https://files.example/print.png" |}.

Definition cart_item (id variant quantity : Z) (price : float) : Api.CartItem :=
  {| Api.id := Js.Number id;
     Api.name := Some "Dad Hat";
     Api.price := price;
     Api.thumbnail_url := Some "https://files.example/hat.png";
     Api.variant_id := Js.Number variant;
     Api.quantity := quantity |}.

Definition two_item_cart : list Api.CartItem :=
  [cart_item 77 4012 2 1999%float; cart_item 78 4013 1 2500%float].

Definition address_with_line2 : Stripe.Address :=
  {| Stripe.line1 := Some "1 Main St";
     Stripe.line2 := Some "Apt 4";
     Stripe.city := Some "Springfield";
     Stripe.state := Some "IL";
     Stripe.country := None;
     Stripe.postal_code := Some "62701" |}.

Definition customer_with_line2 : Stripe.CustomerDetails :=
  {| Stripe.name := None;
     Stripe.address := Some address_with_line2;
     Stripe.phone := Some "555-0100" |}.

End Demo.

(* ================================================================== *)
(** ** The requests of a run *)
(* ================================================================== *)

Module Calls.

(** A call that leaves the process: anything but a line of the log. *)
Definition is_request (c : Eff.Call) : bool := negb (Eff.is_console c).

(** The requests a run sends to the two upstream services, in order. *)
Definition requests {A : Type} (out : Eff.M A) : list Eff.Call :=
  filter is_request (Eff.trace out).

(** The body of the response a handler sends. *)
Definition body_of (out : Eff.M Api.Response) : option Api.Body :=
  match Eff.result out with
  | inr r => Some (Api.body r)
  | inl _ => None
  end.

(** The path [GET /api/products] asks the provider for, for a product. *)
Definition detail_path (product : Printful.StoreProduct) : string :=
  Js.toString (Printful.sp_id product).

(** The order line [server.js] makes of a cart item that went through
    session creation: the variant identifier where the item has one,
    [NaN] where it has [null] or none. *)
Definition cart_line (item : Api.CartItem) : Printful.OrderItem :=
  Printful.VariantLine
    (match Api.variant_id item with
     | Js.Number v => Js.Int v
     | _ => Js.NaN
     end)
    (Api.quantity item).

End Calls.

(* ================================================================== *)
(** ** More concrete collaborators *)
(* ================================================================== *)

Module Fixture.

(** A catalog of two products: the provider answers the detail request
    of product 77 and fails that of every other product. *)
Definition hat : Printful.StoreProduct :=
  Demo.store_product (Some "Dad Hat") (Some "https://files.example/thumb.png").

Definition cap : Printful.StoreProduct :=
  {| Printful.sp_id := 78%Z;
     Printful.sp_name := Some "Cap";
     Printful.sp_thumbnail_url := None |}.

Definition preview_file : Printful.File :=
  {| Printful.file_type := Some "preview";
     Printful.preview_url := Some "https://files.example/preview.png" |}.

Definition hat_details : Printful.ProductResult :=
  Demo.product_result (Some "Dad Hat") None None
    [Demo.variant (Some "25.00") [Demo.default_file; preview_file]].

Definition catalog (listed : Eff.Exn + list Printful.StoreProduct)
    (detail : string -> Eff.Exn + Printful.ProductResult)
    (created : Eff.Exn + string) : Env.Services :=
  {| Env.constructEvent := Demo.constructEvent;
     Env.listLineItems := fun _ _ => inr [];
     Env.retrieve := fun _ _ => inr [];
     Env.create := fun _ => created;
     Env.post_orders := fun _ => inr tt;
     Env.get_store_products := listed;
     Env.get_store_product := detail |}.

Definition only_hat (path : string) : Eff.Exn + Printful.ProductResult :=
  if path =? "77"
  then inr hat_details
  else inl (Eff.AxiosError "Request failed with status code 404" None).

Definition not_found : Eff.Exn :=
  Eff.AxiosError "Request failed with status code 404" None.

(** A cart whose second item has no variant identifier. *)
Definition cart_with_null_variant : list Api.CartItem :=
  [Demo.cart_item 77 4012 2 1999%float;
   {| Api.id := Js.Number 78;
      Api.name := Some "Cap";
      Api.price := 2500%float;
      Api.thumbnail_url := None;
      Api.variant_id := Js.Null;
      Api.quantity := 3%Z |}].

(** A cart whose item carries the variant identifier 10^21, and one
    whose first item carries a variant identifier and no product
    identifier. *)
Definition cart_with_huge_variant : list Api.CartItem :=
  [Demo.cart_item 77 (10 ^ 21) 2 1999%float].

Definition cart_without_product : list Api.CartItem :=
  [{| Api.id := Js.Absent;
      Api.name := Some "Dad Hat";
      Api.price := 1999%float;
      Api.thumbnail_url := None;
      Api.variant_id := Js.Number 4012;
      Api.quantity := 2%Z |};
   Demo.cart_item 78 4013 1 2500%float].

(** A line item whose price object is missing. *)
Definition item_without_price : Stripe.LineItem :=
  {| Stripe.price := None; Stripe.quantity := 1%Z |}.

Definition session_without_customer : Stripe.Session :=
  {| Stripe.id := "cs_test_2";
     Stripe.customer_details := None;
     Stripe.customer_email := None |}.

(** Services whose signature check passes every request as a completed
    event of [session], over a processor that holds [stored]. *)
Definition completed_services (session : Stripe.Session)
    (stored : list Stripe.LineItem) (answer : Eff.Exn + unit) : Env.Services :=
  {| Env.constructEvent := fun _ _ _ =>
       inr {| Stripe.type := "checkout.session.completed";
              Stripe.data_object := session |};
     Env.listLineItems := fun _ limit => inr (firstn limit stored);
     Env.retrieve := fun _ _ => inr stored;
     Env.create := fun _ => inr "cs_test_1";
     Env.post_orders := fun _ => answer;
     Env.get_store_products := inr [];
     Env.get_store_product := fun _ => inl not_found |}.

(** A detail without its variant list, and one with an empty list. *)
Definition detail_without_variants : Printful.ProductResult :=
  {| Printful.sync_product :=
       Some {| Printful.id := Some 78%Z;
               Printful.sync_name := Some "Cap";
               Printful.description := None;
               Printful.thumbnail_url := None |};
     Printful.sync_variants := None |}.

Definition detail_with_no_variant : Printful.ProductResult :=
  Demo.product_result (Some "Cap") None None [].

(** An answer with its variants and without its product. *)
Definition detail_without_product : Printful.ProductResult :=
  {| Printful.sync_product := None;
     Printful.sync_variants := Some [Demo.variant (Some "25.00") [preview_file]] |}.

Definition hat_and (cap_details : Printful.ProductResult) (path : string)
  : Eff.Exn + Printful.ProductResult :=
  if path =? "77" then inr hat_details else inr cap_details.

Definition hat_summary : Api.ProductSummary :=
  {| Api.ps_id := 77%Z;
     Api.ps_name := "Dad Hat";
     Api.ps_thumbnail_url := "https://files.example/preview.png";
     Api.ps_price := 2500%float;
     Api.ps_variant_id := Some 4012%Z |}.

(** The entry of the list endpoint for [cap], when its detail has no
    variant. *)
Definition cap_summary : Api.ProductSummary :=
  {| Api.ps_id := 78%Z;
     Api.ps_name := "Cap";
     Api.ps_thumbnail_url := "default_image_url";
     Api.ps_price := 0%float;
     Api.ps_variant_id := None |}.

Definition checkout_body (cart : option (list Api.CartItem)) : Api.CheckoutRequest :=
  {| Api.cart := cart;
     Api.customerInfo := Some {| Api.email := Some "ada@example.com" |} |}.

Definition processor_refusal : Eff.Exn := Eff.StripeError "Invalid API Key provided".

End Fixture.

(* ================================================================== *)
(** * Theorems *)
(* ================================================================== *)

(** ** [String] and [parseInt] *)

Lemma digit_prefix_string_of_uint (u : Decimal.uint) :
  Js.digit_prefix (NilEmpty.string_of_uint u) = NilEmpty.string_of_uint u.
Proof.
  induction u; simpl; try rewrite IHu; reflexivity.
Qed.

Lemma digits_value_string_of_uint (u : Decimal.uint) :
  u <> Decimal.Nil ->
  Js.digits_value (NilEmpty.string_of_uint u) = Some (Z.of_uint u).
Proof.
  intros Hu. unfold Js.digits_value.
  destruct (NilEmpty.string_of_uint u) eqn:E.
  - destruct u; simpl in E; congruence.
  - rewrite <- E, NilEmpty.usu. reflexivity.
Qed.

Lemma parse_digits_string_of_uint (u : Decimal.uint) :
  u <> Decimal.Nil ->
  Js.parse_digits (NilEmpty.string_of_uint u) = Js.number_of (Z.of_uint u).
Proof.
  intros Hu. unfold Js.parse_digits.
  rewrite digit_prefix_string_of_uint, digits_value_string_of_uint by exact Hu.
  reflexivity.
Qed.

(** A printed natural number starts with a digit: [parseInt] finds
    neither white space nor a sign in front of it. *)
Lemma parseInt10_string_of_uint (u : Decimal.uint) :
  u <> Decimal.Nil ->
  Js.parseInt10 (Some (NilEmpty.string_of_uint u)) = Js.number_of (Z.of_uint u).
Proof.
  intros Hu. rewrite <- (parse_digits_string_of_uint u Hu).
  destruct u; try congruence; reflexivity.
Qed.

Lemma to_uint_nonnil (p : positive) : Pos.to_uint p <> Decimal.Nil.
Proof.
  intros E. pose proof (DecimalPos.Unsigned.of_to p) as H.
  rewrite E in H. discriminate H.
Qed.

Lemma string_of_uint_nonnil (u : Decimal.uint) :
  u <> Decimal.Nil -> NilZero.string_of_uint u = NilEmpty.string_of_uint u.
Proof.
  destruct u; congruence || reflexivity.
Qed.

Lemma parseInt10_minus (s : string) :
  Js.parseInt10 (Some (String "-" s)) = Js.negate (Js.parse_digits s).
Proof. reflexivity. Qed.

(** A safe integer is its own double, and prints as its digits. *)
Lemma number_of_safe (n : Z) :
  Js.isSafeInteger n = true -> Js.number_of n = Js.Int n.
Proof.
  intros H. unfold Js.number_of, Js.nearest_double. now rewrite H.
Qed.

Lemma toString_safe (n : Z) :
  Js.isSafeInteger n = true -> Js.toString n = Js.decimal n.
Proof.
  intros H. unfold Js.toString. now rewrite H.
Qed.

(** [parseInt] reads the digits of an integer back, rounded to a
    double. *)
Lemma parseInt10_decimal (n : Z) :
  Js.parseInt10 (Some (Js.decimal n))
  = match n with
    | Zneg p => Js.negate (Js.number_of (Zpos p))
    | _ => Js.number_of n
    end.
Proof.
  unfold Js.decimal.
  pose proof (DecimalZ.of_to n) as Hn.
  destruct n as [|p|p]; try reflexivity;
    cbn [Z.to_int NilZero.string_of_int Z.of_int] in *;
    rewrite string_of_uint_nonnil by apply to_uint_nonnil.
  - rewrite parseInt10_string_of_uint by apply to_uint_nonnil.
    now rewrite Hn.
  - rewrite parseInt10_minus, parse_digits_string_of_uint by apply to_uint_nonnil.
    pose proof (DecimalZ.of_to (Zpos p)) as Hp.
    cbn [Z.to_int Z.of_int] in Hp. now rewrite Hp.
Qed.

(** [parseInt(String(n), 10)] is [n], for every safe integer [n]. *)
Lemma parseInt10_toString (n : Z) :
  Js.isSafeInteger n = true ->
  Js.parseInt10 (Some (Js.toString n)) = Js.Int n.
Proof.
  intros H. rewrite toString_safe, parseInt10_decimal by exact H.
  destruct n as [|p|p].
  - reflexivity.
  - apply number_of_safe. exact H.
  - rewrite number_of_safe by exact H. reflexivity.
Qed.

(** ** The effect monad *)

Lemma posted_orders_app (t t' : list Eff.Call) :
  Eff.posted_orders (t ++ t') = (Eff.posted_orders t ++ Eff.posted_orders t')%list.
Proof.
  induction t as [|c t IH]; simpl; [reflexivity|].
  destruct c; simpl; rewrite IH; reflexivity.
Qed.

Lemma console_errors_app (t t' : list Eff.Call) :
  Eff.console_errors (t ++ t') = (Eff.console_errors t ++ Eff.console_errors t')%list.
Proof.
  induction t as [|c t IH]; simpl; [reflexivity|].
  destruct c; simpl; rewrite IH; reflexivity.
Qed.

Lemma mapM_length {A B : Type} (f : A -> Eff.M B) (l : list A)
    (bs : list B) (t : list Eff.Call) :
  Eff.mapM f l = (inr bs, t) -> List.length bs = List.length l.
Proof.
  revert bs t. induction l as [|a l IH]; intros bs t H; simpl in H.
  - inversion H. reflexivity.
  - unfold Eff.bind in H. destruct (f a) as [[e|b] t1]; [discriminate|].
    destruct (Eff.mapM f l) as [[e|bs'] t2]; [discriminate|].
    simpl in H. inversion H. simpl. f_equal. eapply IH. reflexivity.
Qed.

(** A callback that neither throws nor calls out maps like [List.map]. *)
Lemma mapM_pure {A B : Type} (f : A -> Eff.M B) (g : A -> B) (l : list A) :
  Forall (fun a => f a = (inr (g a), [])) l ->
  Eff.mapM f l = (inr (map g l), []).
Proof.
  induction 1 as [|a l Ha _ IH]; simpl; [reflexivity|].
  rewrite Ha, IH. reflexivity.
Qed.

Ltac by_response e :=
  destruct (Eff.response_data e) as [[?|?]|]; cbn.

(** ** POST /webhook *)

Section Webhook.

Variable svc : Env.Services.
Variable env : Env.ProcessEnv.

Let secret : option string := Env.STRIPE_WEBHOOK_SECRET env.

(** A request that fails verification is answered 400 by [server.js],
    with no call to either upstream service. *)
Lemma serverjs_rejects_unverified (body : Express.ReqBody) (sig : option string)
    (err : Eff.Exn) :
  Env.constructEvent svc body sig secret = inl err ->
  ServerJs.webhook_handler svc env body sig
  = (inr (ServerJs.webhook_error err),
     [Eff.ConsoleError
        ("Webhook signature verification failed: " ++ Eff.message err)]).
Proof.
  intros E. unfold ServerJs.webhook_handler, ServerJs.endpointSecret.
  fold secret. rewrite E. reflexivity.
Qed.

(** [server.js] hands the bytes of a JSON request to the check as they
    arrived. *)
Lemma serverjs_verifies_raw_bytes (req : Express.Request) :
  Express.content_type req = Express.ApplicationJson ->
  ServerJs.post_webhook svc env req
  = ServerJs.webhook_handler svc env (Express.Buffer (Express.raw_body req))
      (Express.stripe_signature req).
Proof.
  intros J. unfold ServerJs.post_webhook, ServerJs.webhook_parsers.
  simpl. unfold Express.raw. rewrite J. reflexivity.
Qed.

(** C3. A verified event of any kind other than
    "checkout.session.completed" is answered 200, and the handler sends
    neither an order to the fulfillment API nor a request for line items
    to the payment processor: in [server.js], and in the handlers of the
    older revisions. *)
Theorem other_event_kinds_are_acknowledged_only
    (body : Express.ReqBody) (sig : option string) (event : Stripe.Event) :
  Env.constructEvent svc body sig (Env.STRIPE_WEBHOOK_SECRET env) = inr event ->
  Stripe.type event <> "checkout.session.completed" ->
  (Obs.status_of (ServerJs.webhook_handler svc env body sig) = Some 200
   /\ Obs.fulfillment_calls (ServerJs.webhook_handler svc env body sig) = 0%nat
   /\ Obs.refetches (ServerJs.webhook_handler svc env body sig) = [])
  /\ (Obs.status_of (Part002.webhook_handler svc env body sig) = Some 200
      /\ Obs.fulfillment_calls (Part002.webhook_handler svc env body sig) = 0%nat
      /\ Obs.refetches (Part002.webhook_handler svc env body sig) = [])
  /\ (Obs.status_of (Part000.webhook_handler svc env body sig) = Some 200
      /\ Obs.fulfillment_calls (Part000.webhook_handler svc env body sig) = 0%nat
      /\ Obs.refetches (Part000.webhook_handler svc env body sig) = []).
Proof.
  intros E T. apply String.eqb_neq in T.
  unfold ServerJs.webhook_handler, Part002.webhook_handler,
    Part000.webhook_handler, ServerJs.endpointSecret, Part002.endpointSecret,
    Part000.endpointSecret.
  rewrite E. cbn. rewrite T. cbn. repeat split; reflexivity.
Qed.

(** *** Verification against the raw body *)

(** C1. In [part_002] the global [express.json()] runs before the route,
    so the signature check receives the parsed object, never the bytes
    that were signed.  A JSON request whose signature verifies against
    its raw body, which [server.js] passes to the check as it arrived,
    is answered 400 by [part_002], like every other JSON request; the
    check there is one that refuses a payload that is not the raw body. *)
Theorem part002_verifies_a_parsed_body
    (accepts : string -> bool) (req : Express.Request) (event : Stripe.Event) :
  Express.content_type req = Express.ApplicationJson ->
  Env.constructEvent svc (Express.Buffer (Express.raw_body req))
    (Express.stripe_signature req) (Env.STRIPE_WEBHOOK_SECRET env) = inr event ->
  (forall source sig key,
      exists msg, Env.constructEvent svc (Express.Parsed source) sig key
                  = inl (Eff.StripeSignatureVerificationError msg)) ->
  Obs.status_of (Part002.post_webhook svc env accepts req) = Some 400
  /\ Obs.fulfillment_calls (Part002.post_webhook svc env accepts req) = 0%nat
  /\ ServerJs.post_webhook svc env req
     = ServerJs.webhook_handler svc env (Express.Buffer (Express.raw_body req))
         (Express.stripe_signature req)
  /\ Env.constructEvent svc (Express.Buffer (Express.raw_body req))
       (Express.stripe_signature req) (ServerJs.endpointSecret env) = inr event.
Proof.
  intros J V Lib. split; [|split; [|split]].
  - unfold Part002.post_webhook, Part002.webhook_parsers. simpl.
    unfold Express.json. rewrite J.
    destruct (accepts (Express.raw_body req)); [|reflexivity].
    simpl. unfold Part002.webhook_handler.
    destruct (Lib (Express.raw_body req) (Express.stripe_signature req)
                (Part002.endpointSecret env)) as [msg E].
    rewrite E. reflexivity.
  - unfold Part002.post_webhook, Part002.webhook_parsers. simpl.
    unfold Express.json. rewrite J.
    destruct (accepts (Express.raw_body req)); [|reflexivity].
    simpl. unfold Part002.webhook_handler.
    destruct (Lib (Express.raw_body req) (Express.stripe_signature req)
                (Part002.endpointSecret env)) as [msg E].
    rewrite E. reflexivity.
  - apply serverjs_verifies_raw_bytes. exact J.
  - exact V.
Qed.

(** In the revisions that register the parsers after the route, a JSON
    request whose signature verifies against its raw body passes the
    check, and one of a kind the server ignores is answered 200. *)
Lemma serverjs_accepts_signed_request (req : Express.Request) (event : Stripe.Event) :
  Express.content_type req = Express.ApplicationJson ->
  Env.constructEvent svc (Express.Buffer (Express.raw_body req))
    (Express.stripe_signature req) secret = inr event ->
  Stripe.type event <> "checkout.session.completed" ->
  Obs.status_of (ServerJs.post_webhook svc env req) = Some 200
  /\ Obs.status_of (Part000.post_webhook svc env req) = Some 200.
Proof.
  intros J V T. apply String.eqb_neq in T.
  unfold ServerJs.post_webhook, Part000.post_webhook,
    ServerJs.webhook_parsers, Part000.webhook_parsers.
  simpl. unfold Express.raw. rewrite J.
  unfold ServerJs.webhook_handler, Part000.webhook_handler,
    ServerJs.endpointSecret, Part000.endpointSecret.
  fold secret. rewrite V. cbn. rewrite T. split; reflexivity.
Qed.

(** *** The acknowledgment *)

(** C2. In [server.js] the request for the line items sits in the same
    [try] as the signature check: when it fails for a verified
    "checkout.session.completed" event, the handler answers 400, logs the
    failure as a signature failure, and submits nothing. *)
Theorem serverjs_refetch_failure_is_answered_400
    (body : Express.ReqBody) (sig : option string) (event : Stripe.Event)
    (err : Eff.Exn) :
  Env.constructEvent svc body sig (Env.STRIPE_WEBHOOK_SECRET env) = inr event ->
  Stripe.type event = "checkout.session.completed" ->
  Env.listLineItems svc (Stripe.id (Stripe.data_object event)) 100 = inl err ->
  ServerJs.webhook_handler svc env body sig
  = (inr {| Api.status := 400;
            Api.body := Api.Text ("Webhook Error: " ++ Eff.message err) |},
     [Eff.ListLineItems (Stripe.id (Stripe.data_object event)) 100;
      Eff.ConsoleError
        ("Webhook signature verification failed: " ++ Eff.message err)]).
Proof.
  intros E T L. apply String.eqb_eq in T.
  unfold ServerJs.webhook_handler, ServerJs.endpointSecret.
  rewrite E. cbn. rewrite T. cbn. rewrite L. reflexivity.
Qed.

(** The same for a verified session without customer details: the
    recipient literal throws, and the handler answers 400. *)
Lemma serverjs_missing_customer_is_answered_400
    (body : Express.ReqBody) (sig : option string) (event : Stripe.Event)
    (lineItems : list Stripe.LineItem) (items : list Printful.OrderItem) :
  Env.constructEvent svc body sig secret = inr event ->
  Stripe.type event = "checkout.session.completed" ->
  Env.listLineItems svc (Stripe.id (Stripe.data_object event)) 100 = inr lineItems ->
  Eff.mapM ServerJs.printful_item lineItems = (inr items, []) ->
  Stripe.customer_details (Stripe.data_object event) = None ->
  Obs.status_of (ServerJs.webhook_handler svc env body sig) = Some 400
  /\ Obs.fulfillment_calls (ServerJs.webhook_handler svc env body sig) = 0%nat.
Proof.
  intros E T L I C. apply String.eqb_eq in T.
  unfold ServerJs.webhook_handler, ServerJs.endpointSecret.
  fold secret. rewrite E. cbn. rewrite T. cbn. rewrite L. cbn. rewrite I. cbn.
  unfold ServerJs.recipient_of. rewrite C. split; reflexivity.
Qed.

(** What [server.js] does protect: once the line items are fetched and
    translated, the answer is 200 whatever the fulfillment API says. *)
Lemma serverjs_submission_outcome_is_not_reported
    (body : Express.ReqBody) (sig : option string) (event : Stripe.Event)
    (lineItems : list Stripe.LineItem) (items : list Printful.OrderItem)
    (recipient : Printful.Recipient) :
  Env.constructEvent svc body sig secret = inr event ->
  Stripe.type event = "checkout.session.completed" ->
  Env.listLineItems svc (Stripe.id (Stripe.data_object event)) 100 = inr lineItems ->
  Eff.mapM ServerJs.printful_item lineItems = (inr items, []) ->
  ServerJs.recipient_of (Stripe.customer_details (Stripe.data_object event))
  = (inr recipient, []) ->
  Obs.status_of (ServerJs.webhook_handler svc env body sig) = Some 200
  /\ Obs.orders (ServerJs.webhook_handler svc env body sig)
     = [{| Printful.recipient := recipient;
           Printful.items := items;
           Printful.confirm := Some 1%Z |}].
Proof.
  intros E T L I R. apply String.eqb_eq in T.
  unfold ServerJs.webhook_handler, ServerJs.endpointSecret.
  fold secret. rewrite E. cbn. rewrite T. cbn. rewrite L. cbn. rewrite I. cbn.
  rewrite R. cbn.
  destruct (Env.post_orders svc _) as [e|[]]; [by_response e|];
    split; reflexivity.
Qed.

(** The revision with [handleCheckoutSessionCompleted] answers 400
    exactly when verification fails: the translation is not awaited and
    catches its own errors. *)
Lemma part000_400_iff_verification_fails
    (body : Express.ReqBody) (sig : option string) :
  (forall err, Env.constructEvent svc body sig secret = inl err ->
               Obs.status_of (Part000.webhook_handler svc env body sig) = Some 400)
  /\ (forall event, Env.constructEvent svc body sig secret = inr event ->
                    Obs.status_of (Part000.webhook_handler svc env body sig) = Some 200).
Proof.
  unfold Part000.webhook_handler, Part000.endpointSecret. fold secret.
  split; intros x E; rewrite E; cbn; [reflexivity|].
  destruct (Stripe.type x =? "checkout.session.completed"); reflexivity.
Qed.

(** [part_002] calls a function it does not declare: every verified
    "checkout.session.completed" event ends in the [catch], with 400. *)
Lemma part002_completed_event_is_answered_400
    (body : Express.ReqBody) (sig : option string) (event : Stripe.Event) :
  Env.constructEvent svc body sig secret = inr event ->
  Stripe.type event = "checkout.session.completed" ->
  Obs.status_of (Part002.webhook_handler svc env body sig) = Some 400.
Proof.
  intros E T. apply String.eqb_eq in T.
  unfold Part002.webhook_handler, Part002.endpointSecret.
  fold secret. rewrite E. cbn. rewrite T. reflexivity.
Qed.

End Webhook.

(** *** Every request is answered *)

(** A handler of the shape [try { check; work; ack } catch { log; refuse }]
    always answers: with [ack], or with [refuse] of what was thrown. *)
Lemma answers_ack_or_refuses {A : Type} (check : Eff.Exn + A)
    (work : A -> Eff.M unit) (ack : Api.Response)
    (label : Eff.Exn -> string) (refuse : Eff.Exn -> Api.Response) :
  let out :=
    Eff.try_catch
      (Eff.bind (Eff.lift check)
         (fun a => Eff.bind (work a) (fun _ => Eff.ret ack)))
      (fun err =>
         Eff.bind (Eff.console_error (label err))
           (fun _ => Eff.ret (refuse err))) in
  Eff.result out = inr ack \/ exists err, Eff.result out = inr (refuse err).
Proof.
  destruct check as [e|a]; cbn.
  - right. exists e. reflexivity.
  - destruct (work a) as [[e|[]] t]; cbn.
    + right. exists e. reflexivity.
    + left. reflexivity.
Qed.

Ltac answer_with ack :=
  match goal with
  | |- context [Eff.try_catch
                  (Eff.bind (Eff.lift ?c) (fun a => Eff.bind (@?w a) _))
                  (fun err => Eff.bind (Eff.console_error (@?l err))
                                (fun _ => Eff.ret (@?r err)))] =>
      let H := fresh "H" in
      destruct (answers_ack_or_refuses c w ack l r) as [H|[? H]];
      cbv zeta in H; rewrite H; [left|right]; reflexivity
  end.

(** The webhook never leaves a request without a response, and the
    response is 200 or 400, in all three revisions. *)
Lemma webhook_answers_200_or_400 (svc : Env.Services) (env : Env.ProcessEnv)
    (body : Express.ReqBody) (sig : option string) :
  (Obs.status_of (ServerJs.webhook_handler svc env body sig) = Some 200
   \/ Obs.status_of (ServerJs.webhook_handler svc env body sig) = Some 400)
  /\ (Obs.status_of (Part000.webhook_handler svc env body sig) = Some 200
      \/ Obs.status_of (Part000.webhook_handler svc env body sig) = Some 400)
  /\ (Obs.status_of (Part002.webhook_handler svc env body sig) = Some 200
      \/ Obs.status_of (Part002.webhook_handler svc env body sig) = Some 400).
Proof.
  unfold Obs.status_of. split; [|split].
  - unfold ServerJs.webhook_handler. answer_with ServerJs.ack.
  - unfold Part000.webhook_handler. answer_with Part000.ack.
  - unfold Part002.webhook_handler. answer_with Part002.ack.
Qed.

(** ** Order translation *)

Lemma mapM_trace_nil {A B : Type} (f : A -> Eff.M B) (l : list A) :
  (forall a, Eff.trace (f a) = []) -> Eff.trace (Eff.mapM f l) = [].
Proof.
  intros Hf. induction l as [|a l IH]; simpl; [reflexivity|].
  specialize (Hf a). unfold Eff.bind, Eff.trace in *.
  destruct (f a) as [[e|b] t]; simpl in Hf; subst t; [reflexivity|].
  destruct (Eff.mapM f l) as [[e|bs] t']; simpl in IH; subst t'; reflexivity.
Qed.

Lemma posted_orders_logs (logs : list Eff.Call) :
  Eff.only_logs logs = true -> Eff.posted_orders logs = [].
Proof.
  induction logs as [|c logs IH]; simpl; [reflexivity|].
  intros H. apply andb_prop in H. destruct H as [Hc H].
  destruct c; try discriminate Hc; exact (IH H).
Qed.

Lemma line_item_fetches_logs (logs : list Eff.Call) :
  Eff.only_logs logs = true -> Eff.line_item_fetches logs = [].
Proof.
  induction logs as [|c logs IH]; simpl; [reflexivity|].
  intros H. apply andb_prop in H. destruct H as [Hc H].
  destruct c; try discriminate Hc; exact (IH H).
Qed.

Lemma only_logs_app (t t' : list Eff.Call) :
  Eff.only_logs t = true -> Eff.only_logs t' = true ->
  Eff.only_logs (t ++ t') = true.
Proof.
  unfold Eff.only_logs. intros H H'. rewrite forallb_app, H, H'. reflexivity.
Qed.

(** The [catch] of the translation of [part_000] writes one line. *)
Lemma part000_log_failure_line (e : Eff.Exn) :
  exists line,
    Part000.log_failure e = (inr tt, [line]) /\ Eff.is_console line = true.
Proof.
  unfold Part000.log_failure.
  destruct (Eff.response_data e) as [[source|body]|];
    eexists; split; reflexivity.
Qed.

(** For an error without a response, the line is the message. *)
Lemma part000_log_failure_message (e : Eff.Exn) :
  Eff.response_data e = None ->
  Part000.log_failure e
  = (inr tt,
     [Eff.ConsoleError ("Error handling checkout session: " ++ Eff.message e)]).
Proof.
  intros H. unfold Part000.log_failure. rewrite H. reflexivity.
Qed.

Lemma serverjs_printful_item_trace (item : Stripe.LineItem) :
  Eff.trace (ServerJs.printful_item item) = [].
Proof.
  unfold ServerJs.printful_item.
  destruct (Stripe.price item) as [price|]; [|reflexivity].
  cbn. destruct (Stripe.metadata price); reflexivity.
Qed.

Lemma serverjs_recipient_trace (cd : option Stripe.CustomerDetails) :
  Eff.trace (ServerJs.recipient_of cd) = [].
Proof.
  unfold ServerJs.recipient_of.
  destruct cd as [cd|]; [|reflexivity].
  cbn. destruct (Stripe.address cd); reflexivity.
Qed.

(** [server.js] turns a line item whose price has metadata into a line,
    whether or not the metadata holds a variant identifier. *)
Lemma serverjs_printful_item_of (item : Stripe.LineItem) :
  Processor.has_price_metadata item ->
  ServerJs.printful_item item
  = (inr (Printful.VariantLine
            (Js.parseInt10 (Processor.price_variant_id item))
            (Stripe.quantity item)), []).
Proof.
  intros (price & md & Hp & Hm).
  unfold ServerJs.printful_item, Processor.price_variant_id.
  rewrite Hp. cbn. rewrite Hm. reflexivity.
Qed.

Lemma serverjs_recipient_of_present (cd : Stripe.CustomerDetails)
    (address : Stripe.Address) :
  Stripe.address cd = Some address ->
  ServerJs.recipient_of (Some cd)
  = (inr {|
        Printful.name := Some (Js.or_default (Stripe.name cd) "No Name Provided");
        Printful.address1 := Some (Js.or_default (Stripe.line1 address) "");
        Printful.address2 := Some (Js.or_default (Stripe.line2 address) "");
        Printful.city := Some (Js.or_default (Stripe.city address) "");
        Printful.state_code := Some (Js.or_default (Stripe.state address) "");
        Printful.country_code := Some (Js.or_default (Stripe.country address) "US");
        Printful.zip := Some (Js.or_default (Stripe.postal_code address) "");
        Printful.email := None;
        Printful.phone := None
      |}, []).
Proof.
  intros Ha. unfold ServerJs.recipient_of. cbn. rewrite Ha. reflexivity.
Qed.

Section Translation.

Variable svc : Env.Services.
Variable env : Env.ProcessEnv.

Let secret : option string := Env.STRIPE_WEBHOOK_SECRET env.

(** Every order [server.js] submits for a completed session is the
    translation of the line items the processor returned, all of them. *)
Lemma serverjs_orders_of_completed
    (body : Express.ReqBody) (sig : option string) (event : Stripe.Event)
    (lineItems : list Stripe.LineItem) (order : Printful.Order) :
  Env.constructEvent svc body sig secret = inr event ->
  Stripe.type event = "checkout.session.completed" ->
  Env.listLineItems svc (Stripe.id (Stripe.data_object event)) 100 = inr lineItems ->
  In order (Obs.orders (ServerJs.webhook_handler svc env body sig)) ->
  Eff.mapM ServerJs.printful_item lineItems = (inr (Printful.items order), [])
  /\ ServerJs.recipient_of (Stripe.customer_details (Stripe.data_object event))
     = (inr (Printful.recipient order), [])
  /\ Obs.orders (ServerJs.webhook_handler svc env body sig) = [order].
Proof.
  intros E T L. apply String.eqb_eq in T.
  pose proof (mapM_trace_nil ServerJs.printful_item lineItems
                serverjs_printful_item_trace) as Ht.
  pose proof (serverjs_recipient_trace
                (Stripe.customer_details (Stripe.data_object event))) as Hr.
  unfold Obs.orders, ServerJs.webhook_handler, ServerJs.endpointSecret.
  fold secret. rewrite E. cbn. rewrite T. cbn. rewrite L. cbn.
  unfold Eff.trace in Ht, Hr.
  destruct (Eff.mapM ServerJs.printful_item lineItems) as [[e|items] t];
    simpl in Ht; subst t; cbn; [intros []|].
  destruct (ServerJs.recipient_of _) as [[e|recipient] t];
    simpl in Hr; subst t; cbn; [intros []|].
  destruct (Env.post_orders svc _) as [e|[]]; [by_response e|cbn];
    (intros [<-|[]]; repeat split; reflexivity).
Qed.

(** The one request for line items [server.js] sends for a completed
    session, whatever the processor answers. *)
Lemma serverjs_refetches_once
    (body : Express.ReqBody) (sig : option string) (event : Stripe.Event) :
  Env.constructEvent svc body sig secret = inr event ->
  Stripe.type event = "checkout.session.completed" ->
  Obs.refetches (ServerJs.webhook_handler svc env body sig)
  = [Eff.ListLineItems (Stripe.id (Stripe.data_object event)) 100].
Proof.
  intros E T. apply String.eqb_eq in T.
  pose proof (serverjs_recipient_trace
                (Stripe.customer_details (Stripe.data_object event))) as Hr.
  unfold Obs.refetches, ServerJs.webhook_handler, ServerJs.endpointSecret.
  fold secret. rewrite E. cbn. rewrite T. cbn.
  destruct (Env.listLineItems svc _ 100) as [e|lineItems]; cbn; [reflexivity|].
  pose proof (mapM_trace_nil ServerJs.printful_item lineItems
                serverjs_printful_item_trace) as Ht.
  unfold Eff.trace in Ht, Hr.
  destruct (Eff.mapM ServerJs.printful_item lineItems) as [[e|items] t];
    simpl in Ht; subst t; cbn; [reflexivity|].
  destruct (ServerJs.recipient_of _) as [[e|recipient] t];
    simpl in Hr; subst t; cbn; [reflexivity|].
  destruct (Env.post_orders svc _) as [e|[]]; [by_response e|];
    reflexivity.
Qed.

(** C10. For a verified "checkout.session.completed" event [server.js]
    asks the processor for the session's line items once, with limit
    100, and never for a further page: when the processor holds the
    items [all] and answers with the first 100 of them, every order the
    handler submits has at most 100 lines, which are the translation of
    those first 100 items; the items after them are not in the order. *)
Theorem serverjs_order_has_at_most_100_lines
    (body : Express.ReqBody) (sig : option string) (event : Stripe.Event)
    (all : list Stripe.LineItem) :
  Env.constructEvent svc body sig (Env.STRIPE_WEBHOOK_SECRET env) = inr event ->
  Stripe.type event = "checkout.session.completed" ->
  Env.listLineItems svc (Stripe.id (Stripe.data_object event)) 100
  = inr (firstn 100 all) ->
  Obs.refetches (ServerJs.webhook_handler svc env body sig)
  = [Eff.ListLineItems (Stripe.id (Stripe.data_object event)) 100]
  /\ forall order,
       In order (Obs.orders (ServerJs.webhook_handler svc env body sig)) ->
       (List.length (Printful.items order) <= 100)%nat
       /\ Eff.result (Eff.mapM ServerJs.printful_item (firstn 100 all))
          = inr (Printful.items order).
Proof.
  intros E T L. split.
  - apply serverjs_refetches_once; assumption.
  - intros order Hin.
    destruct (serverjs_orders_of_completed body sig event (firstn 100 all) order
                E T L Hin) as (Hm & _ & _).
    split.
    + rewrite (mapM_length _ _ _ _ Hm). apply firstn_le_length.
    + unfold Eff.result. rewrite Hm. reflexivity.
Qed.

(** C5. [server.js] has no filter on the translated lines: for a
    verified completed session whose customer details are there, the
    order it submits has one line for every line item the processor
    returned, and a line item whose metadata holds no variant identifier
    becomes a line with the variant [NaN]. *)
Theorem serverjs_keeps_lines_without_variant
    (body : Express.ReqBody) (sig : option string) (event : Stripe.Event)
    (lineItems : list Stripe.LineItem)
    (cd : Stripe.CustomerDetails) (address : Stripe.Address) :
  Env.constructEvent svc body sig (Env.STRIPE_WEBHOOK_SECRET env) = inr event ->
  Stripe.type event = "checkout.session.completed" ->
  Env.listLineItems svc (Stripe.id (Stripe.data_object event)) 100 = inr lineItems ->
  Forall Processor.has_price_metadata lineItems ->
  Stripe.customer_details (Stripe.data_object event) = Some cd ->
  Stripe.address cd = Some address ->
  exists order,
    Obs.orders (ServerJs.webhook_handler svc env body sig) = [order]
    /\ List.length (Printful.items order) = List.length lineItems
    /\ forall item,
         In item lineItems ->
         Processor.price_variant_id item = None ->
         In (Printful.VariantLine Js.NaN (Stripe.quantity item))
           (Printful.items order).
Proof.
  intros E T L W C A.
  pose (line := fun item =>
          Printful.VariantLine (Js.parseInt10 (Processor.price_variant_id item))
            (Stripe.quantity item)).
  assert (Hm : Eff.mapM ServerJs.printful_item lineItems
               = (inr (map line lineItems), [])).
  { apply mapM_pure. eapply Forall_impl; [|exact W].
    intros item Hi. apply serverjs_printful_item_of. exact Hi. }
  pose proof (serverjs_recipient_of_present cd address A) as Hr.
  rewrite <- C in Hr.
  destruct (serverjs_submission_outcome_is_not_reported svc env body sig event
              lineItems _ _ E T L Hm Hr) as [_ Ho].
  eexists. split; [exact Ho|]. cbn [Printful.items]. split.
  - apply length_map.
  - intros item Hin Hv.
    change (Printful.VariantLine Js.NaN (Stripe.quantity item))
      with (Printful.VariantLine (Js.parseInt10 None) (Stripe.quantity item)).
    rewrite <- Hv. apply (in_map line). exact Hin.
Qed.

End Translation.

(** ** The translation of [part_000] *)

Lemma part000_order_item_of (item : Stripe.LineItem) :
  Processor.has_product_metadata item ->
  exists logs,
    Part000.order_item item = (inr (Processor.kept_line item), logs)
    /\ Eff.only_logs logs = true.
Proof.
  intros (price & product & md & Hp & Hq & Hm).
  unfold Part000.order_item, Processor.kept_line, Processor.product_key.
  rewrite Hp. cbn. rewrite Hq. cbn. rewrite Hm. cbn.
  destruct (Stripe.get "variant_id" md) as [v|]; cbn.
  - destruct (v =? ""); cbn.
    + eexists. split; reflexivity.
    + destruct (Js.truthy (Stripe.get "product_id" md)); cbn;
        eexists; split; reflexivity.
  - eexists. split; reflexivity.
Qed.

Lemma part000_mapM_order_item (items : list Stripe.LineItem) :
  Forall Processor.has_product_metadata items ->
  exists logs,
    Eff.mapM Part000.order_item items = (inr (map Processor.kept_line items), logs)
    /\ Eff.only_logs logs = true.
Proof.
  induction 1 as [|item items Hi _ (logs' & IH & Hl')]; simpl.
  - exists []. split; reflexivity.
  - destruct (part000_order_item_of item Hi) as (logs & Ho & Hl).
    rewrite Ho, IH. cbn. exists (logs ++ logs')%list.
    rewrite List.app_nil_r. split; [reflexivity|].
    apply only_logs_app; assumption.
Qed.

Section Legacy.

Variable svc : Env.Services.
Variable env : Env.ProcessEnv.

Let secret : option string := Env.STRIPE_WEBHOOK_SECRET env.

Let expand : list string := ["line_items.data.price.product"].

(** What [handleCheckoutSessionCompleted] submits: the lines of the
    items that carry both identifiers, when there is one and the session
    has customer details; nothing otherwise, with the reason logged. *)
Lemma part000_handle_completed (session : Stripe.Session)
    (items : list Stripe.LineItem) :
  Env.retrieve svc (Stripe.id session) expand = inr items ->
  Forall Processor.has_product_metadata items ->
  let kept := Part000.filter_Boolean (map Processor.kept_line items) in
  let run := Part000.handleCheckoutSessionCompleted svc session in
  (kept = [] ->
   Obs.orders run = []
   /\ In "Error handling checkout session: No valid items for Printful order."
        (Obs.logged run))
  /\ (kept <> [] -> Stripe.customer_details session = None ->
      Obs.orders run = []
      /\ In "Error handling checkout session: Missing customer details in session."
           (Obs.logged run))
  /\ (kept <> [] ->
      forall cd address,
        Stripe.customer_details session = Some cd ->
        Stripe.address cd = Some address ->
        exists recipient,
          Part000.recipient_of session cd = (inr recipient, [])
          /\ Obs.orders run
             = [{| Printful.recipient := recipient;
                   Printful.items := kept;
                   Printful.confirm := None |}]).
Proof.
  intros R W kept run.
  destruct (part000_mapM_order_item items W) as (logs & Hm & Hl).
  subst run. unfold Obs.orders, Obs.logged, Part000.handleCheckoutSessionCompleted.
  fold expand. rewrite R. cbn. rewrite Hm. cbn. fold kept.
  destruct kept as [|k kept'] eqn:K; cbn.
  - split; [|split]; [|congruence..]. intros _.
    rewrite !posted_orders_app, (posted_orders_logs logs Hl).
    rewrite !console_errors_app. split; [reflexivity|].
    apply in_or_app. right. left. reflexivity.
  - split; [congruence|]. split.
    + intros _ C. rewrite C. cbn.
      rewrite !posted_orders_app, (posted_orders_logs logs Hl).
      rewrite !console_errors_app. split; [reflexivity|].
      apply in_or_app. right. left. reflexivity.
    + intros _ cd address C A. rewrite C. cbn.
      unfold Part000.recipient_of. rewrite A. cbn.
      eexists. split; [reflexivity|].
      destruct (Env.post_orders svc _) as [e|[]]; cbn.
      * destruct (part000_log_failure_line e) as (line & -> & Hc). cbn.
        rewrite !posted_orders_app, (posted_orders_logs logs Hl). cbn.
        destruct line; try discriminate Hc; reflexivity.
      * rewrite ?posted_orders_app, (posted_orders_logs logs Hl). reflexivity.
Qed.

(** The webhook of [part_000] submits what the translation it starts
    submits, and answers 200 for every verified event. *)
Lemma part000_webhook_of_completed
    (body : Express.ReqBody) (sig : option string) (event : Stripe.Event) :
  Env.constructEvent svc body sig secret = inr event ->
  Stripe.type event = "checkout.session.completed" ->
  Obs.status_of (Part000.webhook_handler svc env body sig) = Some 200
  /\ Obs.orders (Part000.webhook_handler svc env body sig)
     = Obs.orders (Part000.handleCheckoutSessionCompleted svc
                     (Stripe.data_object event))
  /\ Obs.logged (Part000.webhook_handler svc env body sig)
     = Obs.logged (Part000.handleCheckoutSessionCompleted svc
                     (Stripe.data_object event)).
Proof.
  intros E T. apply String.eqb_eq in T.
  unfold Obs.status_of, Obs.orders, Obs.logged, Part000.webhook_handler,
    Part000.endpointSecret.
  fold secret. rewrite E. cbn. rewrite T.
  destruct (Part000.handleCheckoutSessionCompleted svc _) as [r t]. cbn.
  rewrite !List.app_nil_r. repeat split; reflexivity.
Qed.

End Legacy.

(** ** From the cart to the order *)

Lemma decimal_truthy (n : Z) : Js.truthy (Some (Js.decimal n)) = true.
Proof.
  unfold Js.decimal. destruct n as [|p|p]; try reflexivity.
  cbn [Z.to_int NilZero.string_of_int].
  rewrite string_of_uint_nonnil by apply to_uint_nonnil.
  pose proof (to_uint_nonnil p) as Hp.
  destruct (Pos.to_uint p); congruence || reflexivity.
Qed.

Lemma filter_Boolean_map_Some {A : Type} (l : list A) :
  Part000.filter_Boolean (map Some l) = l.
Proof. induction l; simpl; congruence. Qed.

(** What [server.js] embeds at session creation, as the processor keeps
    it: the text of the variant identifier, under the key the webhook
    reads. *)
Lemma serverjs_embedded_variant (item : Api.CartItem) :
  exists md,
    option_map Processor.stored_metadata
      (Stripe.price_data_metadata (Stripe.price_data (ServerJs.line_item item)))
    = Some md
    /\ Stripe.get "variant_id" md = Some (Js.String_ (Api.variant_id item)).
Proof. eexists. split; reflexivity. Qed.

(** What [server.js] reads from a line item of a session it created. *)
Lemma serverjs_reads_embedded_variant (item : Api.CartItem)
    (read : Stripe.LineItem) :
  Processor.carries_price_metadata (ServerJs.line_item item) read ->
  Processor.has_price_metadata read
  /\ Processor.price_variant_id read = Some (Js.String_ (Api.variant_id item))
  /\ Stripe.quantity read = Api.quantity item.
Proof.
  intros (Hq & price & Hp & Hmd).
  destruct (serverjs_embedded_variant item) as (md & Hmd' & Hg).
  rewrite Hmd' in Hmd. split; [|split].
  - exists price, md. split; assumption.
  - unfold Processor.price_variant_id. rewrite Hp, Hmd. exact Hg.
  - exact Hq.
Qed.

(** The line items of a session created by [server.js], read back, are
    translated by [server.js] into the lines of the cart. *)
Lemma serverjs_lines_match (cart : list Api.CartItem)
    (fetched : list Stripe.LineItem) :
  Forall Obs.has_variant cart ->
  Forall2 Processor.carries_price_metadata (map ServerJs.line_item cart) fetched ->
  Forall2 Obs.reads_variant cart fetched
  /\ exists lines,
       Eff.mapM ServerJs.printful_item fetched = (inr lines, [])
       /\ Forall2 Obs.line_matches cart lines.
Proof.
  intros Hv. revert fetched.
  induction Hv as [|item cart (v & Hitem & Hsafe) _ IH]; intros fetched H;
    inversion H as [|li f lis fs Hc Hrest]; subst.
  - split; [constructor|]. exists []. split; [reflexivity|constructor].
  - destruct (IH fs Hrest) as (Hreads & lines & Hm & Hl).
    destruct (serverjs_reads_embedded_variant item f Hc) as (Hw & Hread & Hq).
    rewrite Hitem in Hread. cbn [Js.String_] in Hread.
    rewrite (toString_safe v Hsafe) in Hread.
    assert (Hparse : Js.parseInt10 (Some (Js.decimal v)) = Js.Int v).
    { rewrite <- (toString_safe v Hsafe). apply parseInt10_toString. exact Hsafe. }
    split.
    + constructor; [|exact Hreads]. exists v.
      split; [exact Hitem|]. split; [exact Hread|].
      rewrite Hread. exact Hparse.
    + exists (Printful.VariantLine (Js.Int v) (Api.quantity item) :: lines).
      split.
      * cbn [Eff.mapM]. rewrite (serverjs_printful_item_of f Hw).
        rewrite Hread, Hparse, Hm, Hq. reflexivity.
      * constructor; [|exact Hl]. exists v. split; [exact Hitem|reflexivity].
Qed.

(** What [part_000] embeds at session creation, as the processor keeps
    it, for an item that has both identifiers. *)
Lemma part000_reads_embedded_variant (item : Api.CartItem)
    (read : Stripe.LineItem) (v p : Z) :
  Api.variant_id item = Js.Number v -> Js.isSafeInteger v = true ->
  Api.id item = Js.Number p -> Js.isSafeInteger p = true ->
  Processor.carries_product_metadata (Part000.line_item item) read ->
  Processor.has_product_metadata read
  /\ Processor.product_key "variant_id" read = Some (Js.decimal v)
  /\ Processor.product_key "product_id" read = Some (Js.decimal p)
  /\ Stripe.quantity read = Api.quantity item.
Proof.
  intros Hv Sv Hi Si (Hq & price & product & Hp & Hpr & Hmd).
  cbn in Hmd, Hq. rewrite Hv, Hi in Hmd. cbn in Hmd.
  rewrite (toString_safe v Sv), (toString_safe p Si) in Hmd.
  split; [|split; [|split]].
  - exists price, product. eexists. repeat split; eassumption.
  - unfold Processor.product_key. rewrite Hp, Hpr, Hmd. reflexivity.
  - unfold Processor.product_key. rewrite Hp, Hpr, Hmd. reflexivity.
  - exact Hq.
Qed.

(** The same for [part_000], whose sessions carry the identifiers on
    the product. *)
Lemma part000_lines_match (cart : list Api.CartItem)
    (fetched : list Stripe.LineItem) :
  Forall Obs.has_variant cart ->
  Forall Obs.has_product cart ->
  Forall2 Processor.carries_product_metadata (map Part000.line_item cart) fetched ->
  Forall Processor.has_product_metadata fetched
  /\ Forall2 Obs.reads_product_variant cart fetched
  /\ exists lines,
       map Processor.kept_line fetched = map Some lines
       /\ Forall2 Obs.sync_line_matches cart lines.
Proof.
  intros Hv Hi. revert fetched.
  induction Hv as [|item cart (v & Hitem & Sv) _ IH]; intros fetched H;
    inversion H as [|li f lis fs Hc Hrest]; subst.
  - split; [constructor|]. split; [constructor|].
    exists []. split; [reflexivity|constructor].
  - inversion Hi as [|? ? (p & Hid & Sp) Hi']; subst.
    destruct (IH Hi' fs Hrest) as (Hw & Hreads & lines & Hm & Hl).
    destruct (part000_reads_embedded_variant item f v p Hitem Sv Hid Sp Hc)
      as (Hwf & Hrv & Hrp & Hq).
    split; [constructor; assumption|]. split.
    + constructor; [|exact Hreads]. exists v. repeat split; assumption.
    + exists (Printful.SyncVariantLine (Js.decimal v) (Api.quantity item) :: lines).
      split.
      * cbn [map]. rewrite Hm. f_equal.
        unfold Processor.kept_line. rewrite Hrv, Hrp, !decimal_truthy, Hq.
        reflexivity.
      * constructor; [|exact Hl]. exists v. split; [exact Hitem|reflexivity].
Qed.

Section RoundTrip.

Variable svc : Env.Services.
Variable env : Env.ProcessEnv.

(** C4, as amended.  For a cart whose items all carry a variant
    identifier that is a safe integer, the identifier that
    checkout-session creation embeds as metadata on each priced item is
    the one order translation reads back: its decimal digits, which
    [parseInt] turns into the identifier again.  For a verified
    "checkout.session.completed" event whose session holds customer
    details with an address, and a processor that returns, for every
    cart item, a line item carrying the metadata and the quantity the
    session was created with,
    [server.js] submits one order, with one line for every cart item, in
    order, each with the item's variant identifier and quantity (so two
    lines for a two-item cart), and with a recipient whose name, address
    lines, city, state, country and postal code are those of the session's
    customer details, or "No Name Provided", the empty string and "US"
    where they are missing.  [part_000], which writes and reads the
    metadata of the product, does the same when every item also carries a
    product identifier that is a safe integer and the cart is not empty;
    its lines carry the identifier as its digits, and its recipient has
    the fields [part_000] copies. *)
Theorem variant_identifiers_round_trip
    (body : Express.ReqBody) (sig : option string) (event : Stripe.Event)
    (cart : list Api.CartItem) (cd : Stripe.CustomerDetails)
    (address : Stripe.Address) :
  Forall Obs.has_variant cart ->
  Env.constructEvent svc body sig (Env.STRIPE_WEBHOOK_SECRET env) = inr event ->
  Stripe.type event = "checkout.session.completed" ->
  Stripe.customer_details (Stripe.data_object event) = Some cd ->
  Stripe.address cd = Some address ->
  (forall fetched,
      Env.listLineItems svc (Stripe.id (Stripe.data_object event)) 100
      = inr fetched ->
      Forall2 Processor.carries_price_metadata
        (map ServerJs.line_item cart) fetched ->
      Forall2 Obs.reads_variant cart fetched
      /\ exists order,
           Obs.orders (ServerJs.webhook_handler svc env body sig) = [order]
           /\ List.length (Printful.items order) = List.length cart
           /\ Forall2 Obs.line_matches cart (Printful.items order)
           /\ Printful.recipient order
              = {| Printful.name :=
                     Some (Js.or_default (Stripe.name cd) "No Name Provided");
                   Printful.address1 :=
                     Some (Js.or_default (Stripe.line1 address) "");
                   Printful.address2 :=
                     Some (Js.or_default (Stripe.line2 address) "");
                   Printful.city := Some (Js.or_default (Stripe.city address) "");
                   Printful.state_code :=
                     Some (Js.or_default (Stripe.state address) "");
                   Printful.country_code :=
                     Some (Js.or_default (Stripe.country address) "US");
                   Printful.zip :=
                     Some (Js.or_default (Stripe.postal_code address) "");
                   Printful.email := None;
                   Printful.phone := None |})
  /\ (forall fetched,
         Env.retrieve svc (Stripe.id (Stripe.data_object event))
           ["line_items.data.price.product"] = inr fetched ->
         Forall2 Processor.carries_product_metadata
           (map Part000.line_item cart) fetched ->
         Forall Obs.has_product cart ->
         cart <> [] ->
         Forall2 Obs.reads_product_variant cart fetched
         /\ exists order,
              Obs.orders (Part000.webhook_handler svc env body sig) = [order]
              /\ List.length (Printful.items order) = List.length cart
              /\ Forall2 Obs.sync_line_matches cart (Printful.items order)
              /\ Printful.recipient order
                 = {| Printful.name :=
                        Some (Js.or_default (Stripe.name cd) "No Name");
                      Printful.address1 := Stripe.line1 address;
                      Printful.address2 := None;
                      Printful.city := Stripe.city address;
                      Printful.state_code := Stripe.state address;
                      Printful.country_code := Stripe.country address;
                      Printful.zip := Stripe.postal_code address;
                      Printful.email :=
                        Stripe.customer_email (Stripe.data_object event);
                      Printful.phone :=
                        Some (Js.or_default (Stripe.phone cd) "") |}).
Proof.
  intros Hv E T C A. split.
  - intros fetched L H.
    destruct (serverjs_lines_match cart fetched Hv H) as (Hreads & lines & Hm & Hl).
    pose proof (serverjs_recipient_of_present cd address A) as Hr.
    rewrite <- C in Hr.
    destruct (serverjs_submission_outcome_is_not_reported svc env body sig event
                fetched _ _ E T L Hm Hr) as [_ Ho].
    split; [exact Hreads|].
    eexists. split; [exact Ho|]. cbn [Printful.items Printful.recipient].
    split; [|split]; [|exact Hl|reflexivity].
    symmetry. eapply Forall2_length. exact Hl.
  - intros fetched R H Hi Hne.
    destruct (part000_lines_match cart fetched Hv Hi H)
      as (Hw & Hreads & lines & Hm & Hl).
    destruct (part000_webhook_of_completed svc env body sig event E T)
      as (_ & Ho & _).
    destruct (part000_handle_completed svc (Stripe.data_object event) fetched R Hw)
      as (_ & _ & Hk).
    rewrite Hm, filter_Boolean_map_Some in Hk.
    assert (Hlen : List.length cart = List.length lines)
      by (eapply Forall2_length; exact Hl).
    assert (Hlines : lines <> []).
    { intros ->. destruct cart; [congruence|discriminate Hlen]. }
    destruct (Hk Hlines cd address C A) as (recipient & Hr & Hs).
    split; [exact Hreads|].
    eexists. split; [rewrite Ho; exact Hs|].
    cbn [Printful.items Printful.recipient].
    split; [symmetry; exact Hlen|]. split; [exact Hl|].
    unfold Part000.recipient_of in Hr. rewrite A in Hr. cbn in Hr.
    inversion Hr. reflexivity.
Qed.

End RoundTrip.

(** C4, as stated, fails for a variant identifier beyond the safe
    integers: for the identifier 10^21 [String] embeds "1e+21", which
    [parseInt] reads back as 1, and the order [server.js] submits names
    variant 1.  In [part_000] it also fails for an item that carries a
    variant identifier and no product identifier: the metadata read back
    has no "product_id", the item is dropped, and the order for a
    two-item cart has one line. *)
Lemma huge_variant_identifier_is_read_back_as_1 :
  map Processor.price_variant_id
    (map Processor.stored (map ServerJs.line_item Fixture.cart_with_huge_variant))
  = [Some "1e+21"]
  /\ Js.parseInt10 (Some "1e+21") = Js.Int 1
  /\ map Printful.items
       (Obs.orders
          (ServerJs.webhook_handler
             (Fixture.completed_services Demo.session
                (map Processor.stored
                   (map ServerJs.line_item Fixture.cart_with_huge_variant))
                (inr tt))
             Demo.env Express.Unparsed None))
     = [[Printful.VariantLine (Js.Int 1) 2]]
  /\ map Printful.items
       (Obs.orders
          (Part000.webhook_handler
             (Fixture.completed_services Demo.session
                (map Processor.stored
                   (map Part000.line_item Fixture.cart_without_product))
                (inr tt))
             Demo.env Express.Unparsed None))
     = [[Printful.SyncVariantLine "4013" 1]].
Proof. repeat split; vm_compute; reflexivity. Qed.

(** ** POST /api/stripe/create-checkout-session *)

Lemma serverjs_session_lines (cart : list Api.CartItem) :
  Obs.session_lines (map ServerJs.line_item cart) = Obs.cart_lines cart.
Proof.
  unfold Obs.session_lines, Obs.cart_lines. rewrite map_map. reflexivity.
Qed.

Section Checkout.

Variable svc : Env.Services.
Variable env : Env.ProcessEnv.

(** C6. Checkout-session creation asks the processor for one session,
    whose line items are one for every cart item, in order, with the
    unit price and the quantity of the item as the caller sent them: the
    sum of unit price times quantity over the session's line items is
    that sum over the cart, computed on the same numbers. *)
Theorem checkout_session_keeps_prices_and_quantities
    (body : Api.CheckoutRequest) (cart : list Api.CartItem)
    (info : Api.CustomerInfo) :
  Api.cart body = Some cart ->
  Api.customerInfo body = Some info ->
  exists params,
    Obs.sessions (ServerJs.create_checkout_session svc env body) = [params]
    /\ List.length (Stripe.line_items params) = List.length cart
    /\ Forall2
         (fun item li =>
            Stripe.unit_amount (Stripe.price_data li) = Api.price item
            /\ Stripe.li_quantity li = Api.quantity item)
         cart (Stripe.line_items params)
    /\ Obs.total (Obs.session_lines (Stripe.line_items params))
       = Obs.total (Obs.cart_lines cart).
Proof.
  intros C I.
  exists (ServerJs.session_params env (map ServerJs.line_item cart) info).
  split; [|split; [|split]].
  - unfold Obs.sessions, ServerJs.create_checkout_session.
    rewrite C, I. cbn.
    destruct (Env.create svc _) as [e|id]; reflexivity.
  - cbn [ServerJs.session_params Stripe.line_items]. apply length_map.
  - cbn [ServerJs.session_params Stripe.line_items].
    clear C. induction cart as [|item cart IH]; constructor.
    + split; reflexivity.
    + exact IH.
  - cbn [ServerJs.session_params Stripe.line_items].
    rewrite serverjs_session_lines. reflexivity.
Qed.

End Checkout.

(** ** The catalog *)

(** C7. The catalog multiplies the parsed price by 100 in binary64 and
    does not round: for the retail price "19.99" both endpoints return
    1998.9999999999998, a number strictly between 1998 and 1999, and not
    the integer 1999. *)
Theorem retail_price_19_99_is_not_1999_cents
    (variant : Printful.SyncVariant) (details : Printful.ProductResult) :
  Printful.retail_price variant = Some "19.99" ->
  ServerJs.first_variant details = Some variant ->
  Api.v_price (ServerJs.variant_view variant) = 0x1.f3bffffffffffp+10%float
  /\ ServerJs.list_price details = 0x1.f3bffffffffffp+10%float
  /\ (0x1.f3bffffffffffp+10 <? 1999)%float = true
  /\ (1998 <? 0x1.f3bffffffffffp+10)%float = true
  /\ (0x1.f3bffffffffffp+10 =? 1999)%float = false.
Proof.
  intros P F. unfold ServerJs.variant_view, ServerJs.list_price.
  rewrite F. cbn [Api.v_price]. rewrite P.
  repeat split; vm_compute; reflexivity.
Qed.

(** Where the scaling is exact, the result is the number of cents. *)
Lemma retail_price_25_00_is_2500_cents (variant : Printful.SyncVariant) :
  Printful.retail_price variant = Some "25.00" ->
  Api.v_price (ServerJs.variant_view variant) = 2500%float.
Proof.
  intros P. unfold ServerJs.variant_view. cbn [Api.v_price]. rewrite P.
  vm_compute. reflexivity.
Qed.

(** The payloads of the two catalog endpoints are built by
    [product_summary] and [productDetails]. *)

Lemma promise_all_results {A B : Type} (f : A -> Eff.M B) (l : list A)
    (bs : list B) (t : list Eff.Call) :
  Eff.promise_all f l = (inr bs, t) ->
  Forall2 (fun a b => Eff.result (f a) = inr b) l bs.
Proof.
  revert bs t. induction l as [|a l IH]; intros bs t H; simpl in H.
  - inversion H. constructor.
  - destruct (f a) as [[e|b] t1] eqn:Fa;
      destruct (Eff.promise_all f l) as [[e'|bs'] t2]; try discriminate.
    inversion H; subst. constructor.
    + unfold Eff.result. rewrite Fa. reflexivity.
    + eapply IH. reflexivity.
Qed.

Lemma get_products_payload (svc : Env.Services) (products : list Printful.StoreProduct)
    (summaries : list Api.ProductSummary) :
  Env.get_store_products svc = inr products ->
  Eff.result (ServerJs.get_products svc)
  = inr {| Api.status := 200; Api.body := Api.JsonProducts summaries |} ->
  Forall2
    (fun product summary =>
       exists details,
         Env.get_store_product svc (Js.toString (Printful.sp_id product))
         = inr details
         /\ Eff.result (ServerJs.product_summary product details) = inr summary)
    products summaries.
Proof.
  intros P. unfold ServerJs.get_products. rewrite P. cbn.
  match goal with
  | |- context [Eff.promise_all ?f products] =>
      pose proof (promise_all_results f products) as R;
      destruct (Eff.promise_all f products) as [[e|bs] t]
  end; cbn; intros H; inversion H; subst.
  specialize (R summaries t eq_refl).
  eapply Forall2_impl; [|exact R].
  intros product summary. cbn. unfold Eff.request, Eff.bind, Eff.result.
  destruct (Env.get_store_product svc _) as [e|details]; cbn; [discriminate|].
  intros Hs. exists details. split; [reflexivity|].
  destruct (ServerJs.product_summary product details) as [[e|s'] t'];
    cbn in *; congruence.
Qed.

Lemma get_product_payload (svc : Env.Services) (productId : string) :
  (forall product view,
      Env.get_store_product svc productId = inr product ->
      ServerJs.productDetails product = (inr view, []) ->
      Eff.result (ServerJs.get_product svc productId)
      = inr {| Api.status := 200; Api.body := Api.JsonProduct view |})
  /\ (forall e,
         Env.get_store_product svc productId = inl e ->
         Eff.result (ServerJs.get_product svc productId)
         = inr {| Api.status := 500;
                  Api.body := Api.JsonError "Internal server error" None |}).
Proof.
  unfold ServerJs.get_product. split.
  - intros product view G D. rewrite G. cbn. rewrite D. reflexivity.
  - intros e G. rewrite G. reflexivity.
Qed.

Lemma or_default_absent (d : string) : Js.or_default None d = d.
Proof. reflexivity. Qed.

Lemma or_default_present (s d : string) :
  s <> "" -> Js.or_default (Some s) d = s.
Proof.
  intros H. unfold Js.or_default. apply String.eqb_neq in H. now rewrite H.
Qed.

Lemma serverjs_product_summary_of (product : Printful.StoreProduct)
    (details : Printful.ProductResult) (summary : Api.ProductSummary)
    (t : list Eff.Call) :
  ServerJs.product_summary product details = (inr summary, t) ->
  Api.ps_name summary
  = Js.or_default (Printful.sp_name product) "No name available"
  /\ Api.ps_thumbnail_url summary
     = Js.or_default
         (Js.or_else (Obs.first_preview details) (Printful.sp_thumbnail_url product))
         "default_image_url".
Proof.
  unfold ServerJs.product_summary, ServerJs.mockupImage, Obs.first_preview,
    ServerJs.first_variant.
  destruct (Printful.sync_variants details) as [[|v vs]|]; cbn;
    [| |discriminate].
  - intros H. inversion H. split; reflexivity.
  - destruct (Printful.files v) as [files|]; cbn; [|discriminate].
    intros H. inversion H. split; reflexivity.
Qed.

Lemma serverjs_productDetails_of (product : Printful.ProductResult)
    (view : Api.ProductView) (t : list Eff.Call) :
  ServerJs.productDetails product = (inr view, t) ->
  exists sp variants,
    Printful.sync_product product = Some sp
    /\ Printful.sync_variants product = Some variants
    /\ view
       = {| Api.p_id := Printful.id sp;
            Api.p_name := Printful.sync_name sp;
            Api.p_description :=
              Js.or_default (Printful.description sp) "No description available";
            Api.p_thumbnail_url := Printful.thumbnail_url sp;
            Api.p_variants := map ServerJs.variant_view variants |}.
Proof.
  unfold ServerJs.productDetails.
  destruct (Printful.sync_product product) as [sp|]; cbn; [|discriminate].
  destruct (Printful.sync_variants product) as [variants|]; cbn; [|discriminate].
  intros H. inversion H. exists sp, variants. repeat split.
Qed.

(** C8, as amended.  The list endpoint gives a product without a name the
    name "No name available", and as its image the preview of its first
    variant, else the product thumbnail, else "default_image_url".  The
    detail endpoint, for the product [sp] and the variants of the
    provider's answer, gives a product without a description the
    description "No description available"; it returns the name as the
    provider sent it, absent when it is absent, and gives every variant
    the preview among its own files or null, never the product
    thumbnail. *)
Theorem catalog_fallbacks
    (product : Printful.StoreProduct) (details : Printful.ProductResult)
    (summary : Api.ProductSummary) (t : list Eff.Call)
    (result : Printful.ProductResult) (view : Api.ProductView)
    (t' : list Eff.Call) :
  ServerJs.product_summary product details = (inr summary, t) ->
  ServerJs.productDetails result = (inr view, t') ->
  ((Printful.sp_name product = None ->
    Api.ps_name summary = "No name available")
   /\ (forall preview, Obs.first_preview details = Some preview -> preview <> "" ->
                       Api.ps_thumbnail_url summary = preview)
   /\ (Obs.first_preview details = None ->
       forall url, Printful.sp_thumbnail_url product = Some url -> url <> "" ->
                   Api.ps_thumbnail_url summary = url)
   /\ (Obs.first_preview details = None ->
       Printful.sp_thumbnail_url product = None ->
       Api.ps_thumbnail_url summary = "default_image_url"))
  /\ (exists sp variants,
        Printful.sync_product result = Some sp
        /\ Printful.sync_variants result = Some variants
        /\ (Printful.description sp = None ->
            Api.p_description view = "No description available")
        /\ Api.p_name view = Printful.sync_name sp
        /\ map Api.v_thumbnail_url (Api.p_variants view)
           = map (fun v => Js.or_null (Obs.variant_preview v)) variants).
Proof.
  intros Hs Hd.
  destruct (serverjs_product_summary_of _ _ _ _ Hs) as [Hn Hi].
  destruct (serverjs_productDetails_of _ _ _ Hd) as (sp & variants & Hsp & Hv & ->).
  split; [split; [|split; [|split]]
         |exists sp, variants; split; [exact Hsp|]; split; [exact Hv|];
          split; [|split]].
  - intros N. rewrite Hn, N. reflexivity.
  - intros preview P Hp. rewrite Hi, P.
    apply String.eqb_neq in Hp. unfold Js.or_else, Js.truthy.
    rewrite Hp. cbn [negb]. unfold Js.or_default. now rewrite Hp.
  - intros P url U Hu. rewrite Hi, P, U.
    apply String.eqb_neq in Hu.
    change (Js.or_else None (Some url)) with (Some url).
    unfold Js.or_default. now rewrite Hu.
  - intros P U. rewrite Hi, P, U. reflexivity.
  - intros D. cbn. rewrite D. reflexivity.
  - reflexivity.
  - cbn. rewrite map_map. reflexivity.
Qed.

(** C8, as stated, fails on the detail endpoint: a product without a
    name, with a thumbnail and with a variant that has no preview file
    is returned with no name and with a null variant image. *)
Lemma detail_endpoint_has_no_name_or_image_fallback :
  exists view,
    ServerJs.productDetails
      (Demo.product_result None None (Some "https://files.example/thumb.png")
         [Demo.variant (Some "19.99") [Demo.default_file]])
    = (inr view, [])
    /\ Api.p_name view = None
    /\ Api.p_thumbnail_url view = Some "https://files.example/thumb.png"
    /\ map Api.v_thumbnail_url (Api.p_variants view) = [None].
Proof. eexists. repeat split. Qed.

(** ** The recipient *)

(** C9, as amended.  From customer details with an address, [server.js]
    builds a recipient whose name defaults to "No Name Provided", whose
    address lines, city, state and postal code default to the empty
    string and whose country code defaults to "US"; it has no phone and
    no email.  [part_000] builds one whose name defaults to "No Name" and
    whose phone defaults to the empty string; it copies address line 1,
    city, state, country and postal code as they are, with no default,
    takes the email from the session, and has no address line 2.  A
    default stands in for a field that is absent or empty; a field that
    is present and not empty is copied as it is. *)
Theorem recipient_defaults
    (session : Stripe.Session) (cd : Stripe.CustomerDetails)
    (address : Stripe.Address) :
  Stripe.address cd = Some address ->
  ServerJs.recipient_of (Some cd)
  = (inr {|
        Printful.name := Some (Js.or_default (Stripe.name cd) "No Name Provided");
        Printful.address1 := Some (Js.or_default (Stripe.line1 address) "");
        Printful.address2 := Some (Js.or_default (Stripe.line2 address) "");
        Printful.city := Some (Js.or_default (Stripe.city address) "");
        Printful.state_code := Some (Js.or_default (Stripe.state address) "");
        Printful.country_code := Some (Js.or_default (Stripe.country address) "US");
        Printful.zip := Some (Js.or_default (Stripe.postal_code address) "");
        Printful.email := None;
        Printful.phone := None
      |}, [])
  /\ Part000.recipient_of session cd
     = (inr {|
           Printful.name := Some (Js.or_default (Stripe.name cd) "No Name");
           Printful.address1 := Stripe.line1 address;
           Printful.address2 := None;
           Printful.city := Stripe.city address;
           Printful.state_code := Stripe.state address;
           Printful.country_code := Stripe.country address;
           Printful.zip := Stripe.postal_code address;
           Printful.email := Stripe.customer_email session;
           Printful.phone := Some (Js.or_default (Stripe.phone cd) "")
         |}, [])
  /\ (forall d, Js.or_default None d = d)
  /\ (forall d, Js.or_default (Some "") d = d)
  /\ (forall s d, s <> "" -> Js.or_default (Some s) d = s).
Proof.
  intros A. split; [|split; [|split; [|split]]].
  - apply serverjs_recipient_of_present. exact A.
  - unfold Part000.recipient_of. rewrite A. reflexivity.
  - exact or_default_absent.
  - reflexivity.
  - exact or_default_present.
Qed.

(** C9, as stated, fails in both revisions: for a customer with a phone
    number, a second address line and no country, the recipient of
    [server.js] has no phone, and the recipient of [part_000] has neither
    the second address line nor a country code. *)
Lemma recipient_drops_phone_or_line2_and_country :
  Stripe.phone Demo.customer_with_line2 = Some "555-0100"
  /\ Stripe.line2 Demo.address_with_line2 = Some "Apt 4"
  /\ Stripe.country Demo.address_with_line2 = None
  /\ (exists r,
        ServerJs.recipient_of (Some Demo.customer_with_line2) = (inr r, [])
        /\ Printful.phone r = None
        /\ Printful.address2 r = Some "Apt 4"
        /\ Printful.country_code r = Some "US")
  /\ (exists r,
        Part000.recipient_of Demo.session Demo.customer_with_line2 = (inr r, [])
        /\ Printful.phone r = Some "555-0100"
        /\ Printful.address2 r = None
        /\ Printful.country_code r = None).
Proof.
  repeat split; eexists; repeat split.
Qed.

(* ================================================================== *)
(** * The theorems at concrete inputs *)
(* ================================================================== *)

(** A verified "payment_intent.created" event. *)
Lemma other_event_kinds_are_acknowledged_only_at_payment_intent :
  let svc := Demo.services (inr Demo.one_without_variant)
               (inr Demo.one_without_variant) (inr tt) in
  let body := Express.Buffer "payment_intent.created" in
  let sig := Some (Demo.sign "whsec_test" "payment_intent.created") in
  (Obs.status_of (ServerJs.webhook_handler svc Demo.env body sig) = Some 200
   /\ Obs.fulfillment_calls (ServerJs.webhook_handler svc Demo.env body sig) = 0%nat
   /\ Obs.refetches (ServerJs.webhook_handler svc Demo.env body sig) = [])
  /\ (Obs.status_of (Part002.webhook_handler svc Demo.env body sig) = Some 200
      /\ Obs.fulfillment_calls (Part002.webhook_handler svc Demo.env body sig) = 0%nat
      /\ Obs.refetches (Part002.webhook_handler svc Demo.env body sig) = [])
  /\ (Obs.status_of (Part000.webhook_handler svc Demo.env body sig) = Some 200
      /\ Obs.fulfillment_calls (Part000.webhook_handler svc Demo.env body sig) = 0%nat
      /\ Obs.refetches (Part000.webhook_handler svc Demo.env body sig) = []).
Proof.
  apply (other_event_kinds_are_acknowledged_only
           (Demo.services (inr Demo.one_without_variant)
              (inr Demo.one_without_variant) (inr tt))
           Demo.env (Express.Buffer "payment_intent.created")
           (Some (Demo.sign "whsec_test" "payment_intent.created"))
           {| Stripe.type := "payment_intent.created";
              Stripe.data_object := Demo.session |}).
  - reflexivity.
  - discriminate.
Defined.

(** A correctly signed JSON request, sent to [part_002]. *)
Lemma part002_verifies_a_parsed_body_at_signed_request :
  let svc := Demo.services (inr []) (inr []) (inr tt) in
  Obs.status_of (Part002.post_webhook svc Demo.env (fun _ => true) Demo.other_event)
  = Some 400
  /\ Obs.fulfillment_calls
       (Part002.post_webhook svc Demo.env (fun _ => true) Demo.other_event) = 0%nat
  /\ ServerJs.post_webhook svc Demo.env Demo.other_event
     = ServerJs.webhook_handler svc Demo.env
         (Express.Buffer (Express.raw_body Demo.other_event))
         (Express.stripe_signature Demo.other_event)
  /\ Env.constructEvent svc (Express.Buffer (Express.raw_body Demo.other_event))
       (Express.stripe_signature Demo.other_event)
       (ServerJs.endpointSecret Demo.env)
     = inr {| Stripe.type := "payment_intent.created";
              Stripe.data_object := Demo.session |}.
Proof.
  apply (part002_verifies_a_parsed_body
           (Demo.services (inr []) (inr []) (inr tt)) Demo.env
           (fun _ => true) Demo.other_event
           {| Stripe.type := "payment_intent.created";
              Stripe.data_object := Demo.session |}).
  - reflexivity.
  - reflexivity.
  - intros source sig key. eexists. destruct sig, key; reflexivity.
Defined.

(** A verified completed session whose line items the processor cannot
    return. *)
Lemma serverjs_refetch_failure_is_answered_400_at_outage :
  ServerJs.webhook_handler
    (Demo.services Demo.unavailable Demo.unavailable (inr tt)) Demo.env
    (Express.Buffer "checkout.session.completed")
    (Some (Demo.sign "whsec_test" "checkout.session.completed"))
  = (inr {| Api.status := 400;
            Api.body :=
              Api.Text
                "Webhook Error: An error occurred with our connection to Stripe." |},
     [Eff.ListLineItems "cs_test_1" 100;
      Eff.ConsoleError
        "Webhook signature verification failed: An error occurred with our connection to Stripe."]).
Proof.
  apply (serverjs_refetch_failure_is_answered_400
           (Demo.services Demo.unavailable Demo.unavailable (inr tt)) Demo.env
           (Express.Buffer "checkout.session.completed")
           (Some (Demo.sign "whsec_test" "checkout.session.completed"))
           {| Stripe.type := "checkout.session.completed";
              Stripe.data_object := Demo.session |}
           (Eff.StripeError "An error occurred with our connection to Stripe.")).
  - reflexivity.
  - reflexivity.
  - reflexivity.
Defined.

(** A two-item cart, through session creation and back. *)
Lemma variant_identifiers_round_trip_at_two_item_cart :
  let svc :=
    Demo.services
      (inr (map Processor.stored (map ServerJs.line_item Demo.two_item_cart)))
      (inr (map Processor.stored (map Part000.line_item Demo.two_item_cart)))
      (inr tt) in
  let body := Express.Buffer "checkout.session.completed" in
  let sig := Some (Demo.sign "whsec_test" "checkout.session.completed") in
  (exists order,
      Obs.orders (ServerJs.webhook_handler svc Demo.env body sig) = [order]
      /\ List.length (Printful.items order) = 2%nat
      /\ Printful.items order
         = [Printful.VariantLine (Js.Int 4012) 2; Printful.VariantLine (Js.Int 4013) 1]
      /\ Printful.recipient order = Demo.recipient)
  /\ (exists order,
         Obs.orders (Part000.webhook_handler svc Demo.env body sig) = [order]
         /\ List.length (Printful.items order) = 2%nat
         /\ Printful.items order
            = [Printful.SyncVariantLine "4012" 2; Printful.SyncVariantLine "4013" 1]
         /\ Printful.recipient order = Demo.legacy_recipient).
Proof.
  destruct (variant_identifiers_round_trip
              (Demo.services
                 (inr (map Processor.stored (map ServerJs.line_item Demo.two_item_cart)))
                 (inr (map Processor.stored (map Part000.line_item Demo.two_item_cart)))
                 (inr tt))
              Demo.env (Express.Buffer "checkout.session.completed")
              (Some (Demo.sign "whsec_test" "checkout.session.completed"))
              {| Stripe.type := "checkout.session.completed";
                 Stripe.data_object := Demo.session |}
              Demo.two_item_cart Demo.customer Demo.address)
    as [HS HP].
  - repeat constructor; eexists; split; reflexivity.
  - reflexivity.
  - reflexivity.
  - reflexivity.
  - reflexivity.
  - split.
    + destruct (HS (map Processor.stored (map ServerJs.line_item Demo.two_item_cart)))
        as (_ & order & Ho & Hl & _ & Hr).
      * reflexivity.
      * repeat constructor; eexists; split; reflexivity.
      * exists order. split; [exact Ho|]. split; [exact Hl|].
        split; [|exact Hr].
        vm_compute in Ho. inversion Ho. reflexivity.
    + destruct (HP (map Processor.stored (map Part000.line_item Demo.two_item_cart)))
        as (_ & order & Ho & Hl & _ & Hr).
      * reflexivity.
      * repeat constructor; eexists; eexists; repeat split.
      * repeat constructor; eexists; split; reflexivity.
      * discriminate.
      * exists order. split; [exact Ho|]. split; [exact Hl|].
        split; [|exact Hr].
        vm_compute in Ho. inversion Ho. reflexivity.
Defined.

(** Two line items, the second without a variant identifier, sent to
    [server.js]. *)
Lemma serverjs_keeps_lines_without_variant_at_two_items :
  let svc := Demo.services (inr Demo.one_without_variant)
               (inr Demo.one_without_variant) (inr tt) in
  exists order,
    Obs.orders
      (ServerJs.webhook_handler svc Demo.env
         (Express.Buffer "checkout.session.completed")
         (Some (Demo.sign "whsec_test" "checkout.session.completed")))
    = [order]
    /\ List.length (Printful.items order) = 2%nat
    /\ In (Printful.VariantLine Js.NaN 1) (Printful.items order).
Proof.
  destruct (serverjs_keeps_lines_without_variant
              (Demo.services (inr Demo.one_without_variant)
                 (inr Demo.one_without_variant) (inr tt))
              Demo.env (Express.Buffer "checkout.session.completed")
              (Some (Demo.sign "whsec_test" "checkout.session.completed"))
              {| Stripe.type := "checkout.session.completed";
                 Stripe.data_object := Demo.session |}
              Demo.one_without_variant Demo.customer Demo.address)
    as (order & Ho & Hl & Hin).
  - reflexivity.
  - reflexivity.
  - reflexivity.
  - repeat constructor; eexists; eexists; split; reflexivity.
  - reflexivity.
  - reflexivity.
  - exists order. split; [exact Ho|]. split; [exact Hl|].
    apply (Hin (Demo.item None (Some "78") 1)).
    + right. left. reflexivity.
    + reflexivity.
Defined.

(** A session of 101 line items. *)
Lemma serverjs_order_has_at_most_100_lines_at_101_items :
  let svc := Demo.services (inr Demo.many_items) (inr Demo.many_items) (inr tt) in
  let run :=
    ServerJs.webhook_handler svc Demo.env
      (Express.Buffer "checkout.session.completed")
      (Some (Demo.sign "whsec_test" "checkout.session.completed")) in
  List.length Demo.many_items = 101%nat
  /\ Obs.refetches run = [Eff.ListLineItems "cs_test_1" 100]
  /\ Obs.orders run = [Demo.order_of_many]
  /\ (List.length (Printful.items Demo.order_of_many) <= 100)%nat
  /\ Eff.result (Eff.mapM ServerJs.printful_item (firstn 100 Demo.many_items))
     = inr (Printful.items Demo.order_of_many).
Proof.
  destruct (serverjs_order_has_at_most_100_lines
              (Demo.services (inr Demo.many_items) (inr Demo.many_items) (inr tt))
              Demo.env (Express.Buffer "checkout.session.completed")
              (Some (Demo.sign "whsec_test" "checkout.session.completed"))
              {| Stripe.type := "checkout.session.completed";
                 Stripe.data_object := Demo.session |}
              Demo.many_items)
    as [Hf Ho].
  - reflexivity.
  - reflexivity.
  - reflexivity.
  - split; [reflexivity|]. split; [exact Hf|]. split; [vm_compute; reflexivity|].
    apply Ho. left. vm_compute. reflexivity.
Defined.

(** The two-item cart, at checkout. *)
Lemma checkout_session_keeps_prices_and_quantities_at_two_item_cart :
  let svc := Demo.services (inr []) (inr []) (inr tt) in
  let body := {| Api.cart := Some Demo.two_item_cart;
                 Api.customerInfo := Some {| Api.email := Some "ada@example.com" |} |} in
  exists params,
    Obs.sessions (ServerJs.create_checkout_session svc Demo.env body) = [params]
    /\ List.length (Stripe.line_items params) = 2%nat
    /\ Forall2
         (fun item li =>
            Stripe.unit_amount (Stripe.price_data li) = Api.price item
            /\ Stripe.li_quantity li = Api.quantity item)
         Demo.two_item_cart (Stripe.line_items params)
    /\ Obs.total (Obs.session_lines (Stripe.line_items params))
       = Obs.total (Obs.cart_lines Demo.two_item_cart).
Proof.
  apply (checkout_session_keeps_prices_and_quantities
           (Demo.services (inr []) (inr []) (inr tt)) Demo.env
           {| Api.cart := Some Demo.two_item_cart;
              Api.customerInfo := Some {| Api.email := Some "ada@example.com" |} |}
           Demo.two_item_cart {| Api.email := Some "ada@example.com" |}).
  - reflexivity.
  - reflexivity.
Defined.

(** A product whose first variant sells at "19.99". *)
Lemma retail_price_19_99_is_not_1999_cents_at_dad_hat :
  let variant := Demo.variant (Some "19.99") [Demo.default_file] in
  let details := Demo.product_result (Some "Dad Hat") None None [variant] in
  Api.v_price (ServerJs.variant_view variant) = 0x1.f3bffffffffffp+10%float
  /\ ServerJs.list_price details = 0x1.f3bffffffffffp+10%float
  /\ (0x1.f3bffffffffffp+10 <? 1999)%float = true
  /\ (1998 <? 0x1.f3bffffffffffp+10)%float = true
  /\ (0x1.f3bffffffffffp+10 =? 1999)%float = false.
Proof.
  apply (retail_price_19_99_is_not_1999_cents
           (Demo.variant (Some "19.99") [Demo.default_file])
           (Demo.product_result (Some "Dad Hat") None None
              [Demo.variant (Some "19.99") [Demo.default_file]])).
  - reflexivity.
  - reflexivity.
Defined.

(** A product without a name or a description whose variant has no
    preview file, once with a thumbnail and once without; and a product
    whose variant has a preview file after another file. *)
Lemma catalog_fallbacks_at_bare_product :
  let variant := Demo.variant (Some "25.00") [Demo.default_file] in
  let details := Demo.product_result None None None [variant] in
  let with_thumbnail := Demo.store_product None (Some "https://files.example/thumb.png") in
  let without := Demo.store_product None None in
  (exists summary view,
      ServerJs.product_summary with_thumbnail details = (inr summary, [])
      /\ ServerJs.productDetails details = (inr view, [])
      /\ Api.ps_name summary = "No name available"
      /\ Api.ps_thumbnail_url summary = "https://files.example/thumb.png"
      /\ Api.p_description view = "No description available"
      /\ Api.p_name view = None
      /\ map Api.v_thumbnail_url (Api.p_variants view) = [None])
  /\ (exists summary,
         ServerJs.product_summary without details = (inr summary, [])
         /\ Api.ps_thumbnail_url summary = "default_image_url")
  /\ (exists summary view,
         ServerJs.product_summary Fixture.hat Fixture.hat_details
         = (inr summary, [])
         /\ ServerJs.productDetails Fixture.hat_details = (inr view, [])
         /\ Api.ps_thumbnail_url summary = "https://files.example/preview.png"
         /\ map Api.v_thumbnail_url (Api.p_variants view)
            = [Some "https://files.example/preview.png"]).
Proof.
  split; [|split].
  - destruct (catalog_fallbacks
                (Demo.store_product None (Some "https://files.example/thumb.png"))
                (Demo.product_result None None None
                   [Demo.variant (Some "25.00") [Demo.default_file]])
                {| Api.ps_id := 77%Z;
                   Api.ps_name := "No name available";
                   Api.ps_thumbnail_url := "https://files.example/thumb.png";
                   Api.ps_price := 2500%float;
                   Api.ps_variant_id := Some 4012%Z |}
                []
                (Demo.product_result None None None
                   [Demo.variant (Some "25.00") [Demo.default_file]])
                {| Api.p_id := Some 77%Z;
                   Api.p_name := None;
                   Api.p_description := "No description available";
                   Api.p_thumbnail_url := None;
                   Api.p_variants :=
                     [{| Api.v_id := Some 4012%Z;
                         Api.v_name := Some "Dad Hat / Black";
                         Api.v_price := 2500%float;
                         Api.v_thumbnail_url := None |}] |}
                [])
      as ((Hn & _ & Hu & _) & (sp & variants & Hsp & Hv & Hd & Hp & Ht)).
    + vm_compute. reflexivity.
    + vm_compute. reflexivity.
    + cbn in Hsp. injection Hsp as <-.
      eexists. eexists.
      split; [vm_compute; reflexivity|]. split; [vm_compute; reflexivity|].
      split; [apply Hn; reflexivity|].
      split; [apply (Hu eq_refl "https://files.example/thumb.png" eq_refl);
              discriminate|].
      split; [apply Hd; reflexivity|].
      split; [exact Hp|]. reflexivity.
  - destruct (catalog_fallbacks
                (Demo.store_product None None)
                (Demo.product_result None None None
                   [Demo.variant (Some "25.00") [Demo.default_file]])
                {| Api.ps_id := 77%Z;
                   Api.ps_name := "No name available";
                   Api.ps_thumbnail_url := "default_image_url";
                   Api.ps_price := 2500%float;
                   Api.ps_variant_id := Some 4012%Z |}
                []
                (Demo.product_result None None None
                   [Demo.variant (Some "25.00") [Demo.default_file]])
                {| Api.p_id := Some 77%Z;
                   Api.p_name := None;
                   Api.p_description := "No description available";
                   Api.p_thumbnail_url := None;
                   Api.p_variants :=
                     [{| Api.v_id := Some 4012%Z;
                         Api.v_name := Some "Dad Hat / Black";
                         Api.v_price := 2500%float;
                         Api.v_thumbnail_url := None |}] |}
                [])
      as ((_ & _ & _ & Hu) & _).
    + vm_compute. reflexivity.
    + vm_compute. reflexivity.
    + eexists. split; [vm_compute; reflexivity|].
      apply Hu; reflexivity.
  - destruct (catalog_fallbacks
                Fixture.hat Fixture.hat_details Fixture.hat_summary []
                Fixture.hat_details
                {| Api.p_id := Some 77%Z;
                   Api.p_name := Some "Dad Hat";
                   Api.p_description := "No description available";
                   Api.p_thumbnail_url := None;
                   Api.p_variants :=
                     [{| Api.v_id := Some 4012%Z;
                         Api.v_name := Some "Dad Hat / Black";
                         Api.v_price := 2500%float;
                         Api.v_thumbnail_url :=
                           Some "https://files.example/preview.png" |}] |}
                [])
      as ((_ & Hp & _ & _) & (sp & variants & _ & Hv & _ & _ & Ht)).
    + vm_compute. reflexivity.
    + vm_compute. reflexivity.
    + cbn in Hv. injection Hv as <-.
      eexists. eexists.
      split; [vm_compute; reflexivity|]. split; [vm_compute; reflexivity|].
      split; [apply (Hp "https://files.example/preview.png" eq_refl);
              discriminate|].
      exact Ht.
Defined.

(** A customer with a phone number and a second address line, without a
    name or a country. *)
Lemma recipient_defaults_at_customer_with_line2 :
  ServerJs.recipient_of (Some Demo.customer_with_line2)
  = (inr {| Printful.name := Some "No Name Provided";
            Printful.address1 := Some "1 Main St";
            Printful.address2 := Some "Apt 4";
            Printful.city := Some "Springfield";
            Printful.state_code := Some "IL";
            Printful.country_code := Some "US";
            Printful.zip := Some "62701";
            Printful.email := None;
            Printful.phone := None |}, [])
  /\ Part000.recipient_of Demo.session Demo.customer_with_line2
     = (inr {| Printful.name := Some "No Name";
               Printful.address1 := Some "1 Main St";
               Printful.address2 := None;
               Printful.city := Some "Springfield";
               Printful.state_code := Some "IL";
               Printful.country_code := None;
               Printful.zip := Some "62701";
               Printful.email := Some "ada@example.com";
               Printful.phone := Some "555-0100" |}, []).
Proof.
  destruct (recipient_defaults Demo.session Demo.customer_with_line2
              Demo.address_with_line2)
    as (Hs & Hp & _).
  - reflexivity.
  - split; [exact Hs|exact Hp].
Defined.

(** ** Runs of the webhook *)

(** A request with a forged signature, sent to [server.js]: 400, one
    line in the log, no call to either service. *)
Example serverjs_answers_forged_request_400 :
  ServerJs.post_webhook
    (Demo.services (inr Demo.one_without_variant) (inr Demo.one_without_variant)
       (inr tt))
    Demo.env Demo.forged
  = (inr {| Api.status := 400;
            Api.body :=
              Api.Text
                "Webhook Error: No signatures found matching the expected signature for payload." |},
     [Eff.ConsoleError
        "Webhook signature verification failed: No signatures found matching the expected signature for payload."]).
Proof. reflexivity. Qed.

(** The completed session with one line item out of two lacking its
    variant identifier, sent to [part_000]: the valid line is submitted
    alone, and the answer is 200. *)
Example part000_submits_the_valid_line_only :
  let run :=
    Part000.post_webhook
      (Demo.services (inr Demo.one_without_variant) (inr Demo.one_without_variant)
         (inr tt))
      Demo.env Demo.completed in
  Obs.status_of run = Some 200
  /\ map Printful.items (Obs.orders run) = [[Printful.SyncVariantLine "4012" 2]]
  /\ Obs.log_lines run
     = [Eff.ConsoleErrorWith "Missing variant_id or product_id for item:"
          [Eff.PrintedLineItem (Demo.item None (Some "78") 1)]].
Proof. repeat split. Qed.

(** With no valid line item, or without customer details, [part_000]
    submits nothing, logs the reason and still answers 200. *)
Example part000_submits_nothing_without_valid_lines :
  let run :=
    Part000.post_webhook
      (Demo.services (inr Demo.none_with_variant) (inr Demo.none_with_variant)
         (inr tt))
      Demo.env Demo.completed in
  Obs.status_of run = Some 200
  /\ Obs.fulfillment_calls run = 0%nat
  /\ Obs.log_lines run
     = [Eff.ConsoleErrorWith "Missing variant_id or product_id for item:"
          [Eff.PrintedLineItem (Demo.item None None 2)];
        Eff.ConsoleErrorWith "Missing variant_id or product_id for item:"
          [Eff.PrintedLineItem (Demo.item None (Some "78") 1)];
        Eff.ConsoleError
          "Error handling checkout session: No valid items for Printful order."].
Proof. repeat split. Qed.

(** A failing fulfillment API changes the answer of neither revision:
    [server.js] prints the message and the body of the refusal,
    [part_000] the body alone. *)
Example submission_failure_is_logged_only :
  let svc :=
    Demo.services (inr Demo.one_without_variant) (inr Demo.one_without_variant)
      (inl Demo.refusal) in
  Obs.status_of (ServerJs.post_webhook svc Demo.env Demo.completed) = Some 200
  /\ Obs.log_lines (ServerJs.post_webhook svc Demo.env Demo.completed)
     = [Eff.ConsoleErrorWith
          "Error creating Printful order: Request failed with status code 400"
          [Eff.PrintedObject "{ code: 400, result: 'Invalid variant' }"]]
  /\ Obs.status_of (Part000.post_webhook svc Demo.env Demo.completed) = Some 200
  /\ Obs.log_lines (Part000.post_webhook svc Demo.env Demo.completed)
     = [Eff.ConsoleErrorWith "Missing variant_id or product_id for item:"
          [Eff.PrintedLineItem (Demo.item None (Some "78") 1)];
        Eff.ConsoleErrorWith "Error handling checkout session:"
          [Eff.PrintedObject "{ code: 400, result: 'Invalid variant' }"]].
Proof. repeat split. Qed.

(* ================================================================== *)
(** * Further properties of the handlers *)
(* ================================================================== *)

Lemma requests_logs (logs : list Eff.Call) :
  Eff.only_logs logs = true -> filter Calls.is_request logs = [].
Proof.
  induction logs as [|c logs IH]; simpl; [reflexivity|].
  intros H. apply andb_prop in H. destruct H as [Hc H].
  unfold Calls.is_request at 1. rewrite Hc. exact (IH H).
Qed.

(** [mapM] fails as soon as one callback does. *)
Lemma mapM_fails {A B : Type} (f : A -> Eff.M B) (l : list A) (a : A) :
  In a l ->
  (exists e, Eff.result (f a) = inl e) ->
  exists e, Eff.result (Eff.mapM f l) = inl e.
Proof.
  intros Hin [e He]. induction l as [|b l IH]; [destruct Hin|].
  simpl. unfold Eff.bind, Eff.result in *.
  destruct (f b) as [[e'|x] t] eqn:Fb; [exists e'; reflexivity|].
  destruct Hin as [->|Hin].
  - rewrite Fb in He. discriminate He.
  - destruct (IH Hin) as [e' IH'].
    destruct (Eff.mapM f l) as [[e''|xs] t']; simpl in *; [|discriminate].
    exists e''. reflexivity.
Qed.

(** ** The webhook, further *)

Section WebhookCalls.

Variable svc : Env.Services.
Variable env : Env.ProcessEnv.

(** X1. A request that fails the signature check reaches neither the
    payment processor nor the fulfillment API, in any revision: the
    handler answers 400 with the text "Webhook Error: " followed by the
    message of the check, and sends no request at all. *)
Theorem unverified_event_reaches_no_service
    (body : Express.ReqBody) (sig : option string) (err : Eff.Exn) :
  Env.constructEvent svc body sig (Env.STRIPE_WEBHOOK_SECRET env) = inl err ->
  let refusal := {| Api.status := 400;
                    Api.body := Api.Text ("Webhook Error: " ++ Eff.message err) |} in
  (Eff.result (ServerJs.webhook_handler svc env body sig) = inr refusal
   /\ Calls.requests (ServerJs.webhook_handler svc env body sig) = [])
  /\ (Eff.result (Part000.webhook_handler svc env body sig) = inr refusal
      /\ Calls.requests (Part000.webhook_handler svc env body sig) = [])
  /\ (Eff.result (Part002.webhook_handler svc env body sig) = inr refusal
      /\ Calls.requests (Part002.webhook_handler svc env body sig) = []).
Proof.
  intros E refusal.
  unfold ServerJs.webhook_handler, Part000.webhook_handler,
    Part002.webhook_handler, ServerJs.endpointSecret, Part000.endpointSecret,
    Part002.endpointSecret.
  rewrite E. repeat split; reflexivity.
Qed.

(** X2. For a verified "checkout.session.completed" event [server.js]
    sends its requests in one order: the request for the line items
    first, then at most one order, which asks the provider to confirm it
    at once.  It answers 200 exactly when it has sent the order, and 400
    when it has stopped before. *)
Theorem serverjs_completed_event_requests
    (body : Express.ReqBody) (sig : option string) (event : Stripe.Event) :
  Env.constructEvent svc body sig (Env.STRIPE_WEBHOOK_SECRET env) = inr event ->
  Stripe.type event = "checkout.session.completed" ->
  let run := ServerJs.webhook_handler svc env body sig in
  let fetch := Eff.ListLineItems (Stripe.id (Stripe.data_object event)) 100 in
  (Obs.status_of run = Some 200
   /\ exists order,
        Calls.requests run = [fetch; Eff.PostOrder order]
        /\ Printful.confirm order = Some 1%Z)
  \/ (Obs.status_of run = Some 400 /\ Calls.requests run = [fetch]).
Proof.
  intros E T run fetch. subst run fetch. apply String.eqb_eq in T.
  pose proof (serverjs_recipient_trace
                (Stripe.customer_details (Stripe.data_object event))) as Hr.
  unfold Calls.requests, Obs.status_of, ServerJs.webhook_handler,
    ServerJs.endpointSecret.
  rewrite E. cbn. rewrite T. cbn.
  destruct (Env.listLineItems svc _ 100) as [e|lineItems]; cbn;
    [right; split; reflexivity|].
  pose proof (mapM_trace_nil ServerJs.printful_item lineItems
                serverjs_printful_item_trace) as Ht.
  unfold Eff.trace in Ht, Hr.
  destruct (Eff.mapM ServerJs.printful_item lineItems) as [[e|items] t];
    simpl in Ht; subst t; cbn; [right; split; reflexivity|].
  destruct (ServerJs.recipient_of _) as [[e|recipient] t];
    simpl in Hr; subst t; cbn; [right; split; reflexivity|].
  left. destruct (Env.post_orders svc _) as [e|[]]; [by_response e|cbn];
    (split; [reflexivity|]; eexists; split; reflexivity).
Qed.

(** X3. When the fulfillment API refuses the order, [server.js] sends
    the order once and never again, still answers 200, and calls
    [console.error] once, with "Error creating Printful order:", the
    message of the error and [error.response?.data]: the body of the
    refusal when the provider sent one, [undefined] when the error has
    no response. *)
Theorem serverjs_refused_order_is_logged_once
    (body : Express.ReqBody) (sig : option string) (event : Stripe.Event)
    (lineItems : list Stripe.LineItem) (cd : Stripe.CustomerDetails)
    (address : Stripe.Address) (err : Eff.Exn) :
  Env.constructEvent svc body sig (Env.STRIPE_WEBHOOK_SECRET env) = inr event ->
  Stripe.type event = "checkout.session.completed" ->
  Env.listLineItems svc (Stripe.id (Stripe.data_object event)) 100 = inr lineItems ->
  Forall Processor.has_price_metadata lineItems ->
  Stripe.customer_details (Stripe.data_object event) = Some cd ->
  Stripe.address cd = Some address ->
  (forall order, Env.post_orders svc order = inl err) ->
  let run := ServerJs.webhook_handler svc env body sig in
  let text := "Error creating Printful order: " ++ Eff.message err in
  Obs.status_of run = Some 200
  /\ Obs.fulfillment_calls run = 1%nat
  /\ (Eff.response_data err = None ->
      Obs.log_lines run = [Eff.ConsoleErrorWith text [Eff.PrintedUndefined]])
  /\ (forall shown,
         Eff.response_data err = Some (Eff.DataObject shown) ->
         Obs.log_lines run = [Eff.ConsoleErrorWith text [Eff.PrintedObject shown]])
  /\ (forall answer,
         Eff.response_data err = Some (Eff.DataText answer) ->
         Obs.log_lines run = [Eff.ConsoleError (text ++ " " ++ answer)]).
Proof.
  intros E T L W C A P run text. subst run text. apply String.eqb_eq in T.
  assert (Hm : Eff.mapM ServerJs.printful_item lineItems
               = (inr (map (fun item =>
                              Printful.VariantLine
                                (Js.parseInt10 (Processor.price_variant_id item))
                                (Stripe.quantity item)) lineItems), [])).
  { apply mapM_pure. eapply Forall_impl; [|exact W].
    intros item Hi. apply serverjs_printful_item_of. exact Hi. }
  pose proof (serverjs_recipient_of_present cd address A) as Hr.
  unfold Obs.status_of, Obs.fulfillment_calls, Obs.orders, Obs.log_lines,
    ServerJs.webhook_handler, ServerJs.endpointSecret.
  rewrite E. cbn. rewrite T. cbn. rewrite L. cbn. rewrite Hm. cbn.
  rewrite C, Hr. cbn. rewrite P.
  destruct (Eff.response_data err) as [[shown|answer]|]; cbn;
    (split; [reflexivity|]; split; [reflexivity|]);
    (split; [|split]); intros; congruence || reflexivity.
Qed.

End WebhookCalls.

(** ** The webhook of [part_000], further *)

Lemma part000_order_item_logs (item : Stripe.LineItem) :
  Eff.only_logs (Eff.trace (Part000.order_item item)) = true.
Proof.
  unfold Part000.order_item.
  destruct (Stripe.price item) as [price|]; cbn; [|reflexivity].
  destruct (Stripe.product price) as [product|]; cbn; [|reflexivity].
  destruct (Stripe.product_metadata product) as [md|]; cbn; [|reflexivity].
  destruct (negb (Js.truthy (Stripe.get "variant_id" md))
            || negb (Js.truthy (Stripe.get "product_id" md))); reflexivity.
Qed.

Lemma part000_mapM_logs (items : list Stripe.LineItem) :
  Eff.only_logs (Eff.trace (Eff.mapM Part000.order_item items)) = true.
Proof.
  induction items as [|item items IH]; simpl; [reflexivity|].
  pose proof (part000_order_item_logs item) as Hl.
  unfold Eff.bind, Eff.trace in *.
  destruct (Part000.order_item item) as [[e|x] t]; simpl in Hl; [exact Hl|].
  destruct (Eff.mapM Part000.order_item items) as [[e|xs] t'];
    simpl in IH; cbn; rewrite ?List.app_nil_r; apply only_logs_app; assumption.
Qed.

Section LegacyCalls.

Variable svc : Env.Services.
Variable env : Env.ProcessEnv.

Let expand : list string := ["line_items.data.price.product"].

(** X4. The webhook of [part_000] answers 400 exactly when the signature
    check fails, and 200 exactly when it passes: nothing that happens
    after the check changes the answer. *)
Theorem part000_refuses_only_unverified
    (body : Express.ReqBody) (sig : option string) :
  (Obs.status_of (Part000.webhook_handler svc env body sig) = Some 400
   <-> exists err,
         Env.constructEvent svc body sig (Env.STRIPE_WEBHOOK_SECRET env) = inl err)
  /\ (Obs.status_of (Part000.webhook_handler svc env body sig) = Some 200
      <-> exists event,
            Env.constructEvent svc body sig (Env.STRIPE_WEBHOOK_SECRET env)
            = inr event).
Proof.
  unfold Obs.status_of, Part000.webhook_handler, Part000.endpointSecret.
  destruct (Env.constructEvent svc body sig _) as [err|event]; cbn.
  - split; split; intros H; try reflexivity.
    + exists err. reflexivity.
    + discriminate H.
    + destruct H as [event H]. discriminate H.
  - destruct (Stripe.type event =? "checkout.session.completed"); cbn;
      (split; split; intros H; try reflexivity;
       [discriminate H | destruct H as [err H]; discriminate H
        | exists event; reflexivity]).
Qed.

(** X5. For a verified "checkout.session.completed" event the webhook of
    [part_000] asks the processor for the session once, with its line
    items and their products expanded, and then sends at most one order.
    An order it sends has at least one line and does not ask for
    confirmation. *)
Theorem part000_completed_event_requests
    (body : Express.ReqBody) (sig : option string) (event : Stripe.Event) :
  Env.constructEvent svc body sig (Env.STRIPE_WEBHOOK_SECRET env) = inr event ->
  Stripe.type event = "checkout.session.completed" ->
  let run := Part000.webhook_handler svc env body sig in
  let fetch :=
    Eff.RetrieveSession (Stripe.id (Stripe.data_object event))
      ["line_items.data.price.product"] in
  Calls.requests run = [fetch]
  \/ exists order,
       Calls.requests run = [fetch; Eff.PostOrder order]
       /\ Printful.items order <> []
       /\ Printful.confirm order = None.
Proof.
  intros E T run fetch. subst run fetch. apply String.eqb_eq in T.
  unfold Calls.requests, Part000.webhook_handler, Part000.endpointSecret.
  rewrite E. cbn. rewrite T.
  unfold Part000.handleCheckoutSessionCompleted. fold expand.
  destruct (Env.retrieve svc _ expand) as [e|items]; cbn.
  { left. destruct (part000_log_failure_line e) as (line & -> & Hc). cbn.
    unfold Calls.is_request. rewrite Hc. reflexivity. }
  pose proof (part000_mapM_logs items) as Hl. unfold Eff.trace in Hl.
  destruct (Eff.mapM Part000.order_item items) as [[e|mapped] logs];
    simpl in Hl; cbn.
  - left. destruct (part000_log_failure_line e) as (line & -> & Hc). cbn.
    rewrite !filter_app, (requests_logs logs Hl). cbn.
    unfold Calls.is_request. rewrite Hc. reflexivity.
  - destruct (Part000.filter_Boolean mapped) as [|line lines] eqn:K; cbn.
    + left. rewrite !filter_app, (requests_logs logs Hl). reflexivity.
    + destruct (Stripe.customer_details (Stripe.data_object event)) as [cd|]; cbn.
      * unfold Part000.recipient_of.
        destruct (Stripe.address cd) as [address|]; cbn.
        -- right. eexists.
           destruct (Env.post_orders svc _) as [e|[]]; cbn.
           ++ destruct (part000_log_failure_line e) as (l & -> & Hc). cbn.
              rewrite !filter_app, (requests_logs logs Hl). cbn.
              unfold Calls.is_request. rewrite Hc. cbn.
              split; [reflexivity|]. split; [discriminate|reflexivity].
           ++ rewrite ?filter_app, (requests_logs logs Hl). cbn.
              split; [reflexivity|]. split; [discriminate|reflexivity].
        -- left. rewrite !filter_app, (requests_logs logs Hl). reflexivity.
      * left. rewrite !filter_app, (requests_logs logs Hl). reflexivity.
Qed.

End LegacyCalls.

Lemma filter_Boolean_In {A : Type} (l : list (option A)) (a : A) :
  In a (Part000.filter_Boolean l) <-> In (Some a) l.
Proof.
  induction l as [|[b|] l IH]; simpl.
  - reflexivity.
  - rewrite IH. split; (intros [H|H]; [left; congruence|right; exact H]).
  - rewrite IH. split; [intros H; right; exact H|intros [H|H]; [discriminate|exact H]].
Qed.

Lemma filter_Boolean_length {A : Type} (l : list (option A)) :
  (List.length (Part000.filter_Boolean l) <= List.length l)%nat.
Proof.
  induction l as [|[b|] l IH]; simpl; lia.
Qed.

(** The line [part_000] keeps for an item, spelled out. *)
Lemma kept_line_Some (item : Stripe.LineItem) (line : Printful.OrderItem) :
  Processor.kept_line item = Some line <->
  exists v,
    Processor.product_key "variant_id" item = Some v
    /\ v <> ""
    /\ Js.truthy (Processor.product_key "product_id" item) = true
    /\ line = Printful.SyncVariantLine v (Stripe.quantity item).
Proof.
  unfold Processor.kept_line.
  destruct (Processor.product_key "variant_id" item) as [v|].
  - cbn [Js.truthy]. destruct (v =? "") eqn:Ev; cbn [negb andb].
    + apply String.eqb_eq in Ev. split; [discriminate|].
      intros (v' & Hv & Hne & _). congruence.
    + apply String.eqb_neq in Ev.
      destruct (Js.truthy (Processor.product_key "product_id" item)).
      * split.
        -- intros H. inversion H. exists v. repeat split; assumption.
        -- intros (v' & Hv & _ & _ & ->). congruence.
      * split; [discriminate|]. intros (v' & _ & _ & H & _). discriminate H.
  - split; [discriminate|]. intros (v' & H & _). discriminate H.
Qed.

Section LegacyTranslation.

Variable svc : Env.Services.
Variable env : Env.ProcessEnv.

(** X6. [part_000] drops the line items that lack an identifier and
    submits the others.  For a verified completed session with customer
    details and an address, whose line items have their product metadata
    in place and of which at least one carries a non-empty variant
    identifier and a non-empty product identifier: the webhook answers
    200 and submits one order; its lines are, in the order of the line
    items, one for each such item, with that variant identifier as
    [sync_variant_id] and the item's quantity, and none for any other
    item. *)
Theorem part000_submits_the_lines_with_identifiers
    (body : Express.ReqBody) (sig : option string) (event : Stripe.Event)
    (items : list Stripe.LineItem) (cd : Stripe.CustomerDetails)
    (address : Stripe.Address) :
  Env.constructEvent svc body sig (Env.STRIPE_WEBHOOK_SECRET env) = inr event ->
  Stripe.type event = "checkout.session.completed" ->
  Env.retrieve svc (Stripe.id (Stripe.data_object event))
    ["line_items.data.price.product"] = inr items ->
  Forall Processor.has_product_metadata items ->
  Stripe.customer_details (Stripe.data_object event) = Some cd ->
  Stripe.address cd = Some address ->
  Part000.filter_Boolean (map Processor.kept_line items) <> [] ->
  let run := Part000.webhook_handler svc env body sig in
  Obs.status_of run = Some 200
  /\ exists order,
       Obs.orders run = [order]
       /\ Printful.items order
          = Part000.filter_Boolean (map Processor.kept_line items)
       /\ (List.length (Printful.items order) <= List.length items)%nat
       /\ forall line,
            In line (Printful.items order) <->
            exists item v,
              In item items
              /\ Processor.product_key "variant_id" item = Some v
              /\ v <> ""
              /\ Js.truthy (Processor.product_key "product_id" item) = true
              /\ line = Printful.SyncVariantLine v (Stripe.quantity item).
Proof.
  intros E T R W C A K run. subst run.
  destruct (part000_webhook_of_completed svc env body sig event E T)
    as (Hs & Ho & _).
  destruct (part000_handle_completed svc (Stripe.data_object event) items R W)
    as (_ & _ & Hk).
  destruct (Hk K cd address C A) as (recipient & _ & Hr).
  split; [exact Hs|]. eexists. split; [rewrite Ho; exact Hr|].
  cbn [Printful.items]. split; [reflexivity|]. split.
  - etransitivity; [apply filter_Boolean_length|]. now rewrite length_map.
  - intros line. rewrite filter_Boolean_In, in_map_iff. split.
    + intros (item & Hl & Hin). apply kept_line_Some in Hl.
      destruct Hl as (v & Hl). exists item, v. split; [exact Hin|exact Hl].
    + intros (item & v & Hin & Hl). exists item. split; [|exact Hin].
      apply kept_line_Some. exists v. exact Hl.
Qed.

(** X7. When no line item of a verified completed session carries both
    identifiers, or the session has no customer details, [part_000]
    submits nothing, writes the reason to the log and answers 200. *)
Theorem part000_submits_nothing_without_lines_or_customer
    (body : Express.ReqBody) (sig : option string) (event : Stripe.Event)
    (items : list Stripe.LineItem) :
  Env.constructEvent svc body sig (Env.STRIPE_WEBHOOK_SECRET env) = inr event ->
  Stripe.type event = "checkout.session.completed" ->
  Env.retrieve svc (Stripe.id (Stripe.data_object event))
    ["line_items.data.price.product"] = inr items ->
  Forall Processor.has_product_metadata items ->
  let run := Part000.webhook_handler svc env body sig in
  let kept := Part000.filter_Boolean (map Processor.kept_line items) in
  (kept = [] ->
   Obs.status_of run = Some 200
   /\ Obs.fulfillment_calls run = 0%nat
   /\ In "Error handling checkout session: No valid items for Printful order."
        (Obs.logged run))
  /\ (kept <> [] ->
      Stripe.customer_details (Stripe.data_object event) = None ->
      Obs.status_of run = Some 200
      /\ Obs.fulfillment_calls run = 0%nat
      /\ In "Error handling checkout session: Missing customer details in session."
           (Obs.logged run)).
Proof.
  intros E T R W run kept. subst run kept.
  destruct (part000_webhook_of_completed svc env body sig event E T)
    as (Hs & Ho & Hl).
  destruct (part000_handle_completed svc (Stripe.data_object event) items R W)
    as (H0 & H1 & _).
  unfold Obs.fulfillment_calls. rewrite Ho, Hl. split.
  - intros K. destruct (H0 K) as [Hn Hi]. rewrite Hn. repeat split; assumption.
  - intros K C. destruct (H1 K C) as [Hn Hi]. rewrite Hn.
    repeat split; assumption.
Qed.

End LegacyTranslation.

(** ** Malformed and empty sessions *)

Section Edges.

Variable svc : Env.Services.
Variable env : Env.ProcessEnv.

(** X8. A verified completed session without line items: [server.js]
    still submits an order, with no line and the recipient built from
    the session's customer details; [part_000] submits nothing and logs
    that no item is valid. *)
Theorem session_without_line_items
    (body : Express.ReqBody) (sig : option string) (event : Stripe.Event)
    (cd : Stripe.CustomerDetails) (address : Stripe.Address) :
  Env.constructEvent svc body sig (Env.STRIPE_WEBHOOK_SECRET env) = inr event ->
  Stripe.type event = "checkout.session.completed" ->
  Stripe.customer_details (Stripe.data_object event) = Some cd ->
  Stripe.address cd = Some address ->
  (Env.listLineItems svc (Stripe.id (Stripe.data_object event)) 100 = inr [] ->
   exists order,
     Obs.orders (ServerJs.webhook_handler svc env body sig) = [order]
     /\ Printful.items order = []
     /\ Printful.recipient order
        = {| Printful.name :=
               Some (Js.or_default (Stripe.name cd) "No Name Provided");
             Printful.address1 := Some (Js.or_default (Stripe.line1 address) "");
             Printful.address2 := Some (Js.or_default (Stripe.line2 address) "");
             Printful.city := Some (Js.or_default (Stripe.city address) "");
             Printful.state_code := Some (Js.or_default (Stripe.state address) "");
             Printful.country_code :=
               Some (Js.or_default (Stripe.country address) "US");
             Printful.zip := Some (Js.or_default (Stripe.postal_code address) "");
             Printful.email := None;
             Printful.phone := None |})
  /\ (Env.retrieve svc (Stripe.id (Stripe.data_object event))
        ["line_items.data.price.product"] = inr [] ->
      Obs.orders (Part000.webhook_handler svc env body sig) = []
      /\ Obs.logged (Part000.webhook_handler svc env body sig)
         = ["Error handling checkout session: No valid items for Printful order."]).
Proof.
  intros E T C A. apply String.eqb_eq in T. split.
  - intros L. pose proof (serverjs_recipient_of_present cd address A) as Hr.
    unfold Obs.orders, ServerJs.webhook_handler, ServerJs.endpointSecret.
    rewrite E. cbn. rewrite T. cbn. rewrite L. cbn. rewrite C, Hr. cbn.
    eexists.
    destruct (Env.post_orders svc _) as [e|[]]; [by_response e|cbn];
      (split; [reflexivity|]; split; reflexivity).
  - intros R.
    unfold Obs.orders, Obs.logged, Part000.webhook_handler,
      Part000.endpointSecret, Part000.handleCheckoutSessionCompleted.
    rewrite E. cbn. rewrite T. cbn. rewrite R. split; reflexivity.
Qed.

(** X9. A verified completed session one of whose line items has no
    price object: reading the metadata throws.  [server.js] answers 400
    and submits nothing; [part_000] catches the error in the translation
    it started, submits nothing and answers 200. *)
Theorem line_item_without_price
    (body : Express.ReqBody) (sig : option string) (event : Stripe.Event)
    (lineItems : list Stripe.LineItem) (item : Stripe.LineItem) :
  Env.constructEvent svc body sig (Env.STRIPE_WEBHOOK_SECRET env) = inr event ->
  Stripe.type event = "checkout.session.completed" ->
  In item lineItems ->
  Stripe.price item = None ->
  (Env.listLineItems svc (Stripe.id (Stripe.data_object event)) 100 = inr lineItems ->
   Obs.status_of (ServerJs.webhook_handler svc env body sig) = Some 400
   /\ Obs.fulfillment_calls (ServerJs.webhook_handler svc env body sig) = 0%nat)
  /\ (Env.retrieve svc (Stripe.id (Stripe.data_object event))
        ["line_items.data.price.product"] = inr lineItems ->
      Obs.status_of (Part000.webhook_handler svc env body sig) = Some 200
      /\ Obs.fulfillment_calls (Part000.webhook_handler svc env body sig) = 0%nat).
Proof.
  intros E T Hin P. apply String.eqb_eq in T. split.
  - intros L.
    destruct (mapM_fails ServerJs.printful_item lineItems item Hin) as [e He].
    { unfold ServerJs.printful_item. rewrite P. eexists. reflexivity. }
    pose proof (mapM_trace_nil ServerJs.printful_item lineItems
                  serverjs_printful_item_trace) as Ht.
    unfold Obs.status_of, Obs.fulfillment_calls, Obs.orders,
      ServerJs.webhook_handler, ServerJs.endpointSecret.
    rewrite E. cbn. rewrite T. cbn. rewrite L. cbn.
    unfold Eff.result, Eff.trace in He, Ht.
    destruct (Eff.mapM ServerJs.printful_item lineItems) as [[e'|items] t];
      simpl in He, Ht; [|discriminate He].
    subst t. split; reflexivity.
  - intros R.
    destruct (mapM_fails Part000.order_item lineItems item Hin) as [e He].
    { unfold Part000.order_item. rewrite P. eexists. reflexivity. }
    pose proof (part000_mapM_logs lineItems) as Hl.
    unfold Obs.status_of, Obs.fulfillment_calls, Obs.orders,
      Part000.webhook_handler, Part000.endpointSecret,
      Part000.handleCheckoutSessionCompleted.
    rewrite E. cbn. rewrite T. cbn. rewrite R. cbn.
    unfold Eff.result, Eff.trace in He, Hl.
    destruct (Eff.mapM Part000.order_item lineItems) as [[e'|mapped] logs];
      simpl in He, Hl; [|discriminate He].
    cbn. destruct (part000_log_failure_line e') as (line & -> & Hc). cbn.
    rewrite !posted_orders_app, (posted_orders_logs logs Hl). cbn.
    destruct line; try discriminate Hc; split; reflexivity.
Qed.

End Edges.

(** ** The catalog endpoints, further *)

Lemma promise_all_trace {A B : Type} (f : A -> Eff.M B) (l : list A) :
  Eff.trace (Eff.promise_all f l) = List.concat (map (fun a => Eff.trace (f a)) l).
Proof.
  induction l as [|a l IH]; simpl; [reflexivity|].
  unfold Eff.trace in *.
  destruct (f a) as [[e|b] t]; destruct (Eff.promise_all f l) as [[e'|bs] t'];
    simpl in *; now rewrite IH.
Qed.

Lemma promise_all_fails {A B : Type} (f : A -> Eff.M B) (l : list A) (a : A) :
  In a l ->
  (exists e, Eff.result (f a) = inl e) ->
  exists e, Eff.result (Eff.promise_all f l) = inl e.
Proof.
  intros Hin [e He]. induction l as [|b l IH]; [destruct Hin|].
  simpl. unfold Eff.result in *.
  destruct (f b) as [[e'|x] t] eqn:Fb.
  - destruct (Eff.promise_all f l) as [r t']. exists e'. reflexivity.
  - destruct Hin as [->|Hin].
    + rewrite Fb in He. discriminate He.
    + destruct (IH Hin) as [e' IH'].
      destruct (Eff.promise_all f l) as [[e''|xs] t']; simpl in *;
        [|discriminate].
      exists e''. reflexivity.
Qed.

Lemma serverjs_product_summary_trace (product : Printful.StoreProduct)
    (details : Printful.ProductResult) :
  Eff.trace (ServerJs.product_summary product details) = [].
Proof.
  unfold ServerJs.product_summary, ServerJs.mockupImage.
  destruct (Printful.sync_variants details) as [[|v vs]|]; cbn; try reflexivity.
  destruct (Printful.files v); reflexivity.
Qed.

(** [product_summary] throws exactly on a detail without its variant
    list, or whose first variant has no file list. *)
Lemma serverjs_product_summary_throws (product : Printful.StoreProduct)
    (details : Printful.ProductResult) :
  (exists e, Eff.result (ServerJs.product_summary product details) = inl e)
  <-> (Printful.sync_variants details = None
       \/ exists v rest,
            Printful.sync_variants details = Some (v :: rest)
            /\ Printful.files v = None).
Proof.
  unfold ServerJs.product_summary, ServerJs.mockupImage.
  destruct (Printful.sync_variants details) as [[|v vs]|]; cbn.
  - split; [intros [e H]; discriminate H|].
    intros [H|(v & rest & H & _)]; discriminate H.
  - destruct (Printful.files v) as [files|] eqn:F; cbn.
    + split; [intros [e H]; discriminate H|].
      intros [H|(v' & rest & H & H')]; [discriminate H|].
      inversion H; subst. congruence.
    + split; [|intros _; eexists; reflexivity].
      intros _. right. exists v, vs. split; [reflexivity|exact F].
  - split; [intros _; left; reflexivity|intros _; eexists; reflexivity].
Qed.

Section Catalog.

Variable svc : Env.Services.

(** X10. When the provider fails the request for the product list,
    [GET /api/products] answers 500 with the fixed error "Failed to
    fetch products." and no detail of the failure, and sends no request
    for any product. *)
Theorem product_list_failure (e : Eff.Exn) :
  Env.get_store_products svc = inl e ->
  Eff.result (ServerJs.get_products svc)
  = inr {| Api.status := 500;
           Api.body := Api.JsonError "Failed to fetch products." None |}
  /\ Calls.requests (ServerJs.get_products svc) = [Eff.GetStoreProducts]
  /\ Obs.logged (ServerJs.get_products svc)
     = ["Error fetching products from Printful: " ++ Eff.message e].
Proof.
  intros L. unfold Calls.requests, Obs.logged, ServerJs.get_products.
  rewrite L. repeat split; reflexivity.
Qed.

(** X11. When the provider returns the product list, [GET /api/products]
    sends one detail request for every product of the list, in the order
    of the list, whatever the provider answers to any of them: a failed
    detail request does not stop the others from being sent. *)
Theorem product_list_sends_a_request_per_product
    (products : list Printful.StoreProduct) :
  Env.get_store_products svc = inr products ->
  Calls.requests (ServerJs.get_products svc)
  = Eff.GetStoreProducts
      :: map (fun product => Eff.GetStoreProduct (Calls.detail_path product))
           products.
Proof.
  intros L. unfold Calls.requests, ServerJs.get_products. rewrite L. cbn.
  match goal with
  | |- context [Eff.promise_all ?f products] =>
      pose proof (promise_all_trace f products) as Ht;
      assert (Hf : forall product,
                 Eff.trace (f product)
                 = [Eff.GetStoreProduct (Calls.detail_path product)]);
      [|destruct (Eff.promise_all f products) as [[e|summaries] t]]
  end.
  - intros product. cbn. unfold Calls.detail_path.
    destruct (Env.get_store_product svc _) as [e|details]; cbn; [reflexivity|].
    pose proof (serverjs_product_summary_trace product details) as Hs.
    unfold Eff.trace in Hs.
    destruct (ServerJs.product_summary product details) as [r t].
    simpl in Hs. subst t. reflexivity.
  - unfold Eff.trace in Ht. simpl in Ht. subst t. cbn. f_equal.
    rewrite filter_app. cbn. rewrite List.app_nil_r.
    clear L. induction products as [|p ps IH]; [reflexivity|].
    cbn [map List.concat]. rewrite filter_app, IH.
    unfold Eff.trace in Hf. rewrite Hf. reflexivity.
  - unfold Eff.trace in Ht. simpl in Ht. subst t. cbn. f_equal.
    rewrite List.app_nil_r.
    clear L. induction products as [|p ps IH]; [reflexivity|].
    cbn [map List.concat]. rewrite filter_app, IH.
    unfold Eff.trace in Hf. rewrite Hf. reflexivity.
Qed.

End Catalog.

Section CatalogPayloads.

Variable svc : Env.Services.

(** What one callback of the list endpoint returns. *)
Lemma product_list_callback (product : Printful.StoreProduct) :
  forall f,
    f = (fun product =>
           Eff.bind
             (Eff.request (Eff.GetStoreProduct (Js.toString (Printful.sp_id product)))
                (Env.get_store_product svc (Js.toString (Printful.sp_id product))))
             (fun details => ServerJs.product_summary product details)) ->
    Eff.result (f product)
    = match Env.get_store_product svc (Calls.detail_path product) with
      | inl e => inl e
      | inr details => Eff.result (ServerJs.product_summary product details)
      end.
Proof.
  intros f ->. unfold Calls.detail_path, Eff.bind, Eff.request, Eff.result.
  destruct (Env.get_store_product svc _) as [e|details]; [reflexivity|].
  destruct (ServerJs.product_summary product details) as [r t]. reflexivity.
Qed.

(** The list endpoint answers 500 as soon as the callback of one product
    rejects. *)
Lemma product_list_rejects (products : list Printful.StoreProduct)
    (product : Printful.StoreProduct) :
  Env.get_store_products svc = inr products ->
  In product products ->
  (exists e,
      match Env.get_store_product svc (Calls.detail_path product) with
      | inl e' => inl e'
      | inr details => Eff.result (ServerJs.product_summary product details)
      end = inl e) ->
  Eff.result (ServerJs.get_products svc)
  = inr {| Api.status := 500;
           Api.body := Api.JsonError "Failed to fetch products." None |}.
Proof.
  intros L Hin He. unfold ServerJs.get_products. rewrite L. cbn.
  match goal with
  | |- context [Eff.promise_all ?f products] =>
      destruct (promise_all_fails f products product Hin) as [e' Hp];
      [rewrite (product_list_callback product f eq_refl); exact He|];
      unfold Eff.result in Hp;
      destruct (Eff.promise_all f products) as [[e''|summaries] t];
      simpl in Hp; [reflexivity|discriminate Hp]
  end.
Qed.

(** X12. [GET /api/products] returns no partial list: when the provider
    fails the detail request of one product of the list, the endpoint
    answers 500 with the fixed error "Failed to fetch products.",
    whatever it answered for the other products. *)
Theorem product_list_fails_with_one_detail
    (products : list Printful.StoreProduct) (product : Printful.StoreProduct)
    (e : Eff.Exn) :
  Env.get_store_products svc = inr products ->
  In product products ->
  Env.get_store_product svc (Calls.detail_path product) = inl e ->
  Eff.result (ServerJs.get_products svc)
  = inr {| Api.status := 500;
           Api.body := Api.JsonError "Failed to fetch products." None |}.
Proof.
  intros L Hin D. apply (product_list_rejects products product L Hin).
  rewrite D. exists e. reflexivity.
Qed.

(** X13. A detail that has no variant list, or whose first variant has
    no file list, makes the list endpoint throw while it builds the
    entry: the endpoint answers 500 for the whole list.  A detail with
    an empty variant list does not: its entry has price 0, no variant
    identifier, and the product thumbnail as its image. *)
Theorem product_list_with_malformed_detail
    (products : list Printful.StoreProduct) (product : Printful.StoreProduct)
    (details : Printful.ProductResult) :
  Env.get_store_products svc = inr products ->
  In product products ->
  Env.get_store_product svc (Calls.detail_path product) = inr details ->
  ((Printful.sync_variants details = None
    \/ exists v rest,
         Printful.sync_variants details = Some (v :: rest)
         /\ Printful.files v = None) ->
   Eff.result (ServerJs.get_products svc)
   = inr {| Api.status := 500;
            Api.body := Api.JsonError "Failed to fetch products." None |})
  /\ (Printful.sync_variants details = Some [] ->
      exists summary,
        ServerJs.product_summary product details = (inr summary, [])
        /\ Api.ps_price summary = 0%float
        /\ Api.ps_variant_id summary = None
        /\ Api.ps_thumbnail_url summary
           = Js.or_default (Printful.sp_thumbnail_url product) "default_image_url").
Proof.
  intros L Hin D. split.
  - intros M. apply (product_list_rejects products product L Hin).
    rewrite D. apply serverjs_product_summary_throws. exact M.
  - intros V. unfold ServerJs.product_summary, ServerJs.mockupImage,
      ServerJs.list_price, ServerJs.first_variant.
    rewrite V. cbn. eexists. split; [reflexivity|]. cbn.
    repeat split.
Qed.

(** X14. When [GET /api/products] answers 200, its payload has one entry
    for every product of the provider's list, in the order of the list,
    each with the identifier of its product and built from the detail
    the provider returned for that product. *)
Theorem product_list_payload
    (products : list Printful.StoreProduct) :
  Env.get_store_products svc = inr products ->
  Obs.status_of (ServerJs.get_products svc) = Some 200 ->
  exists summaries,
    Calls.body_of (ServerJs.get_products svc) = Some (Api.JsonProducts summaries)
    /\ map Api.ps_id summaries = map Printful.sp_id products
    /\ Forall2
         (fun product summary =>
            exists details,
              Env.get_store_product svc (Calls.detail_path product) = inr details
              /\ Eff.result (ServerJs.product_summary product details)
                 = inr summary)
         products summaries.
Proof.
  intros L S.
  assert (H : exists summaries,
             Eff.result (ServerJs.get_products svc)
             = inr {| Api.status := 200; Api.body := Api.JsonProducts summaries |}).
  { revert S. unfold Obs.status_of, ServerJs.get_products. rewrite L. cbn.
    match goal with
    | |- context [Eff.promise_all ?f products] =>
        destruct (Eff.promise_all f products) as [[e|summaries] t]
    end; cbn; [discriminate|].
    intros _. exists summaries. reflexivity. }
  destruct H as [summaries H]. exists summaries.
  pose proof (get_products_payload svc products summaries L H) as F.
  split; [unfold Calls.body_of; rewrite H; reflexivity|]. split; [|exact F].
  clear L S H. induction F as [|p s ps ss (details & _ & Hs) _ IH];
    [reflexivity|].
  cbn [map]. rewrite IH. f_equal.
  revert Hs. unfold Eff.result, ServerJs.product_summary, ServerJs.mockupImage.
  destruct (Printful.sync_variants details) as [[|v vs]|]; cbn;
    [| |discriminate].
  - intros H. inversion H. reflexivity.
  - destruct (Printful.files v); cbn; [|discriminate].
    intros H. inversion H. reflexivity.
Qed.

End CatalogPayloads.

(** X15. For a variant without a retail price (absent, or the empty
    text) the two endpoints disagree: the list endpoint reports the
    price 0, the detail endpoint multiplies [NaN] by 100 and reports
    [NaN]. *)
Theorem price_without_retail_price
    (variant : Printful.SyncVariant) (details : Printful.ProductResult) :
  ServerJs.first_variant details = Some variant ->
  Js.truthy (Printful.retail_price variant) = false ->
  ServerJs.list_price details = 0%float
  /\ PrimFloat.is_nan (Api.v_price (ServerJs.variant_view variant)) = true.
Proof.
  intros F P. unfold ServerJs.list_price, ServerJs.variant_view.
  rewrite F, P. split; [reflexivity|]. cbn [Api.v_price].
  destruct (Printful.retail_price variant) as [s|]; [|vm_compute; reflexivity].
  cbn in P. apply negb_false_iff, String.eqb_eq in P. subst s.
  vm_compute. reflexivity.
Qed.

Section ProductDetail.

Variable svc : Env.Services.

(** X16. [GET /api/products/:id] sends the provider one request, for
    the identifier in the path, whatever the answer.  It answers 500 with
    the fixed error "Internal server error", and no detail of the
    failure, when the provider fails, and when the answer lacks its
    product or its variant list, which the handler reads with no guard.
    When the answer has both, it answers 200 with one variant view for
    every variant, in order, each with the identifier and the name of
    its variant, under the identifier, name and thumbnail of the
    product. *)
Theorem product_detail_endpoint (productId : string) :
  Calls.requests (ServerJs.get_product svc productId)
  = [Eff.GetStoreProduct productId]
  /\ (forall e,
         Env.get_store_product svc productId = inl e ->
         Eff.result (ServerJs.get_product svc productId)
         = inr {| Api.status := 500;
                  Api.body := Api.JsonError "Internal server error" None |})
  /\ (forall product,
         Env.get_store_product svc productId = inr product ->
         Printful.sync_product product = None
         \/ Printful.sync_variants product = None ->
         Eff.result (ServerJs.get_product svc productId)
         = inr {| Api.status := 500;
                  Api.body := Api.JsonError "Internal server error" None |})
  /\ (forall product sp variants,
         Env.get_store_product svc productId = inr product ->
         Printful.sync_product product = Some sp ->
         Printful.sync_variants product = Some variants ->
         exists view,
           Eff.result (ServerJs.get_product svc productId)
           = inr {| Api.status := 200; Api.body := Api.JsonProduct view |}
           /\ List.length (Api.p_variants view) = List.length variants
           /\ map Api.v_id (Api.p_variants view) = map Printful.sv_id variants
           /\ map Api.v_name (Api.p_variants view) = map Printful.sv_name variants
           /\ Api.p_id view = Printful.id sp
           /\ Api.p_name view = Printful.sync_name sp
           /\ Api.p_thumbnail_url view = Printful.thumbnail_url sp).
Proof.
  unfold Calls.requests, ServerJs.get_product, ServerJs.productDetails.
  split; [|split; [|split]].
  - destruct (Env.get_store_product svc productId) as [e|product]; cbn;
      [reflexivity|].
    destruct (Printful.sync_product product); cbn; [|reflexivity].
    destruct (Printful.sync_variants product); reflexivity.
  - intros e G. rewrite G. reflexivity.
  - intros product G [P|V]; rewrite G; cbn.
    + rewrite P. reflexivity.
    + destruct (Printful.sync_product product); cbn; rewrite ?V; reflexivity.
  - intros product sp variants G P V. rewrite G. cbn. rewrite P. cbn.
    rewrite V. cbn.
    eexists. split; [reflexivity|]. cbn.
    rewrite length_map, !map_map. repeat split.
Qed.

End ProductDetail.

(** ** Checkout-session creation, further *)

Section CheckoutErrors.

Variable svc : Env.Services.
Variable env : Env.ProcessEnv.


(** X18. With a cart and customer info, [server.js] sends the processor
    one request for a session and reports its answer: 200 with the
    identifier of the session the processor created, and nothing
    logged, or, when the processor refuses, 500 with the error "Failed
    to create Stripe session." and the processor's message as its
    details, after one call of [console.error] with "Stripe Checkout
    Session Error:" and the error object itself.  An empty cart is sent
    on like any other. *)
Theorem checkout_reports_the_processor
    (body : Api.CheckoutRequest) (cart : list Api.CartItem)
    (info : Api.CustomerInfo) :
  Api.cart body = Some cart ->
  Api.customerInfo body = Some info ->
  let params := ServerJs.session_params env (map ServerJs.line_item cart) info in
  let run := ServerJs.create_checkout_session svc env body in
  Calls.requests run = [Eff.CreateSession params]
  /\ (forall id,
         Env.create svc params = inr id ->
         Eff.result run = inr {| Api.status := 200; Api.body := Api.JsonId id |}
         /\ Obs.log_lines run = [])
  /\ (forall e,
         Env.create svc params = inl e ->
         Eff.result run
         = inr {| Api.status := 500;
                  Api.body := Api.JsonError "Failed to create Stripe session."
                                (Some (Eff.message e)) |}
         /\ Obs.log_lines run
            = [Eff.ConsoleErrorWith "Stripe Checkout Session Error:"
                 [Eff.PrintedError e]]).
Proof.
  intros C I params run. subst params run.
  unfold Calls.requests, Obs.log_lines, ServerJs.create_checkout_session.
  rewrite C, I. cbn. split; [|split].
  - destruct (Env.create svc _); reflexivity.
  - intros id H. rewrite H. split; reflexivity.
  - intros e H. rewrite H. split; reflexivity.
Qed.

End CheckoutErrors.

(** ** A cart item without a variant identifier, from checkout to order *)

Lemma serverjs_cart_lines (cart : list Api.CartItem)
    (fetched : list Stripe.LineItem) :
  Forall Obs.variant_is_safe cart ->
  Forall2 Processor.carries_price_metadata (map ServerJs.line_item cart) fetched ->
  Eff.mapM ServerJs.printful_item fetched = (inr (map Calls.cart_line cart), [])
  /\ Forall2
       (fun item read =>
          Processor.price_variant_id read = Some (Js.String_ (Api.variant_id item)))
       cart fetched.
Proof.
  intros Hs. revert fetched.
  induction Hs as [|item cart Hsafe _ IH]; intros fetched H;
    inversion H as [|li f lis fs Hc Hrest]; subst;
    [split; [reflexivity|constructor]|].
  destruct (IH fs Hrest) as [Hm Hreads].
  destruct (serverjs_reads_embedded_variant item f Hc) as (Hw & Hread & Hq).
  split; [|constructor; assumption].
  cbn [Eff.mapM map].
  rewrite (serverjs_printful_item_of f Hw), Hread, Hm, Hq.
  unfold Calls.cart_line, Obs.variant_is_safe in *.
  destruct (Api.variant_id item) as [| |v]; cbn [Js.String_].
  - reflexivity.
  - reflexivity.
  - rewrite parseInt10_toString by (apply Hsafe; reflexivity). reflexivity.
Qed.

Section NullVariant.

Variable svc : Env.Services.
Variable env : Env.ProcessEnv.

(** X19. In [server.js] a cart item whose variant identifier is [null]
    or missing is not refused at checkout: [String] makes "null" or
    "undefined" of it, which goes into the metadata, and when the session
    completes the webhook reads that text back with [parseInt] and
    submits a line whose variant is [NaN].  For a cart whose variant
    identifiers, where they are numbers, are safe integers, and a
    processor that returns the metadata it was given: what the webhook
    reads from every line item is [String] of the cart item's variant
    identifier, and the order submitted has one line for every cart
    item, in order, with the item's quantity, and with the item's
    variant identifier or [NaN]. *)
Theorem serverjs_null_variant_becomes_nan_line
    (body : Express.ReqBody) (sig : option string) (event : Stripe.Event)
    (cart : list Api.CartItem) (fetched : list Stripe.LineItem)
    (cd : Stripe.CustomerDetails) (address : Stripe.Address) :
  Env.constructEvent svc body sig (Env.STRIPE_WEBHOOK_SECRET env) = inr event ->
  Stripe.type event = "checkout.session.completed" ->
  Env.listLineItems svc (Stripe.id (Stripe.data_object event)) 100 = inr fetched ->
  Forall2 Processor.carries_price_metadata (map ServerJs.line_item cart) fetched ->
  Forall Obs.variant_is_safe cart ->
  Stripe.customer_details (Stripe.data_object event) = Some cd ->
  Stripe.address cd = Some address ->
  Forall2
    (fun item read =>
       Processor.price_variant_id read = Some (Js.String_ (Api.variant_id item)))
    cart fetched
  /\ (forall item read,
         In (item, read) (combine cart fetched) ->
         (Api.variant_id item = Js.Null ->
          Processor.price_variant_id read = Some "null")
         /\ (Api.variant_id item = Js.Absent ->
             Processor.price_variant_id read = Some "undefined"))
  /\ exists order,
       Obs.orders (ServerJs.webhook_handler svc env body sig) = [order]
       /\ Printful.items order = map Calls.cart_line cart
       /\ forall item,
            In item cart ->
            Api.variant_id item = Js.Null \/ Api.variant_id item = Js.Absent ->
            In (Printful.VariantLine Js.NaN (Api.quantity item))
              (Printful.items order).
Proof.
  intros E T L H S C A.
  destruct (serverjs_cart_lines cart fetched S H) as [Hm Hreads].
  pose proof (serverjs_recipient_of_present cd address A) as Hr.
  rewrite <- C in Hr.
  destruct (serverjs_submission_outcome_is_not_reported svc env body sig event
              fetched _ _ E T L Hm Hr) as [_ Ho].
  split; [exact Hreads|]. split.
  { clear -Hreads. induction Hreads as [|item read cart fetched Hr _ IH];
      intros item' read' Hin; [destruct Hin|].
    destruct Hin as [Heq|Hin]; [|exact (IH item' read' Hin)].
    injection Heq as <- <-. rewrite Hr.
    split; intros ->; reflexivity. }
  eexists. split; [exact Ho|]. cbn [Printful.items]. split; [reflexivity|].
  intros item Hin Hv.
  replace (Printful.VariantLine Js.NaN (Api.quantity item))
    with (Calls.cart_line item)
    by (unfold Calls.cart_line; destruct Hv as [-> | ->]; reflexivity).
  apply in_map. exact Hin.
Qed.

End NullVariant.

(* ================================================================== *)
(** * The further properties at concrete inputs *)
(* ================================================================== *)

(** A forged signature. *)
Lemma unverified_event_reaches_no_service_at_forged_signature :
  let svc := Demo.services (inr Demo.one_without_variant)
               (inr Demo.one_without_variant) (inr tt) in
  let body := Express.Buffer "checkout.session.completed" in
  let refusal :=
    {| Api.status := 400;
       Api.body :=
         Api.Text
           "Webhook Error: No signatures found matching the expected signature for payload." |} in
  (Eff.result (ServerJs.webhook_handler svc Demo.env body (Some "whsec_guess"))
   = inr refusal
   /\ Calls.requests (ServerJs.webhook_handler svc Demo.env body (Some "whsec_guess"))
      = [])
  /\ (Eff.result (Part000.webhook_handler svc Demo.env body (Some "whsec_guess"))
      = inr refusal
      /\ Calls.requests (Part000.webhook_handler svc Demo.env body (Some "whsec_guess"))
         = [])
  /\ (Eff.result (Part002.webhook_handler svc Demo.env body (Some "whsec_guess"))
      = inr refusal
      /\ Calls.requests (Part002.webhook_handler svc Demo.env body (Some "whsec_guess"))
         = []).
Proof.
  apply (unverified_event_reaches_no_service
           (Demo.services (inr Demo.one_without_variant)
              (inr Demo.one_without_variant) (inr tt))
           Demo.env (Express.Buffer "checkout.session.completed")
           (Some "whsec_guess")
           (Eff.StripeSignatureVerificationError
              "No signatures found matching the expected signature for payload.")).
  reflexivity.
Defined.

(** The session of two line items, and the same session when the
    processor cannot return them. *)
Lemma serverjs_completed_event_requests_at_two_items :
  let body := Express.Buffer "checkout.session.completed" in
  let sig := Some (Demo.sign "whsec_test" "checkout.session.completed") in
  let sent :=
    ServerJs.webhook_handler
      (Demo.services (inr Demo.one_without_variant) (inr []) (inr tt))
      Demo.env body sig in
  let stopped :=
    ServerJs.webhook_handler
      (Demo.services Demo.unavailable (inr []) (inr tt)) Demo.env body sig in
  (Obs.status_of sent = Some 200
   /\ exists order,
        Calls.requests sent
        = [Eff.ListLineItems "cs_test_1" 100; Eff.PostOrder order]
        /\ Printful.confirm order = Some 1%Z)
  /\ (Obs.status_of stopped = Some 400
      /\ Calls.requests stopped = [Eff.ListLineItems "cs_test_1" 100]).
Proof.
  split.
  - destruct (serverjs_completed_event_requests
                (Demo.services (inr Demo.one_without_variant) (inr []) (inr tt))
                Demo.env (Express.Buffer "checkout.session.completed")
                (Some (Demo.sign "whsec_test" "checkout.session.completed"))
                {| Stripe.type := "checkout.session.completed";
                   Stripe.data_object := Demo.session |}
                eq_refl eq_refl)
      as [H|[H _]]; [exact H|discriminate H].
  - destruct (serverjs_completed_event_requests
                (Demo.services Demo.unavailable (inr []) (inr tt))
                Demo.env (Express.Buffer "checkout.session.completed")
                (Some (Demo.sign "whsec_test" "checkout.session.completed"))
                {| Stripe.type := "checkout.session.completed";
                   Stripe.data_object := Demo.session |}
                eq_refl eq_refl)
      as [[H _]|H]; [discriminate H|exact H].
Defined.

(** A fulfillment API that refuses the order, and one that does not
    answer. *)
Lemma serverjs_refused_order_is_logged_once_at_refusal :
  let body := Express.Buffer "checkout.session.completed" in
  let sig := Some (Demo.sign "whsec_test" "checkout.session.completed") in
  let refused :=
    ServerJs.webhook_handler
      (Demo.services (inr Demo.one_without_variant) (inr []) (inl Demo.refusal))
      Demo.env body sig in
  let unanswered :=
    ServerJs.webhook_handler
      (Demo.services (inr Demo.one_without_variant) (inr []) (inl Demo.no_answer))
      Demo.env body sig in
  (Obs.status_of refused = Some 200
   /\ Obs.fulfillment_calls refused = 1%nat
   /\ Obs.log_lines refused
      = [Eff.ConsoleErrorWith
           "Error creating Printful order: Request failed with status code 400"
           [Eff.PrintedObject "{ code: 400, result: 'Invalid variant' }"]])
  /\ (Obs.status_of unanswered = Some 200
      /\ Obs.fulfillment_calls unanswered = 1%nat
      /\ Obs.log_lines unanswered
         = [Eff.ConsoleErrorWith "Error creating Printful order: Network Error"
              [Eff.PrintedUndefined]]).
Proof.
  split.
  - destruct (serverjs_refused_order_is_logged_once
                (Demo.services (inr Demo.one_without_variant) (inr [])
                   (inl Demo.refusal))
                Demo.env (Express.Buffer "checkout.session.completed")
                (Some (Demo.sign "whsec_test" "checkout.session.completed"))
                {| Stripe.type := "checkout.session.completed";
                   Stripe.data_object := Demo.session |}
                Demo.one_without_variant Demo.customer Demo.address
                Demo.refusal)
      as (Hs & Hf & _ & Ho & _).
    + reflexivity.
    + reflexivity.
    + reflexivity.
    + repeat constructor; eexists; eexists; split; reflexivity.
    + reflexivity.
    + reflexivity.
    + reflexivity.
    + split; [exact Hs|]. split; [exact Hf|].
      exact (Ho "{ code: 400, result: 'Invalid variant' }" eq_refl).
  - destruct (serverjs_refused_order_is_logged_once
                (Demo.services (inr Demo.one_without_variant) (inr [])
                   (inl Demo.no_answer))
                Demo.env (Express.Buffer "checkout.session.completed")
                (Some (Demo.sign "whsec_test" "checkout.session.completed"))
                {| Stripe.type := "checkout.session.completed";
                   Stripe.data_object := Demo.session |}
                Demo.one_without_variant Demo.customer Demo.address
                Demo.no_answer)
      as (Hs & Hf & Hu & _).
    + reflexivity.
    + reflexivity.
    + reflexivity.
    + repeat constructor; eexists; eexists; split; reflexivity.
    + reflexivity.
    + reflexivity.
    + reflexivity.
    + split; [exact Hs|]. split; [exact Hf|]. exact (Hu eq_refl).
Defined.

(** The session of two line items, sent to [part_000], and a session
    without customer details. *)
Lemma part000_completed_event_requests_at_two_items :
  let fetch := Eff.RetrieveSession "cs_test_1" ["line_items.data.price.product"] in
  let sent :=
    Part000.webhook_handler
      (Fixture.completed_services Demo.session Demo.one_without_variant (inr tt))
      Demo.env Express.Unparsed None in
  let stopped :=
    Part000.webhook_handler
      (Fixture.completed_services Fixture.session_without_customer
         Demo.one_without_variant (inr tt))
      Demo.env Express.Unparsed None in
  (exists order,
      Calls.requests sent = [fetch; Eff.PostOrder order]
      /\ Printful.items order = [Printful.SyncVariantLine "4012" 2]
      /\ Printful.confirm order = None)
  /\ Calls.requests stopped
     = [Eff.RetrieveSession "cs_test_2" ["line_items.data.price.product"]].
Proof.
  split.
  - destruct (part000_completed_event_requests
                (Fixture.completed_services Demo.session Demo.one_without_variant
                   (inr tt))
                Demo.env Express.Unparsed None
                {| Stripe.type := "checkout.session.completed";
                   Stripe.data_object := Demo.session |}
                eq_refl eq_refl)
      as [H|(order & H & _ & Hc)]; [discriminate H|].
    exists order. split; [exact H|]. split; [|exact Hc].
    vm_compute in H. inversion H. reflexivity.
  - destruct (part000_completed_event_requests
                (Fixture.completed_services Fixture.session_without_customer
                   Demo.one_without_variant (inr tt))
                Demo.env Express.Unparsed None
                {| Stripe.type := "checkout.session.completed";
                   Stripe.data_object := Fixture.session_without_customer |}
                eq_refl eq_refl)
      as [H|(order & H & _)]; [exact H|discriminate H].
Defined.

(** Two line items, the second without a variant identifier, sent to
    [part_000]. *)
Lemma part000_submits_the_lines_with_identifiers_at_two_items :
  let run :=
    Part000.webhook_handler
      (Fixture.completed_services Demo.session Demo.one_without_variant (inr tt))
      Demo.env Express.Unparsed None in
  Obs.status_of run = Some 200
  /\ exists order,
       Obs.orders run = [order]
       /\ Printful.items order = [Printful.SyncVariantLine "4012" 2]
       /\ (List.length (Printful.items order) <= 2)%nat.
Proof.
  destruct (part000_submits_the_lines_with_identifiers
              (Fixture.completed_services Demo.session Demo.one_without_variant
                 (inr tt))
              Demo.env Express.Unparsed None
              {| Stripe.type := "checkout.session.completed";
                 Stripe.data_object := Demo.session |}
              Demo.one_without_variant Demo.customer Demo.address)
    as (Hs & order & Ho & Hi & Hl & _).
  - reflexivity.
  - reflexivity.
  - reflexivity.
  - repeat constructor; eexists; eexists; eexists; repeat split.
  - reflexivity.
  - reflexivity.
  - discriminate.
  - split; [exact Hs|]. exists order. split; [exact Ho|].
    split; [exact Hi|exact Hl].
Defined.

(** A session none of whose line items has a variant identifier, and a
    session without customer details. *)
Lemma part000_submits_nothing_without_lines_or_customer_at_two_sessions :
  let no_line :=
    Part000.webhook_handler
      (Fixture.completed_services Demo.session Demo.none_with_variant (inr tt))
      Demo.env Express.Unparsed None in
  let no_customer :=
    Part000.webhook_handler
      (Fixture.completed_services Fixture.session_without_customer
         Demo.one_without_variant (inr tt))
      Demo.env Express.Unparsed None in
  (Obs.status_of no_line = Some 200
   /\ Obs.fulfillment_calls no_line = 0%nat
   /\ In "Error handling checkout session: No valid items for Printful order."
        (Obs.logged no_line))
  /\ (Obs.status_of no_customer = Some 200
      /\ Obs.fulfillment_calls no_customer = 0%nat
      /\ In "Error handling checkout session: Missing customer details in session."
           (Obs.logged no_customer)).
Proof.
  split.
  - destruct (part000_submits_nothing_without_lines_or_customer
                (Fixture.completed_services Demo.session Demo.none_with_variant
                   (inr tt))
                Demo.env Express.Unparsed None
                {| Stripe.type := "checkout.session.completed";
                   Stripe.data_object := Demo.session |}
                Demo.none_with_variant)
      as [H _].
    + reflexivity.
    + reflexivity.
    + reflexivity.
    + repeat constructor; eexists; eexists; eexists; repeat split.
    + apply H. reflexivity.
  - destruct (part000_submits_nothing_without_lines_or_customer
                (Fixture.completed_services Fixture.session_without_customer
                   Demo.one_without_variant (inr tt))
                Demo.env Express.Unparsed None
                {| Stripe.type := "checkout.session.completed";
                   Stripe.data_object := Fixture.session_without_customer |}
                Demo.one_without_variant)
      as [_ H].
    + reflexivity.
    + reflexivity.
    + reflexivity.
    + repeat constructor; eexists; eexists; eexists; repeat split.
    + apply H; [discriminate|reflexivity].
Defined.

(** A completed session with no line item at all. *)
Lemma session_without_line_items_at_empty_session :
  let svc := Fixture.completed_services Demo.session [] (inr tt) in
  (exists order,
      Obs.orders (ServerJs.webhook_handler svc Demo.env Express.Unparsed None)
      = [order]
      /\ Printful.items order = []
      /\ Printful.recipient order = Demo.recipient)
  /\ (Obs.orders (Part000.webhook_handler svc Demo.env Express.Unparsed None) = []
      /\ Obs.logged (Part000.webhook_handler svc Demo.env Express.Unparsed None)
         = ["Error handling checkout session: No valid items for Printful order."]).
Proof.
  destruct (session_without_line_items
              (Fixture.completed_services Demo.session [] (inr tt))
              Demo.env Express.Unparsed None
              {| Stripe.type := "checkout.session.completed";
                 Stripe.data_object := Demo.session |}
              Demo.customer Demo.address eq_refl eq_refl eq_refl eq_refl)
    as [HS HP].
  split.
  - destruct (HS eq_refl) as (order & Ho & Hi & Hr).
    exists order. split; [exact Ho|]. split; [exact Hi|exact Hr].
  - exact (HP eq_refl).
Defined.

(** A session one of whose two line items has no price object. *)
Lemma line_item_without_price_at_two_items :
  let stored := [Demo.item (Some "4012") (Some "77") 2; Fixture.item_without_price] in
  let svc := Fixture.completed_services Demo.session stored (inr tt) in
  (Obs.status_of (ServerJs.webhook_handler svc Demo.env Express.Unparsed None)
   = Some 400
   /\ Obs.fulfillment_calls
        (ServerJs.webhook_handler svc Demo.env Express.Unparsed None) = 0%nat)
  /\ (Obs.status_of (Part000.webhook_handler svc Demo.env Express.Unparsed None)
      = Some 200
      /\ Obs.fulfillment_calls
           (Part000.webhook_handler svc Demo.env Express.Unparsed None) = 0%nat).
Proof.
  destruct (line_item_without_price
              (Fixture.completed_services Demo.session
                 [Demo.item (Some "4012") (Some "77") 2; Fixture.item_without_price]
                 (inr tt))
              Demo.env Express.Unparsed None
              {| Stripe.type := "checkout.session.completed";
                 Stripe.data_object := Demo.session |}
              [Demo.item (Some "4012") (Some "77") 2; Fixture.item_without_price]
              Fixture.item_without_price)
    as [HS HP].
  - reflexivity.
  - reflexivity.
  - right. left. reflexivity.
  - reflexivity.
  - split; [exact (HS eq_refl)|exact (HP eq_refl)].
Defined.

(** A provider that fails the list request. *)
Lemma product_list_failure_at_outage :
  let svc := Fixture.catalog (inl Fixture.not_found) Fixture.only_hat
               (inr "cs_test_1") in
  Eff.result (ServerJs.get_products svc)
  = inr {| Api.status := 500;
           Api.body := Api.JsonError "Failed to fetch products." None |}
  /\ Calls.requests (ServerJs.get_products svc) = [Eff.GetStoreProducts]
  /\ Obs.logged (ServerJs.get_products svc)
     = ["Error fetching products from Printful: Request failed with status code 404"].
Proof.
  apply (product_list_failure
           (Fixture.catalog (inl Fixture.not_found) Fixture.only_hat
              (inr "cs_test_1"))
           Fixture.not_found).
  reflexivity.
Defined.

(** A list of two products, the second of which the provider does not
    find. *)
Lemma product_list_sends_a_request_per_product_at_two_products :
  Calls.requests
    (ServerJs.get_products
       (Fixture.catalog (inr [Fixture.hat; Fixture.cap]) Fixture.only_hat
          (inr "cs_test_1")))
  = [Eff.GetStoreProducts; Eff.GetStoreProduct "77"; Eff.GetStoreProduct "78"].
Proof.
  apply (product_list_sends_a_request_per_product
           (Fixture.catalog (inr [Fixture.hat; Fixture.cap]) Fixture.only_hat
              (inr "cs_test_1"))
           [Fixture.hat; Fixture.cap]).
  reflexivity.
Defined.

Lemma product_list_fails_with_one_detail_at_two_products :
  Eff.result
    (ServerJs.get_products
       (Fixture.catalog (inr [Fixture.hat; Fixture.cap]) Fixture.only_hat
          (inr "cs_test_1")))
  = inr {| Api.status := 500;
           Api.body := Api.JsonError "Failed to fetch products." None |}.
Proof.
  apply (product_list_fails_with_one_detail
           (Fixture.catalog (inr [Fixture.hat; Fixture.cap]) Fixture.only_hat
              (inr "cs_test_1"))
           [Fixture.hat; Fixture.cap] Fixture.cap Fixture.not_found).
  - reflexivity.
  - right. left. reflexivity.
  - reflexivity.
Defined.

(** A second product whose detail has no variant list, and one whose
    detail has an empty list. *)
Lemma product_list_with_malformed_detail_at_two_products :
  Eff.result
    (ServerJs.get_products
       (Fixture.catalog (inr [Fixture.hat; Fixture.cap])
          (Fixture.hat_and Fixture.detail_without_variants) (inr "cs_test_1")))
  = inr {| Api.status := 500;
           Api.body := Api.JsonError "Failed to fetch products." None |}
  /\ exists summary,
       ServerJs.product_summary Fixture.cap Fixture.detail_with_no_variant
       = (inr summary, [])
       /\ Api.ps_price summary = 0%float
       /\ Api.ps_variant_id summary = None
       /\ Api.ps_thumbnail_url summary = "default_image_url".
Proof.
  split.
  - destruct (product_list_with_malformed_detail
                (Fixture.catalog (inr [Fixture.hat; Fixture.cap])
                   (Fixture.hat_and Fixture.detail_without_variants)
                   (inr "cs_test_1"))
                [Fixture.hat; Fixture.cap] Fixture.cap
                Fixture.detail_without_variants)
      as [H _].
    + reflexivity.
    + right. left. reflexivity.
    + reflexivity.
    + apply H. left. reflexivity.
  - destruct (product_list_with_malformed_detail
                (Fixture.catalog (inr [Fixture.hat; Fixture.cap])
                   (Fixture.hat_and Fixture.detail_with_no_variant)
                   (inr "cs_test_1"))
                [Fixture.hat; Fixture.cap] Fixture.cap
                Fixture.detail_with_no_variant)
      as [_ H].
    + reflexivity.
    + right. left. reflexivity.
    + reflexivity.
    + exact (H eq_refl).
Defined.

(** A list of two products, whose details the provider returns. *)
Lemma product_list_payload_at_two_products :
  let svc :=
    Fixture.catalog (inr [Fixture.hat; Fixture.cap])
      (Fixture.hat_and Fixture.detail_with_no_variant) (inr "cs_test_1") in
  exists summaries,
    Calls.body_of (ServerJs.get_products svc) = Some (Api.JsonProducts summaries)
    /\ map Api.ps_id summaries = [77%Z; 78%Z]
    /\ summaries = [Fixture.hat_summary; Fixture.cap_summary].
Proof.
  destruct (product_list_payload
              (Fixture.catalog (inr [Fixture.hat; Fixture.cap])
                 (Fixture.hat_and Fixture.detail_with_no_variant)
                 (inr "cs_test_1"))
              [Fixture.hat; Fixture.cap])
    as (summaries & Hb & Hi & _).
  - reflexivity.
  - vm_compute. reflexivity.
  - exists summaries. split; [exact Hb|]. split; [exact Hi|].
    vm_compute in Hb. inversion Hb. reflexivity.
Defined.

(** A variant with no retail price. *)
Lemma price_without_retail_price_at_unpriced_variant :
  let variant := Demo.variant None [Demo.default_file] in
  let details := Demo.product_result (Some "Dad Hat") None None [variant] in
  ServerJs.list_price details = 0%float
  /\ PrimFloat.is_nan (Api.v_price (ServerJs.variant_view variant)) = true.
Proof.
  apply (price_without_retail_price
           (Demo.variant None [Demo.default_file])
           (Demo.product_result (Some "Dad Hat") None None
              [Demo.variant None [Demo.default_file]])).
  - reflexivity.
  - reflexivity.
Defined.

(** The detail endpoint, for a product the provider returns, for one it
    does not find, and for an answer without its product. *)
Lemma product_detail_endpoint_at_hat :
  let svc := Fixture.catalog (inr []) Fixture.only_hat (inr "cs_test_1") in
  let bare :=
    Fixture.catalog (inr []) (fun _ => inr Fixture.detail_without_product)
      (inr "cs_test_1") in
  Calls.requests (ServerJs.get_product svc "77") = [Eff.GetStoreProduct "77"]
  /\ Eff.result (ServerJs.get_product svc "78")
     = inr {| Api.status := 500;
              Api.body := Api.JsonError "Internal server error" None |}
  /\ Eff.result (ServerJs.get_product bare "79")
     = inr {| Api.status := 500;
              Api.body := Api.JsonError "Internal server error" None |}
  /\ exists view,
       Eff.result (ServerJs.get_product svc "77")
       = inr {| Api.status := 200; Api.body := Api.JsonProduct view |}
       /\ map Api.v_id (Api.p_variants view) = [Some 4012%Z]
       /\ Api.p_name view = Some "Dad Hat".
Proof.
  destruct (product_detail_endpoint
              (Fixture.catalog (inr []) Fixture.only_hat (inr "cs_test_1")) "77")
    as (Hr & _ & _ & Hok).
  destruct (product_detail_endpoint
              (Fixture.catalog (inr []) Fixture.only_hat (inr "cs_test_1")) "78")
    as (_ & Hfail & _).
  destruct (product_detail_endpoint
              (Fixture.catalog (inr [])
                 (fun _ => inr Fixture.detail_without_product) (inr "cs_test_1"))
              "79")
    as (_ & _ & Hbare & _).
  split; [exact Hr|]. split; [exact (Hfail Fixture.not_found eq_refl)|].
  split; [exact (Hbare Fixture.detail_without_product eq_refl
                   (or_introl eq_refl))|].
  destruct (Hok Fixture.hat_details
              {| Printful.id := Some 77%Z;
                 Printful.sync_name := Some "Dad Hat";
                 Printful.description := None;
                 Printful.thumbnail_url := None |}
              [Demo.variant (Some "25.00") [Demo.default_file; Fixture.preview_file]]
              eq_refl eq_refl eq_refl)
    as (view & Hv & _ & Hid & _ & _ & Hn & _).
  exists view. split; [exact Hv|]. split; [exact Hid|exact Hn].
Defined.


(** The two-item cart, with a processor that creates the session and
    with one that refuses. *)
Lemma checkout_reports_the_processor_at_two_item_cart :
  let body := Fixture.checkout_body (Some Demo.two_item_cart) in
  let created :=
    ServerJs.create_checkout_session
      (Fixture.catalog (inr []) Fixture.only_hat (inr "cs_test_1")) Demo.env body in
  let refused :=
    ServerJs.create_checkout_session
      (Fixture.catalog (inr []) Fixture.only_hat (inl Fixture.processor_refusal))
      Demo.env body in
  Eff.result created
  = inr {| Api.status := 200; Api.body := Api.JsonId "cs_test_1" |}
  /\ Eff.result refused
     = inr {| Api.status := 500;
              Api.body := Api.JsonError "Failed to create Stripe session."
                            (Some "Invalid API Key provided") |}
  /\ Obs.log_lines refused
     = [Eff.ConsoleErrorWith "Stripe Checkout Session Error:"
          [Eff.PrintedError (Eff.StripeError "Invalid API Key provided")]].
Proof.
  destruct (checkout_reports_the_processor
              (Fixture.catalog (inr []) Fixture.only_hat (inr "cs_test_1"))
              Demo.env (Fixture.checkout_body (Some Demo.two_item_cart))
              Demo.two_item_cart {| Api.email := Some "ada@example.com" |}
              eq_refl eq_refl)
    as (_ & Hok & _).
  destruct (checkout_reports_the_processor
              (Fixture.catalog (inr []) Fixture.only_hat
                 (inl Fixture.processor_refusal))
              Demo.env (Fixture.checkout_body (Some Demo.two_item_cart))
              Demo.two_item_cart {| Api.email := Some "ada@example.com" |}
              eq_refl eq_refl)
    as (_ & _ & Hfail).
  destruct (Hok "cs_test_1" eq_refl) as [H1 _].
  destruct (Hfail Fixture.processor_refusal eq_refl) as [H2 H3].
  split; [exact H1|]. split; [exact H2|exact H3].
Defined.

(** A cart whose second item has no variant identifier, through
    [server.js]. *)
Lemma serverjs_null_variant_becomes_nan_line_at_two_item_cart :
  let stored :=
    map Processor.stored (map ServerJs.line_item Fixture.cart_with_null_variant) in
  map Processor.price_variant_id stored = [Some "4012"; Some "null"]
  /\ exists order,
       Obs.orders
         (ServerJs.webhook_handler
            (Fixture.completed_services Demo.session stored (inr tt))
            Demo.env Express.Unparsed None)
       = [order]
       /\ Printful.items order
          = [Printful.VariantLine (Js.Int 4012) 2; Printful.VariantLine Js.NaN 3].
Proof.
  destruct (serverjs_null_variant_becomes_nan_line
              (Fixture.completed_services Demo.session
                 (map Processor.stored
                    (map ServerJs.line_item Fixture.cart_with_null_variant))
                 (inr tt))
              Demo.env Express.Unparsed None
              {| Stripe.type := "checkout.session.completed";
                 Stripe.data_object := Demo.session |}
              Fixture.cart_with_null_variant
              (map Processor.stored
                 (map ServerJs.line_item Fixture.cart_with_null_variant))
              Demo.customer Demo.address)
    as (_ & _ & order & Ho & Hi & _).
  - reflexivity.
  - reflexivity.
  - reflexivity.
  - repeat constructor; eexists; split; reflexivity.
  - constructor; [intros v Hv; injection Hv as <-; reflexivity|].
    constructor; [intros v Hv; discriminate Hv|constructor].
  - reflexivity.
  - reflexivity.
  - split; [reflexivity|]. exists order. split; [exact Ho|exact Hi].
Defined.
